(** * pvs_frozen: the PV monitoring engine of [pvs_frozen.py]

    A shallow embedding of class [MonitorThread]: the name filter, the
    per-PV value history fed by the bootstrap read and by the subscription
    callback, the freeze / disconnect classification and the check cycle.

    Conventions of the embedding.
    - A PV value is [option Reading]: [None] is Python's [None] (what
      [get_pv_value] returns when [epics.caget] fails), [Some r] a scalar
      reading, which is a number or the float NaN.  Python's [==] on such
      values is exact equality on numbers, and is false whenever one side
      is NaN, the same NaN included.
    - The callbacks of the monitors run on the thread of the Channel
      Access library.  They are placed between the statements of [run]
      (after each [start_pv_monitor] call and during its sleep) and
      between the method calls of an execution; a check cycle reads the
      store as it stands when the cycle starts.
    - [self.pv_values] and [self.pv_monitors] are Python dicts: they keep
      insertion order, and [check_pvs] walks the keys in that order, so they
      are association lists with unique keys maintained by [dict_set].
    - A Qt signal's [emit] appends to the log [emitted] of the thread.
    - Methods that write to [self] or may raise run in the monad [M]. *)

From Stdlib Require Import ZArith List String Ascii Bool Lia Arith DecimalString.
From Stdlib Require PrimFloat FloatOps SpecFloat Uint63.
Import ListNotations.

Local Open Scope string_scope.
Local Open Scope list_scope.

(** ** Python strings: [str.startswith], [str.endswith] *)

Definition startswith (s p : string) : bool := String.prefix p s.

Definition endswith (s suffix : string) : bool :=
  let n := String.length s in
  let m := String.length suffix in
  (m <=? n)%nat && String.eqb (substring (n - m) m s) suffix.

(** ** Python dicts with string keys, in insertion order *)

Section Dict.
Context {V : Type}.

Definition dict : Type := list (string * V).

(** [d[k]] / [k in d] *)
Fixpoint dict_get (d : dict) (k : string) : option V :=
  match d with
  | [] => None
  | (k', v) :: rest => if String.eqb k' k then Some v else dict_get rest k
  end.

Definition dict_mem (d : dict) (k : string) : bool :=
  match dict_get d k with Some _ => true | None => false end.

(** [d[k] = v]: an existing key keeps its position, a new one goes last. *)
Fixpoint dict_set (d : dict) (k : string) (v : V) : dict :=
  match d with
  | [] => [(k, v)]
  | (k', v') :: rest =>
      if String.eqb k' k then (k', v) :: rest
      else (k', v') :: dict_set rest k v
  end.

(** [del d[k]] *)
Definition dict_del (d : dict) (k : string) : dict :=
  filter (fun kv => negb (String.eqb (fst kv) k)) d.

(** [d.keys()] *)
Definition dict_keys (d : dict) : list string := map fst d.
End Dict.

Arguments dict : clear implicits.

(** ** Data of a [MonitorThread] *)

(** A scalar reading: a number, or the float NaN. *)
Inductive Reading : Type :=
| Num (z : Z)
| NaN.

(** A PV reading; [None] is Python's [None]. *)
Definition PyValue : Type := option Reading.

(** Python's [==] on readings: [None == None] holds, numbers compare by
    value, and NaN equals nothing, itself included. *)
Definition py_eq (a b : PyValue) : bool :=
  match a, b with
  | None, None => true
  | Some (Num x), Some (Num y) => Z.eqb x y
  | _, _ => false
  end.

(** [v is None] *)
Definition is_None (v : PyValue) : bool :=
  match v with None => true | Some _ => false end.

(** A reading of [time.time()]; the monitor only stores these. *)
Definition Timestamp : Type := Z.

(** The entry [{"values": [...], "timestamps": [...]}] kept for one PV. *)
Record History : Type := mkHistory {
  values : list PyValue;
  timestamps : list Timestamp
}.

(** What [epics.camonitor] returns. *)
Definition Handle : Type := Z.

(** A [QTimer]: its interval in milliseconds and whether it is running. *)
Record QTimer : Type := mkQTimer {
  interval : Z;
  active : bool
}.

(** The [pyqtSignal]s of the class, with the argument of one emission. *)
Inductive Signal : Type :=
| updt_pv_log (pvs : list string)
| update_status (text : string)
| frozen_pvs_signal (pvs : list string)
| frozen_check_duration_signal (d : Z)
| progress_update (percent : Z)
| not_stored_pvs_signal (pvs : list string).

(** The attributes of a [MonitorThread]; [conn] is [true] for a connected
    [ClientArchiver] and [false] for [None]. *)
Record MonitorThread : Type := mkMonitorThread {
  ignored_pvs : list string;
  set_point_suffixes : list string;
  conn : bool;
  filters : list (option string);
  pv_values : dict History;
  pv_monitors : dict Handle;
  check_interval : Z;
  frozen_check_duration : Z;
  initial_check_delay : Z;
  start_time : option Timestamp;
  timer : option QTimer;
  running : bool;
  emitted : list Signal
}.

(** The class attributes. *)
Definition default_ignored_pvs : list string :=
  [ "RAD:Thermo3:TotalDoseRate:Dose";
    "RAD:Thermo6:TotalDoseRate:Dose";
    "RAD:Thermo12:TotalDoseRate:Dose" ].

Definition default_set_point_suffixes : list string :=
  [ "-SP"; "-Setpoint"; "-SP:RBV" ].

(** [MonitorThread.__init__]; [filters=None] is the default, and
    [filters or []] turns it (and the empty list) into [[]]. *)
Definition init (filters0 : option (list (option string)))
    (check_interval0 frozen_check_duration0 initial_check_delay0 : Z)
  : MonitorThread :=
  {| ignored_pvs := default_ignored_pvs;
     set_point_suffixes := default_set_point_suffixes;
     conn := false;
     filters := match filters0 with Some (f :: fs) => f :: fs | _ => [] end;
     pv_values := [];
     pv_monitors := [];
     check_interval := check_interval0;
     frozen_check_duration := frozen_check_duration0;
     initial_check_delay := initial_check_delay0;
     start_time := None;
     timer := None;
     running := true;
     emitted := [] |}.

(** The constructor with every default: [MonitorThread()]. *)
Definition init_default : MonitorThread := init None 10 (2 * 60) (10 * 60).

(** ** The monad of methods: state [self], exceptions *)

Inductive exn : Type := IndexError.

Inductive outcome (A : Type) : Type :=
| Return (a : A) (self : MonitorThread)
| Raise (e : exn) (self : MonitorThread).
Arguments Return {A} a self.
Arguments Raise {A} e self.

Definition M (A : Type) : Type := MonitorThread -> outcome A.

Definition ret {A} (a : A) : M A := fun self => Return a self.

Definition bind {A B} (m : M A) (k : A -> M B) : M B :=
  fun self =>
    match m self with
    | Return a self' => k a self'
    | Raise e self' => Raise e self'
    end.

Definition raise {A} (e : exn) : M A := fun self => Raise e self.

Definition get_self : M MonitorThread := fun self => Return self self.

Declare Scope monad_scope.
Delimit Scope monad_scope with monad.
Notation "x <- m ;; k" := (bind m (fun x => k))
  (at level 61, m at next level, right associativity) : monad_scope.
Notation "m ;;; k" := (bind m (fun _ => k))
  (at level 61, right associativity) : monad_scope.
Local Open Scope monad_scope.

(** Assignments to the attributes of [self] that the methods write. *)
Definition with_emitted (self : MonitorThread) (l : list Signal) : MonitorThread :=
  mkMonitorThread (ignored_pvs self) (set_point_suffixes self) (conn self)
    (filters self)
    (pv_values self) (pv_monitors self) (check_interval self)
    (frozen_check_duration self) (initial_check_delay self)
    (start_time self) (timer self) (running self) l.

Definition with_conn (self : MonitorThread) (c : bool) : MonitorThread :=
  mkMonitorThread (ignored_pvs self) (set_point_suffixes self) c
    (filters self)
    (pv_values self) (pv_monitors self) (check_interval self)
    (frozen_check_duration self) (initial_check_delay self)
    (start_time self) (timer self) (running self) (emitted self).

Definition with_pv_values (self : MonitorThread) (d : dict History) : MonitorThread :=
  mkMonitorThread (ignored_pvs self) (set_point_suffixes self) (conn self)
    (filters self)
    d (pv_monitors self) (check_interval self)
    (frozen_check_duration self) (initial_check_delay self)
    (start_time self) (timer self) (running self) (emitted self).

Definition with_pv_monitors (self : MonitorThread) (d : dict Handle) : MonitorThread :=
  mkMonitorThread (ignored_pvs self) (set_point_suffixes self) (conn self)
    (filters self)
    (pv_values self) d (check_interval self)
    (frozen_check_duration self) (initial_check_delay self)
    (start_time self) (timer self) (running self) (emitted self).

Definition with_start_time (self : MonitorThread) (t : option Timestamp) : MonitorThread :=
  mkMonitorThread (ignored_pvs self) (set_point_suffixes self) (conn self)
    (filters self)
    (pv_values self) (pv_monitors self) (check_interval self)
    (frozen_check_duration self) (initial_check_delay self)
    t (timer self) (running self) (emitted self).

Definition with_timer (self : MonitorThread) (t : option QTimer) : MonitorThread :=
  mkMonitorThread (ignored_pvs self) (set_point_suffixes self) (conn self)
    (filters self)
    (pv_values self) (pv_monitors self) (check_interval self)
    (frozen_check_duration self) (initial_check_delay self)
    (start_time self) t (running self) (emitted self).

Definition with_running (self : MonitorThread) (b : bool) : MonitorThread :=
  mkMonitorThread (ignored_pvs self) (set_point_suffixes self) (conn self)
    (filters self)
    (pv_values self) (pv_monitors self) (check_interval self)
    (frozen_check_duration self) (initial_check_delay self)
    (start_time self) (timer self) b (emitted self).

Definition modify (f : MonitorThread -> MonitorThread) : M unit :=
  fun self => Return tt (f self).

(** [self.<signal>.emit(...)] *)
Definition emit (sig : Signal) : M unit :=
  modify (fun self => with_emitted self (emitted self ++ [sig])).

(** [lst[i]] for a non-negative [i]: raises [IndexError] out of range. *)
Definition py_index {A} (l : list A) (i : nat) : M A :=
  match nth_error l i with
  | Some a => ret a
  | None => raise IndexError
  end.

(** ** Freeze / disconnect classification *)

(** [any(pvname.endswith(suffix) for suffix in self.set_point_suffixes)] *)
Definition is_set_point_pv (self : MonitorThread) (pvname : string) : bool :=
  existsb (fun suffix => endswith pvname suffix) (set_point_suffixes self).

(** [not l] for a list *)
Definition py_not {A} (l : list A) : bool :=
  match l with [] => true | _ => false end.

(** [l[-1]] and [l[0]] of a list known to be non-empty at the call. *)
Definition py_last (l : list PyValue) : PyValue := last l None.
Definition py_first (l : list PyValue) : PyValue := hd None l.

(** [l[:n]] for [n >= 0] *)
Definition slice_to {A} (n : nat) (l : list A) : list A := firstn n l.

(** [l[-n:]] for [n >= 0]: the start [-n] is taken from the end when it is
    negative and clamped at 0; [-0] is 0, the whole list. *)
Definition slice_from_neg {A} (n : nat) (l : list A) : list A :=
  match n with
  | O => l
  | S _ => skipn (List.length l - n) l
  end.

(** The sample count and the two windows of [check_pv_frozen]:
    [min(15, len(values))], [values[:num_samples]] and
    [values[-num_samples:] if len(values) >= num_samples else values]. *)
Definition num_samples_of (values : list PyValue) : nat :=
  Nat.min 15 (List.length values).

Definition first_values_of (values : list PyValue) : list PyValue :=
  slice_to (num_samples_of values) values.

Definition last_values_of (values : list PyValue) : list PyValue :=
  if (num_samples_of values <=? List.length values)%nat
  then slice_from_neg (num_samples_of values) values
  else values.

(** [all(v == window[0] for v in window)] *)
Definition all_equal_first (window : list PyValue) : bool :=
  forallb (fun v => py_eq v (py_first window)) window.

Definition check_pv_frozen (self : MonitorThread) (pvname : string) : bool :=
  match dict_get (pv_values self) pvname with
  | None => false
  | Some h =>
      let values := values h in
      let timestamps := timestamps h in
      if py_not values || py_not timestamps then false
      else if is_set_point_pv self pvname then true
      else if is_None (py_last values) then false
      else
        let first_values := first_values_of values in
        let last_values := last_values_of values in
        if (List.length first_values <? 1)%nat
           || (List.length last_values <? 1)%nat
        then false
        else
          let all_first_equal := all_equal_first first_values in
          let all_last_equal := all_equal_first last_values in
          let first_last_equal :=
            py_eq (py_first first_values) (py_first last_values) in
          if all_first_equal && all_last_equal && first_last_equal
          then true
          else false
  end.

Definition check_pv_connected (self : MonitorThread) (pvname : string) : bool :=
  match dict_get (pv_values self) pvname with
  | None => false
  | Some h =>
      let values := values h in
      (0 <? List.length values)%nat && negb (is_None (py_last values))
  end.

(** ** Python floats: the arithmetic of the progress percentage

    [int((i + 1) / total_pvs * 100)] is computed in binary64.  A finite
    non-negative double is an integer multiple of [2^-1074], the smallest
    subnormal, so it is represented here by that integer (its number of
    units): [1.0] is [2^1074].  The results of this program are at most
    [100.0], so overflow never arises. *)

Module Binary64.

Local Open Scope Z_scope.

(** A non-negative double, in units of [2^-1074]. *)
Definition double : Type := Z.

Definition unit_exp : Z := 1074.

(** Round-half-to-even of the quotient [a / b], for [0 <= a], [0 < b]. *)
Definition rne (a b : Z) : Z :=
  let k := a / b in
  let r := a mod b in
  match 2 * r ?= b with
  | Lt => k
  | Gt => k + 1
  | Eq => if Z.even k then k else k + 1
  end.

(** The double nearest to [a / b] units: 53 significant bits are kept,
    so the last [s] bits of the integer part are rounded away, where
    [s] is the excess of its bit length over 53 (none for subnormals). *)
Definition round_units (a b : Z) : double :=
  let s := Z.max (Z.log2 (a / b) - 52) 0 in
  rne a (b * 2 ^ s) * 2 ^ s.

(** [a / b] on Python ints: the correctly rounded quotient. *)
Definition truediv (a b : Z) : double := round_units (2 ^ unit_exp * a) b.

(** [x * k] for a float [x] and an int [k] below [2^53]: [k] converts
    exactly and the product is correctly rounded. *)
Definition mul_int (x : double) (k : Z) : double := round_units (x * k) 1.

(** [int(x)]: truncation. *)
Definition to_int (x : double) : Z := x / 2 ^ unit_exp.

End Binary64.

(** [int((i + 1) / total_pvs * 100)] *)
Definition progress_percent (i total_pvs : nat) : Z :=
  Binary64.to_int
    (Binary64.mul_int
       (Binary64.truediv (Z.of_nat i + 1) (Z.of_nat total_pvs)) 100).

(** ** The name filter *)

(** Truth value of a filter entry: [None] and the empty string are false. *)
Definition py_truthy (f : option string) : bool :=
  match f with
  | None => false
  | Some s => negb (String.eqb s "")
  end.

(** [pvname.startswith(f)] / [pvname.endswith(f)], evaluated only when the
    entry [f] is truthy, hence a string. *)
Definition startswith_opt (pvname : string) (f : option string) : bool :=
  match f with Some p => startswith pvname p | None => false end.

Definition endswith_opt (pvname : string) (f : option string) : bool :=
  match f with Some p => endswith pvname p | None => false end.

(** [pvname in lst] *)
Definition py_in (pvname : string) (lst : list string) : bool :=
  existsb (String.eqb pvname) lst.

(** The body of [for i, pvname in enumerate(all_pvnames)], from index [i]
    on; [filtered_pvnames] is the list built so far. *)
Fixpoint filter_loop (filter1 filter2 : option string) (total_pvs : nat)
    (i : nat) (rest : list string) (filtered_pvnames : list string)
  : M (list string) :=
  match rest with
  | [] => ret filtered_pvnames
  | pvname :: rest' =>
      self <- get_self ;;
      if py_in pvname (ignored_pvs self)
      then filter_loop filter1 filter2 total_pvs (S i) rest' filtered_pvnames
      else if py_truthy filter1 && negb (startswith_opt pvname filter1)
      then filter_loop filter1 filter2 total_pvs (S i) rest' filtered_pvnames
      else if py_truthy filter2 && negb (endswith_opt pvname filter2)
      then filter_loop filter1 filter2 total_pvs (S i) rest' filtered_pvnames
      else
        let progress := progress_percent i total_pvs in
        emit (progress_update progress) ;;;
        filter_loop filter1 filter2 total_pvs (S i) rest'
          (filtered_pvnames ++ [pvname])
  end.

Definition filter_pvnames (all_pvnames : list string) : M (list string) :=
  let filtered_pvnames := [] in
  if py_not all_pvnames then ret filtered_pvnames
  else
    self <- get_self ;;
    filter1 <- py_index (filters self) 0 ;;
    filter2 <- py_index (filters self) 1 ;;
    let total_pvs := List.length all_pvnames in
    filter_loop filter1 filter2 total_pvs 0 all_pvnames filtered_pvnames.

(** ** History capture, scheduling and teardown *)

(** The closure [callback] of [start_pv_monitor]; [now] is the reading of
    [time.time()]. *)
Definition history_append (d : dict History) (pvname : string)
    (value : PyValue) (now : Timestamp) : dict History :=
  let d1 :=
    if negb (dict_mem d pvname) then dict_set d pvname (mkHistory [] [])
    else d in
  match dict_get d1 pvname with
  | Some h =>
      let d2 := dict_set d1 pvname (mkHistory (values h ++ [value]) (timestamps h)) in
      match dict_get d2 pvname with
      | Some h2 =>
          dict_set d2 pvname (mkHistory (values h2) (timestamps h2 ++ [now]))
      | None => d2
      end
  | None => d1
  end.

Definition callback (pvname : string) (value : PyValue) (now : Timestamp)
  : M unit :=
  modify (fun self =>
    with_pv_values self (history_append (pv_values self) pvname value now)).

(** [start_pv_monitor] (the second definition of the class, which replaces
    the first): [initial_value] is what [get_pv_value] returned, [None]
    when [epics.caget] failed; [handle] is what [epics.camonitor] returned. *)
Definition start_pv_monitor (pvname : string) (initial_value : PyValue)
    (now : Timestamp) (handle : Handle) : M unit :=
  modify (fun self =>
    with_pv_values self
      (history_append (pv_values self) pvname initial_value now)) ;;;
  modify (fun self =>
    with_pv_monitors self (dict_set (pv_monitors self) pvname handle)).

(** [stop_pv_monitor]: [epics.camonitor_clear] and [del]. *)
Definition stop_pv_monitor (pvname : string) : M unit :=
  self <- get_self ;;
  if dict_mem (pv_monitors self) pvname
  then modify (fun self =>
         with_pv_monitors self (dict_del (pv_monitors self) pvname))
  else ret tt.

(** [stop] *)
Definition stop : M unit :=
  modify (fun self => with_running self false) ;;;
  self <- get_self ;;
  match timer self with
  | Some t =>
      modify (fun self => with_timer self (Some (mkQTimer (interval t) false)))
  | None => ret tt
  end ;;;
  emit (update_status "Monitoramento interrompido.").

(** ** The check cycle *)

(** The body of [for pvname in self.pv_values.keys()]. *)
Fixpoint check_loop (self : MonitorThread) (keys : list string)
    (frozen_pvs disconnected_pvs : list string)
    (ctrl_frozen ctrl_disconnected : Z)
  : list string * list string * Z * Z :=
  match keys with
  | [] => (frozen_pvs, disconnected_pvs, ctrl_frozen, ctrl_disconnected)
  | pvname :: keys' =>
      if negb (check_pv_connected self pvname)
      then check_loop self keys' frozen_pvs (disconnected_pvs ++ [pvname])
             ctrl_frozen (ctrl_disconnected + 1)
      else if check_pv_frozen self pvname
      then check_loop self keys' (frozen_pvs ++ [pvname]) disconnected_pvs
             (ctrl_frozen + 1) ctrl_disconnected
      else check_loop self keys' frozen_pvs disconnected_pvs
             ctrl_frozen ctrl_disconnected
  end.

(** The lists and counters [check_pvs] has built when its loop ends. *)
Definition classify_all (self : MonitorThread)
  : list string * list string * Z * Z :=
  check_loop self (dict_keys (pv_values self)) [] [] 0 0.

Definition frozen_pvs_of (self : MonitorThread) : list string :=
  fst (fst (fst (classify_all self))).

Definition disconnected_pvs_of (self : MonitorThread) : list string :=
  snd (fst (fst (classify_all self))).

(** [str(n)] inside an f-string *)
Definition py_str (n : Z) : string := NilZero.string_of_int (Z.to_int n).

Definition list_pvs (total_pvs ctrl_frozen ctrl_disconnected : Z) : M unit :=
  emit (update_status ("Quantidade de PVs analisadas = " ++ py_str total_pvs)%string) ;;;
  emit (update_status ("Quantidade de PVs congeladas = " ++ py_str ctrl_frozen)%string) ;;;
  emit (update_status ("Quantidade de PVs desconectadas = " ++ py_str ctrl_disconnected)%string) ;;;
  emit (update_status "Análise finalizada.").

Definition check_pvs : M unit :=
  self <- get_self ;;
  let '(frozen_pvs, disconnected_pvs, ctrl_frozen, ctrl_disconnected) :=
    classify_all self in
  emit (frozen_pvs_signal (if py_not frozen_pvs then [] else frozen_pvs)) ;;;
  emit (not_stored_pvs_signal
          (if py_not disconnected_pvs then [] else disconnected_pvs)) ;;;
  list_pvs (Z.of_nat (List.length (pv_values self))) ctrl_frozen ctrl_disconnected.

Definition start_frozen_check : M unit :=
  emit (update_status "Iniciando monitoramento...") ;;;
  modify (fun self =>
    with_timer self (Some (mkQTimer (check_interval self * 1000) true))) ;;;
  check_pvs.

(** ** Deliveries of the Channel Access library

    One invocation of a monitor callback: the arguments [pvname] and
    [value] the library passes, and the reading of [time.time()] inside
    the callback. *)
Record Arrival : Type := mkArrival {
  arrival_pvname : string;
  arrival_value : PyValue;
  arrival_now : Timestamp
}.

(** The library invokes the callback of a PV only while the monitor of the
    PV is open. *)
Definition on_arrival (a : Arrival) : M unit :=
  self <- get_self ;;
  if dict_mem (pv_monitors self) (arrival_pvname a)
  then callback (arrival_pvname a) (arrival_value a) (arrival_now a)
  else ret tt.

Fixpoint on_arrivals (arrivals : list Arrival) : M unit :=
  match arrivals with
  | [] => ret tt
  | a :: rest => on_arrival a ;;; on_arrivals rest
  end.

(** ** The run of the thread

    What the outside world answers during [run]: whether the archiver
    connects within the timeout, the names [getAllPVs] lists ([None] when
    it returns nothing), for each PV the value [epics.caget] reads, the
    clock at that moment and the handle of its monitor, and the callbacks
    the library delivers while [run] is under way: [arrivals_after w
    pvname] once the monitor of [pvname] is started and before [run] goes
    on to the next name, [arrivals_during_sleep w] during
    [time.sleep(2)].  [clock_start] is the clock after the sleep. *)
Record World : Type := mkWorld {
  archiver_connects : bool;
  getAllPVs : option (list string);
  caget : string -> PyValue;
  clock_at : string -> Timestamp;
  camonitor : string -> Handle;
  arrivals_after : string -> list Arrival;
  arrivals_during_sleep : list Arrival;
  clock_start : Timestamp
}.

(** [for pvname in filtered_pvnames: self.start_pv_monitor(pvname)] *)
Fixpoint start_monitors (w : World) (filtered_pvnames : list string) : M unit :=
  match filtered_pvnames with
  | [] => ret tt
  | pvname :: rest =>
      start_pv_monitor pvname (caget w pvname) (clock_at w pvname)
        (camonitor w pvname) ;;;
      on_arrivals (arrivals_after w pvname) ;;;
      start_monitors w rest
  end.

Definition run (w : World) : M unit :=
  modify (fun self => with_conn self (archiver_connects w)) ;;;
  self <- get_self ;;
  if negb (conn self)
  then emit (update_status "Não foi possível conectar ao banco de dados.")
  else
    match getAllPVs w with
    | None | Some [] => emit (update_status "Nenhuma PV encontrada.")
    | Some all_pvnames =>
        filtered_pvnames <- filter_pvnames all_pvnames ;;
        emit (updt_pv_log filtered_pvnames) ;;;
        emit (update_status "Listagem e filtragem concluídas.") ;;;
        start_monitors w filtered_pvnames ;;;
        on_arrivals (arrivals_during_sleep w) ;;;
        modify (fun self => with_start_time self (Some (clock_start w))) ;;;
        start_frozen_check ;;;
        emit (progress_update 100) ;;;
        emit (update_status "Processamento Concluído.")
    end.

(** ** Executions

    What can happen to a thread object: its methods are called, and the
    Channel Access library delivers a value to the callback of a PV that
    has an open monitor. *)
Inductive Event : Type :=
| EvRun (w : World)
| EvStartMonitor (pvname : string) (initial_value : PyValue)
    (now : Timestamp) (handle : Handle)
| EvCallback (pvname : string) (value : PyValue) (now : Timestamp)
| EvCheck
| EvStopMonitor (pvname : string)
| EvStop.

(** The object after a method has run, whether it returned or raised. *)
Definition state_after {A} (o : outcome A) : MonitorThread :=
  match o with
  | Return _ self => self
  | Raise _ self => self
  end.

Definition step (self : MonitorThread) (ev : Event) : MonitorThread :=
  match ev with
  | EvRun w => state_after (run w self)
  | EvStartMonitor pvname v now h =>
      state_after (start_pv_monitor pvname v now h self)
  | EvCallback pvname v now =>
      if dict_mem (pv_monitors self) pvname
      then state_after (callback pvname v now self)
      else self
  | EvCheck => state_after (check_pvs self)
  | EvStopMonitor pvname => state_after (stop_pv_monitor pvname self)
  | EvStop => state_after (stop self)
  end.

Definition run_events (self : MonitorThread) (evs : list Event) : MonitorThread :=
  fold_left step evs self.

(** ** The window: the slots of [MainWindow]

    The window as the data its slots read and write: the text panes are
    the lists of the texts appended to them, the progress bar and the
    labels are their values.  The two services the link needs from outside
    the program are taken as functions: [urlencode frozen_pvs from to] is
    [urllib.parse.urlencode] of the three parameters [pv], [from] and [to]
    with [doseq=True] and [safe=':/'], and [get_time_string offset] is the
    formatted UTC clock [offset] minutes ago. *)
Module MainWindow.

Record t : Type := mk {
  generated_url : option string;
  frozen_check_duration : Z;
  filter1_input : string;
  filter2_input : string;
  interval_input : Z;
  frozen_duration_input : Z;
  progress_bar : Z;
  status_label : string;
  pv_output : list string;
  status_output : list string;
  frozen_pv_output : list string;
  disconnected_pv_output : list string;
  open_link_button_visible : bool
}.

(** [MainWindow.__init__] and [init_ui], with the texts the user has typed
    in the two filter boxes. *)
Definition init (filter1_text filter2_text : string) : t :=
  {| generated_url := None;
     frozen_check_duration := 0;
     filter1_input := filter1_text;
     filter2_input := filter2_text;
     interval_input := 1;
     frozen_duration_input := 5;
     progress_bar := 0;
     status_label := "Status: Ocioso";
     pv_output := [];
     status_output := [];
     frozen_pv_output := [];
     disconnected_pv_output := [];
     open_link_button_visible := false |}.

Definition base_url : string := "http://archiver-viewer.lnls.br/".

(** The line feed of the f-string of the link. *)
Definition nl : string := String (ascii_of_nat 10) EmptyString.

Definition update_disconnected_pv_output (disconnected_pvs : list string)
    (win : t) : t :=
  mk (generated_url win) (frozen_check_duration win) (filter1_input win)
    (filter2_input win) (interval_input win) (frozen_duration_input win)
    (progress_bar win) (status_label win) (pv_output win) (status_output win)
    (frozen_pv_output win)
    (if py_not disconnected_pvs
     then ["Nenhuma PV desconectada detectada."]
     else "PVs desconectadas:" :: disconnected_pvs)
    (open_link_button_visible win).

Definition stop_monitor (win : t) : t :=
  mk (generated_url win) (frozen_check_duration win) (filter1_input win)
    (filter2_input win) (interval_input win) (frozen_duration_input win)
    0 "Status: Interrompido" (pv_output win) (status_output win)
    (frozen_pv_output win) (disconnected_pv_output win)
    (open_link_button_visible win).

Definition clear_monitor (win : t) : t :=
  mk (generated_url win) (frozen_check_duration win) (filter1_input win)
    (filter2_input win) (interval_input win) (frozen_duration_input win)
    0 "Status: Ocioso" [] [] [] []
    (open_link_button_visible win).

Definition set_frozen_check_duration (duration : Z) (win : t) : t :=
  mk (generated_url win) duration (filter1_input win)
    (filter2_input win) (interval_input win) (frozen_duration_input win)
    (progress_bar win) (status_label win) (pv_output win) (status_output win)
    (frozen_pv_output win) (disconnected_pv_output win)
    (open_link_button_visible win).

(** [QProgressBar.setValue] under the range [0, 100] that [init_ui] sets:
    a value outside the range leaves the bar at [current]. *)
Definition setValue (value current : Z) : Z :=
  if ((0 <=? value) && (value <=? 100))%Z then value else current.

Definition update_progress (value : Z) (win : t) : t :=
  mk (generated_url win) (frozen_check_duration win) (filter1_input win)
    (filter2_input win) (interval_input win) (frozen_duration_input win)
    (setValue value (progress_bar win)) (status_label win) (pv_output win) (status_output win)
    (frozen_pv_output win) (disconnected_pv_output win)
    (open_link_button_visible win).

Definition update_pv_output (pv_list : list string) (win : t) : t :=
  mk (generated_url win) (frozen_check_duration win) (filter1_input win)
    (filter2_input win) (interval_input win) (frozen_duration_input win)
    (progress_bar win) (status_label win)
    (if py_not pv_list then ["Nenhuma PV foi listada."] else pv_list)
    (status_output win)
    (frozen_pv_output win) (disconnected_pv_output win)
    (open_link_button_visible win).

Definition update_status_output (status : string) (win : t) : t :=
  mk (generated_url win) (frozen_check_duration win) (filter1_input win)
    (filter2_input win) (interval_input win) (frozen_duration_input win)
    (progress_bar win) (status_label win) (pv_output win)
    (status_output win ++ [status])
    (frozen_pv_output win) (disconnected_pv_output win)
    (open_link_button_visible win).

(** The window part of [start_monitor_thread]; [thread_running] says
    whether a thread exists and is running, in which case [stop_monitor]
    is called first. *)
Definition start_monitor_thread (thread_running : bool) (win : t) : t :=
  let win := if thread_running then stop_monitor win else win in
  mk (generated_url win) (frozen_check_duration win) (filter1_input win)
    (filter2_input win) (interval_input win) (frozen_duration_input win)
    (progress_bar win) "Status: OK" (pv_output win)
    (status_output win ++ ["Monitoramento iniciado."])
    (frozen_pv_output win) (disconnected_pv_output win)
    (open_link_button_visible win).

Section Link.
Variable urlencode : list string -> string -> string -> string.
Variable get_time_string : Z -> string.

Definition update_frozen_pv_output (frozen_pvs : list string) (win : t) : t :=
  if py_not frozen_pvs
  then
    mk (generated_url win) (frozen_check_duration win) (filter1_input win)
      (filter2_input win) (interval_input win) (frozen_duration_input win)
      (progress_bar win) (status_label win) (pv_output win)
      (status_output win)
      ["Nenhuma PV congelada detectada."] (disconnected_pv_output win)
      (open_link_button_visible win)
  else
    let query_string :=
      urlencode frozen_pvs
        (get_time_string (frozen_check_duration win / 60))
        (get_time_string 0) in
    let url := (base_url ++ "?" ++ query_string)%string in
    mk (Some url) (frozen_check_duration win) (filter1_input win)
      (filter2_input win) (interval_input win) (frozen_duration_input win)
      (progress_bar win) (status_label win) (pv_output win)
      (status_output win)
      (("PVs congeladas:" :: frozen_pvs)
       ++ [(nl ++ "Link gerado:" ++ nl ++ url)%string])
      (disconnected_pv_output win)
      true.

(** The slot each signal of the thread is connected to. *)
Definition deliver (sig : Signal) (win : t) : t :=
  match sig with
  | updt_pv_log pvs => update_pv_output pvs win
  | update_status text => update_status_output text win
  | frozen_pvs_signal pvs => update_frozen_pv_output pvs win
  | frozen_check_duration_signal d => set_frozen_check_duration d win
  | not_stored_pvs_signal pvs => update_disconnected_pv_output pvs win
  | progress_update percent => update_progress percent win
  end.

(** What happens to a window: a signal arrives, or a button is clicked. *)
Inductive Op : Type :=
| Deliver (sig : Signal)
| ClickStop
| ClickClear
| ClickListPVs (thread_running : bool)
| ClickOpenLink.

Definition apply (win : t) (op : Op) : t :=
  match op with
  | Deliver sig => deliver sig win
  | ClickStop => stop_monitor win
  | ClickClear => clear_monitor win
  | ClickListPVs thread_running => start_monitor_thread thread_running win
  | ClickOpenLink => win
  end.

Definition run_ops (win : t) (ops : list Op) : t := fold_left apply ops win.

(** The signals of a log, delivered in order. *)
Definition deliver_all (win : t) (log : list Signal) : t :=
  fold_left (fun win sig => deliver sig win) log win.

End Link.

End MainWindow.

(** The thread object [MainWindow.start_monitor_thread] builds from the two
    filter boxes and the two spin boxes: the first filter is the text of
    the first box, the second one the text of the second box or [None]
    when that box is empty, and [initial_check_delay] keeps its default. *)
Definition thread_of_window (filter1_text filter2_text : string)
    (interval_value frozen_duration_value : Z) : MonitorThread :=
  init (Some [ Some filter1_text;
               if String.eqb filter2_text "" then None
               else Some filter2_text ])
    interval_value (frozen_duration_value * 60) (10 * 60).

(** * Vocabulary of the properties *)

(** The entry of [pvname] before an append: the one stored, or the fresh
    [{"values": [], "timestamps": []}]. *)
Definition entry_or_fresh (d : dict History) (pvname : string) : History :=
  match dict_get d pvname with
  | Some h => h
  | None => mkHistory [] []
  end.

(** [same_registry s s']: the two dicts and the configuration of [s'] are
    those of [s]; only signals, timer, connection and flags may differ. *)
Definition same_registry (s s' : MonitorThread) : Prop :=
  pv_values s' = pv_values s
  /\ pv_monitors s' = pv_monitors s
  /\ set_point_suffixes s' = set_point_suffixes s
  /\ ignored_pvs s' = ignored_pvs s
  /\ filters s' = filters s.

(** [frames m]: the method [m] leaves the registry as it found it,
    whether it returns or raises. *)
Definition frames {A} (m : M A) : Prop :=
  forall self, same_registry self (state_after (m self)).

(** A history with at least one sample and one timestamp per value. *)
Definition history_ok (h : History) : Prop :=
  values h <> [] /\ List.length (values h) = List.length (timestamps h).

(** The invariant of the history store: the set-point suffixes are the
    class's, every history is [history_ok], and every PV with an open
    monitor has a history. *)
Definition Inv (self : MonitorThread) : Prop :=
  set_point_suffixes self = default_set_point_suffixes
  /\ (forall k h, dict_get (pv_values self) k = Some h -> history_ok h)
  /\ (forall k, dict_mem (pv_monitors self) k = true ->
                dict_mem (pv_values self) k = true).

(** [preserves P m]: the method [m] keeps the state property [P], whether
    it returns or raises.  [registry_property P]: [P] only looks at the
    registry. *)
Definition preserves (P : MonitorThread -> Prop) {A} (m : M A) : Prop :=
  forall self, P self -> P (state_after (m self)).

Definition registry_property (P : MonitorThread -> Prop) : Prop :=
  forall s s', same_registry s s' -> P s -> P s'.

(** The events that give [pvname] the history [vs]: the bootstrap read of
    the first value, then one callback per later value. *)
Definition feed (pvname : string) (vs : list PyValue) : list Event :=
  match vs with
  | [] => []
  | v :: later =>
      EvStartMonitor pvname v 0%Z 1%Z
        :: map (fun v' => EvCallback pvname v' 0%Z) later
  end.



(** C7 as the specification states it, for one PV: when its history is
    one value other than [None] and it is no set point, it is frozen. *)
Definition single_sample_frozen (self : MonitorThread) (pvname : string)
  : Prop :=
  forall h v,
    dict_get (pv_values self) pvname = Some h ->
    values h = [Some v] ->
    is_set_point_pv self pvname = false ->
    check_pv_frozen self pvname = true.

(** A thread whose only PV has the single reading NaN. *)
Definition thread_with_nan_sample : MonitorThread :=
  run_events init_default (feed "SI-01M1:PS-Temp-Mon" [Some NaN]).

(** The three tests of the loop body, as one predicate: the name is kept. *)
Definition keepb (ignored : list string) (filter1 filter2 : option string)
    (pvname : string) : bool :=
  negb (py_in pvname ignored)
  && negb (py_truthy filter1 && negb (startswith_opt pvname filter1))
  && negb (py_truthy filter2 && negb (endswith_opt pvname filter2)).

(** The indices, counted from [i], of the names that are kept. *)
Fixpoint kept_indices (keep : string -> bool) (i : nat) (names : list string)
  : list nat :=
  match names with
  | [] => []
  | pvname :: rest =>
      if keep pvname then i :: kept_indices keep (S i) rest
      else kept_indices keep (S i) rest
  end.

(** The progress values among the signals of a log. *)
Fixpoint progress_values (log : list Signal) : list Z :=
  match log with
  | [] => []
  | progress_update p :: rest => p :: progress_values rest
  | _ :: rest => progress_values rest
  end.

(** The thread the window builds for prefix [SI-01], suffix [Temp-Mon],
    with the ignore list of the example. *)
Definition example_filter_thread : MonitorThread :=
  mkMonitorThread ["A"] default_set_point_suffixes false
    [Some "SI-01"; Some "Temp-Mon"] [] [] 1 300 600 None None true [].

Definition example_names : list string :=
  ["SI-01:Temp-Mon"; "A"; "SI-02:Temp-Mon"; "SI-01:Other"].

(** The same expression on the hardware doubles of the kernel, for names
    lists short enough that [i + 1] and [total_pvs] convert exactly. *)
Definition progress_percent_hw (i total_pvs : nat) : option Z :=
  let x :=
    PrimFloat.mul
      (PrimFloat.div
         (PrimFloat.of_uint63 (Uint63.of_Z (Z.of_nat i + 1)))
         (PrimFloat.of_uint63 (Uint63.of_Z (Z.of_nat total_pvs))))
      (PrimFloat.of_uint63 (Uint63.of_Z 100)) in
  match FloatOps.Prim2SF x with
  | SpecFloat.S754_zero _ => Some 0%Z
  | SpecFloat.S754_finite false m e => Some (Z.shiftl (Z.pos m) e)
  | _ => None
  end.

(** A list of integers is non-decreasing: each element is at most every
    later one. *)
Fixpoint nondecreasing (l : list Z) : Prop :=
  match l with
  | [] => True
  | x :: rest => Forall (fun y => (x <= y)%Z) rest /\ nondecreasing rest
  end.

(** C5 as the specification states it, on a thread that has emitted
    nothing yet: one progress value per candidate, the last one 100. *)
Definition progress_after_every_candidate (self : MonitorThread)
    (all_pvnames : list string) : Prop :=
  let ps :=
    progress_values
      (emitted (state_after (filter_pvnames all_pvnames self))) in
  List.length ps = List.length all_pvnames
  /\ (all_pvnames <> [] -> last ps 0%Z = 100%Z).

(** The two operations that write the history store: the bootstrap of
    [start_pv_monitor] and the delivery of a value to the callback. *)
Inductive HistoryOp : Type :=
| Bootstrap (pvname : string) (initial_value : PyValue) (now : Timestamp)
    (handle : Handle)
| Delivery (pvname : string) (value : PyValue) (now : Timestamp).

Definition event_of (op : HistoryOp) : Event :=
  match op with
  | Bootstrap pvname v now handle => EvStartMonitor pvname v now handle
  | Delivery pvname v now => EvCallback pvname v now
  end.

(** The value and the clock of the first bootstrap read of [pvname]. *)
Fixpoint first_bootstrap (ops : list HistoryOp) (pvname : string)
  : option (PyValue * Timestamp) :=
  match ops with
  | [] => None
  | Bootstrap n v now _ :: rest =>
      if String.eqb n pvname then Some (v, now)
      else first_bootstrap rest pvname
  | Delivery _ _ _ :: rest => first_bootstrap rest pvname
  end.

(** Whether the operations hold a bootstrap of [pvname]. *)
Definition has_bootstrap (ops : list HistoryOp) (pvname : string) : bool :=
  match first_bootstrap ops pvname with
  | Some _ => true
  | None => false
  end.

(** The delivery of an arrival, as an operation on the store. *)
Definition delivery_of (a : Arrival) : HistoryOp :=
  Delivery (arrival_pvname a) (arrival_value a) (arrival_now a).

(** What [run] does to the store for one name it keeps: the bootstrap of
    [start_pv_monitor], then the callbacks that arrive before [run] goes
    on. *)
Definition monitor_ops (w : World) (pvname : string) : list HistoryOp :=
  Bootstrap pvname (caget w pvname) (clock_at w pvname) (camonitor w pvname)
    :: map delivery_of (arrivals_after w pvname).

(** The operations on the store inside a [run] that keeps the names
    [filtered_pvnames], in order, up to the end of its sleep. *)
Definition history_ops_of_run (w : World) (filtered_pvnames : list string)
  : list HistoryOp :=
  flat_map (monitor_ops w) filtered_pvnames
  ++ map delivery_of (arrivals_during_sleep w).

(** The thread when the sleep of [run] ends, as far as the registry goes:
    the first check cycle of [run] reads this store. *)
Definition monitored (w : World) (filtered_pvnames : list string)
    (self : MonitorThread) : MonitorThread :=
  run_events self (map event_of (history_ops_of_run w filtered_pvnames)).

(** Every PV with an open monitor has a history. *)
Definition handles_have_histories (self : MonitorThread) : Prop :=
  forall k, dict_mem (pv_monitors self) k = true ->
            dict_mem (pv_values self) k = true.

(** What the store holds for [pvname] against the operations so far: no
    entry before the first bootstrap, and afterwards an entry whose first
    sample is that bootstrap read. *)
Definition starts_with_bootstrap (ops : list HistoryOp)
    (d : dict History) (pvname : string) : Prop :=
  match dict_get d pvname with
  | None => first_bootstrap ops pvname = None
  | Some h =>
      exists v now,
        first_bootstrap ops pvname = Some (v, now)
        /\ hd_error (values h) = Some v
        /\ hd_error (timestamps h) = Some now
  end.

(** A bootstrap that reads nothing, a delivery, a delivery for a PV that
    was never monitored (the library has no callback for it) and a second
    bootstrap of the same PV. *)
Definition example_ops : list HistoryOp :=
  [ Bootstrap "SI-01M1:PS-Temp-Mon" None 10%Z 1%Z;
    Delivery "SI-01M1:PS-Temp-Mon" (Some (Num 3)) 11%Z;
    Delivery "SI-02M1:PS-Temp-Mon" (Some (Num 9)) 12%Z;
    Bootstrap "SI-01M1:PS-Temp-Mon" (Some (Num 4)) 13%Z 2%Z ].

(** C9 as the specification states it, for [stop]: no registry entry is
    left behind. *)
Definition stop_clears_registry (self : MonitorThread) : Prop :=
  pv_values (state_after (stop self)) = []
  /\ pv_monitors (state_after (stop self)) = [].

(** C9 as the specification states it, for eviction: an entry that is
    whole before an event (history and handle) is whole or gone after. *)
Definition no_partial_eviction (self : MonitorThread) (ev : Event)
    (pvname : string) : Prop :=
  dict_mem (pv_values self) pvname = true ->
  dict_mem (pv_monitors self) pvname = true ->
  dict_mem (pv_values (step self ev)) pvname
  = dict_mem (pv_monitors (step self ev)) pvname.

(** A thread with one monitored PV. *)
Definition one_monitor_thread : MonitorThread :=
  run_events init_default
    [EvStartMonitor "SI-01M1:PS-Temp-Mon" (Some (Num 1)) 10%Z 1%Z].

(** [grown h s pvname]: the state [s] holds for [pvname] a history that
    extends [h]. *)
Definition grown (h : History) (pvname : string) (s : MonitorThread) : Prop :=
  exists h' more_values more_timestamps,
    dict_get (pv_values s) pvname = Some h'
    /\ values h' = values h ++ more_values
    /\ timestamps h' = timestamps h ++ more_timestamps.

(** ** Vocabulary of the further properties *)

(** The test of [check_pvs] that sends a key to [frozen_pvs], and the one
    that sends it to [disconnected_pvs]. *)
Definition reported_frozen (self : MonitorThread) (pvname : string) : bool :=
  check_pv_connected self pvname && check_pv_frozen self pvname.

Definition reported_disconnected (self : MonitorThread) (pvname : string)
  : bool :=
  negb (check_pv_connected self pvname).

(** The signals of one check cycle, for the lists and the number of PVs
    given. *)
Definition cycle_report (frozen_pvs disconnected_pvs : list string)
    (total_pvs : nat) : list Signal :=
  [ frozen_pvs_signal frozen_pvs;
    not_stored_pvs_signal disconnected_pvs;
    update_status ("Quantidade de PVs analisadas = "
                   ++ py_str (Z.of_nat total_pvs))%string;
    update_status ("Quantidade de PVs congeladas = "
                   ++ py_str (Z.of_nat (List.length frozen_pvs)))%string;
    update_status ("Quantidade de PVs desconectadas = "
                   ++ py_str (Z.of_nat (List.length disconnected_pvs)))%string;
    update_status "Análise finalizada." ].

(** A world for the examples: the archiver answers with [example_names],
    every read gives 21 at clock 100, and one callback with the value 22
    arrives during the sleep. *)
Definition example_world : World :=
  {| archiver_connects := true;
     getAllPVs := Some example_names;
     caget := fun _ => Some (Num 21);
     clock_at := fun _ => 100%Z;
     camonitor := fun _ => 1%Z;
     arrivals_after := fun _ => [];
     arrivals_during_sleep :=
       [mkArrival "SI-01:Temp-Mon" (Some (Num 22)) 101%Z];
     clock_start := 102%Z |}.

(** The configuration of a thread: what the constructor is given and the
    two class attributes. *)
Definition config (self : MonitorThread)
  : list (option string) * Z * Z * Z * list string * list string :=
  (filters self, check_interval self, frozen_check_duration self,
   initial_check_delay self, ignored_pvs self, set_point_suffixes self).

(** [quiet Q m]: the method [m] keeps the configuration and only appends
    to the signal log, and every signal it appends satisfies [Q]. *)
Definition quiet (Q : Signal -> Prop) {A} (m : M A) : Prop :=
  forall self,
    config (state_after (m self)) = config self
    /\ exists added,
         emitted (state_after (m self)) = emitted self ++ added
         /\ Forall Q added.

(** A signal other than [frozen_check_duration_signal]. *)
Definition not_duration_signal (sig : Signal) : Prop :=
  match sig with
  | frozen_check_duration_signal _ => False
  | _ => True
  end.

(** What the registry of a thread is made of. *)
Definition registry (self : MonitorThread)
  : dict History * dict Handle * list string * list string
    * list (option string) :=
  (pv_values self, pv_monitors self, set_point_suffixes self,
   ignored_pvs self, filters self).

(** What a thread shows and what its methods read: the registry, the log,
    the timer, the connection and the check interval.  The attributes left
    out are [frozen_check_duration], [initial_check_delay], [start_time]
    and [running]. *)
Definition observable (self : MonitorThread)
  : (dict History * dict Handle * list string * list string
     * list (option string))
    * list Signal * option QTimer * bool * Z :=
  (registry self, emitted self, timer self, conn self, check_interval self).

(** An event that is a check cycle or a call of [stop]. *)
Definition is_check_or_stop (ev : Event) : bool :=
  match ev with
  | EvCheck | EvStop => true
  | _ => false
  end.

(** The link a window holds, if any, spans no time: both its ends are the
    clock with offset 0. *)
Definition link_spans_no_time
    (urlencode : list string -> string -> string -> string)
    (get_time_string : Z -> string) (win : MainWindow.t) : Prop :=
  MainWindow.frozen_check_duration win = 0%Z
  /\ (MainWindow.generated_url win = None
      \/ exists frozen_pvs,
           frozen_pvs <> []
           /\ MainWindow.generated_url win =
              Some (MainWindow.base_url ++ "?"
                    ++ urlencode frozen_pvs (get_time_string 0%Z)
                         (get_time_string 0%Z))%string).

(** Stand-ins for the two services of the link, for the examples: the
    parameters joined by [&], and the offset printed as the time. *)
Definition example_urlencode (frozen_pvs : list string) (from to : string)
  : string :=
  String.concat "&"
    (map (fun pv => ("pv=" ++ pv)%string) frozen_pvs
     ++ [("from=" ++ from)%string; ("to=" ++ to)%string])%list.

Definition example_get_time_string (minutes_offset : Z) : string :=
  py_str minutes_offset.

(** A window that holds a link and shows its button. *)
Definition example_window_with_link : MainWindow.t :=
  MainWindow.mk (Some "http://archiver-viewer.lnls.br/?pv=A") 0 "SI-01" ""
    1 5 100 "Status: OK" ["A"] [] ["PVs congeladas:"; "A"] [] true.

(** * Properties *)

(** ** Strings *)

Lemma startswith_spec (s p : string) :
  startswith s p = true <-> exists t, s = (p ++ t)%string.
Proof.
  unfold startswith. revert s.
  induction p as [|c p IH]; intros s; simpl.
  - destruct s; split; intros _; try reflexivity; eexists; reflexivity.
  - destruct s as [|c' s]; simpl.
    + split; [discriminate | intros [t Ht]; discriminate].
    + destruct (ascii_dec c c') as [->|Hneq].
      * rewrite IH. split; intros [t Ht]; exists t; congruence.
      * split; [discriminate | intros [t Ht]; congruence].
Qed.

Lemma substring_all (s : string) : substring 0 (String.length s) s = s.
Proof. induction s; simpl; congruence. Qed.

Lemma substring_skip_append (t s : string) (m : nat) :
  substring (String.length t) m (t ++ s) = substring 0 m s.
Proof. induction t; simpl; auto. Qed.

Lemma substring_split (s : string) (a b : nat) :
  a + b = String.length s ->
  s = (substring 0 a s ++ substring a b s)%string.
Proof.
  revert a b. induction s as [|c s IH]; intros a b H; simpl in *.
  - destruct a, b; simpl in *; try discriminate; reflexivity.
  - destruct a as [|a]; simpl.
    + destruct b as [|b]; simpl in *; [discriminate|].
      injection H as H. subst b. now rewrite substring_all.
    + injection H as H. f_equal. now apply IH.
Qed.

Lemma string_length_append (a b : string) :
  String.length (a ++ b) = String.length a + String.length b.
Proof. induction a; simpl; auto. Qed.

Lemma endswith_spec (s suffix : string) :
  endswith s suffix = true <-> exists t, s = (t ++ suffix)%string.
Proof.
  unfold endswith. rewrite andb_true_iff, Nat.leb_le, String.eqb_eq. split.
  - intros [Hle Hsub].
    exists (substring 0 (String.length s - String.length suffix) s).
    rewrite <- Hsub at 2. apply substring_split. lia.
  - intros [t ->]. rewrite string_length_append. split; [lia|].
    replace (String.length t + String.length suffix - String.length suffix)
      with (String.length t) by lia.
    rewrite substring_skip_append. apply substring_all.
Qed.

(** ** Dicts *)

Section DictFacts.
Context {V : Type}.
Implicit Types (d : dict V) (k : string) (v : V).

Lemma dict_get_set d k v k' :
  dict_get (dict_set d k v) k' =
  if String.eqb k k' then Some v else dict_get d k'.
Proof.
  induction d as [|[k0 v0] d IH]; simpl.
  - reflexivity.
  - destruct (String.eqb_spec k0 k) as [->|Hk0]; simpl.
    + destruct (String.eqb k k'); reflexivity.
    + destruct (String.eqb_spec k0 k') as [->|Hk0'].
      * destruct (String.eqb_spec k k'); [congruence | reflexivity].
      * exact IH.
Qed.

Lemma dict_mem_keys d k :
  dict_mem d k = true <-> In k (dict_keys d).
Proof.
  unfold dict_mem, dict_keys.
  induction d as [|[k0 v0] d IH]; simpl.
  - split; [discriminate | tauto].
  - destruct (String.eqb_spec k0 k) as [->|Hk0].
    + split; auto.
    + rewrite IH. split; [auto | intros [H|H]; [congruence | exact H]].
Qed.

Lemma dict_get_del d k k' :
  dict_get (dict_del d k) k' =
  if String.eqb k k' then None else dict_get d k'.
Proof.
  unfold dict_del.
  induction d as [|[k0 v0] d IH]; simpl.
  - destruct (String.eqb k k'); reflexivity.
  - destruct (String.eqb_spec k0 k) as [->|Hk0]; simpl.
    + rewrite IH. destruct (String.eqb k k'); reflexivity.
    + rewrite IH. destruct (String.eqb_spec k0 k') as [->|Hk0'].
      * destruct (String.eqb_spec k k'); [congruence | reflexivity].
      * reflexivity.
Qed.

End DictFacts.

Lemma history_append_get d pvname value now k :
  dict_get (history_append d pvname value now) k =
  if String.eqb pvname k
  then Some (mkHistory (values (entry_or_fresh d pvname) ++ [value])
                       (timestamps (entry_or_fresh d pvname) ++ [now]))
  else dict_get d k.
Proof.
  unfold history_append, entry_or_fresh, dict_mem.
  destruct (dict_get d pvname) as [h|] eqn:Hget; simpl.
  - rewrite Hget. rewrite dict_get_set, String.eqb_refl; simpl.
    rewrite !dict_get_set.
    destruct (String.eqb pvname k); reflexivity.
  - rewrite dict_get_set, String.eqb_refl; simpl.
    rewrite dict_get_set, String.eqb_refl; simpl.
    rewrite !dict_get_set.
    destruct (String.eqb pvname k) eqn:E; [reflexivity|].
    reflexivity.
Qed.

(** ** The check cycle: who ends in which list *)

Lemma check_loop_spec self keys fz dc cf cd x :
  (In x (fst (fst (fst (check_loop self keys fz dc cf cd)))) <->
     In x fz \/ (In x keys /\ check_pv_connected self x = true
                 /\ check_pv_frozen self x = true))
  /\ (In x (snd (fst (fst (check_loop self keys fz dc cf cd)))) <->
     In x dc \/ (In x keys /\ check_pv_connected self x = false)).
Proof.
  revert fz dc cf cd.
  induction keys as [|k keys IH]; intros fz dc cf cd; simpl.
  - split; split; intros H; auto; destruct H as [H|[[] _]]; exact H.
  - destruct (check_pv_connected self k) eqn:Hc; simpl.
    + destruct (check_pv_frozen self k) eqn:Hf.
      * destruct (IH (fz ++ [k]) dc (cf + 1)%Z cd) as [IH1 IH2].
        rewrite IH1, IH2, in_app_iff; simpl. split; split.
        -- intros [[H|[H|[]]]|(H & H1 & H2)]; subst; auto 6.
        -- intros [H|([H|H] & H1 & H2)]; subst; auto 6.
        -- intros [H|(H & H1)]; auto.
        -- intros [H|([H|H] & H1)]; subst; auto; congruence.
      * destruct (IH fz dc cf cd) as [IH1 IH2].
        rewrite IH1, IH2. split; split.
        -- intros [H|(H & H1 & H2)]; auto 6.
        -- intros [H|([H|H] & H1 & H2)]; subst; auto 6; congruence.
        -- intros [H|(H & H1)]; auto.
        -- intros [H|([H|H] & H1)]; subst; auto; congruence.
    + destruct (IH fz (dc ++ [k]) cf (cd + 1)%Z) as [IH1 IH2].
      rewrite IH1, IH2, in_app_iff; simpl. split; split.
      * intros [H|(H & H1 & H2)]; auto 6.
      * intros [H|([H|H] & H1 & H2)]; subst; auto 6; congruence.
      * intros [[H|[H|[]]]|(H & H1)]; subst; auto.
      * intros [H|([H|H] & H1)]; subst; auto.
Qed.

Lemma check_pv_connected_mem self pvname :
  check_pv_connected self pvname = true ->
  dict_mem (pv_values self) pvname = true.
Proof.
  unfold check_pv_connected, dict_mem.
  destruct (dict_get (pv_values self) pvname); [reflexivity | discriminate].
Qed.

(** A PV is reported frozen exactly when it is connected and
    [check_pv_frozen] holds for it. *)
Lemma frozen_pvs_of_spec self pvname :
  In pvname (frozen_pvs_of self) <->
  check_pv_connected self pvname = true
  /\ check_pv_frozen self pvname = true.
Proof.
  unfold frozen_pvs_of, classify_all.
  destruct (check_loop_spec self (dict_keys (pv_values self)) [] [] 0%Z 0%Z
              pvname) as [H _].
  rewrite H. split.
  - intros [[]|(_ & H1 & H2)]; auto.
  - intros [H1 H2]. right. repeat split; auto.
    apply dict_mem_keys. now apply check_pv_connected_mem.
Qed.

(** A PV is reported disconnected exactly when it has an entry and
    [check_pv_connected] fails for it. *)
Lemma disconnected_pvs_of_spec self pvname :
  In pvname (disconnected_pvs_of self) <->
  dict_mem (pv_values self) pvname = true
  /\ check_pv_connected self pvname = false.
Proof.
  unfold disconnected_pvs_of, classify_all.
  destruct (check_loop_spec self (dict_keys (pv_values self)) [] [] 0%Z 0%Z
              pvname) as [_ H].
  rewrite H, dict_mem_keys. split.
  - intros [[]|H1]; exact H1.
  - auto.
Qed.

(** ** The windows of [check_pv_frozen] *)

Lemma first_values_of_firstn values :
  first_values_of values = firstn 15 values.
Proof.
  unfold first_values_of, slice_to, num_samples_of.
  destruct (Nat.le_ge_cases 15 (List.length values)) as [H|H].
  - now rewrite Nat.min_l.
  - rewrite Nat.min_r by exact H.
    rewrite !firstn_all2; auto.
Qed.

Lemma last_values_of_skipn values :
  last_values_of values = skipn (List.length values - 15) values.
Proof.
  unfold last_values_of, slice_from_neg, num_samples_of.
  destruct (Nat.le_ge_cases 15 (List.length values)) as [H|H].
  - rewrite Nat.min_l by exact H.
    destruct (Nat.leb_spec 15 (List.length values)); [reflexivity | lia].
  - rewrite Nat.min_r by exact H. rewrite Nat.leb_refl.
    replace (List.length values - 15) with 0 by lia.
    destruct (List.length values) eqn:E; simpl; [reflexivity|].
    now rewrite Nat.sub_diag.
Qed.

Lemma windows_nonempty values :
  values <> [] ->
  (List.length (first_values_of values) <? 1)%nat = false
  /\ (List.length (last_values_of values) <? 1)%nat = false.
Proof.
  intros Hne. rewrite first_values_of_firstn, last_values_of_skipn.
  rewrite length_firstn, length_skipn.
  destruct values; [congruence|]. simpl List.length.
  split; apply Nat.ltb_ge; lia.
Qed.

(** For a connected PV that is no set point, with a timestamp on record,
    [check_pv_frozen] is the conjunction of the three window conditions. *)
Lemma check_pv_frozen_windows self pvname h :
  dict_get (pv_values self) pvname = Some h ->
  timestamps h <> [] ->
  check_pv_connected self pvname = true ->
  is_set_point_pv self pvname = false ->
  check_pv_frozen self pvname =
    all_equal_first (first_values_of (values h))
    && all_equal_first (last_values_of (values h))
    && py_eq (py_first (first_values_of (values h)))
             (py_first (last_values_of (values h))).
Proof.
  intros Hget Hts Hconn Hsp.
  unfold check_pv_frozen, check_pv_connected in *. rewrite Hget in *.
  rewrite Hsp.
  apply andb_true_iff in Hconn as [Hlen Hlast].
  apply Nat.ltb_lt in Hlen. apply negb_true_iff in Hlast. rewrite Hlast.
  assert (Hne : values h <> []) by (destruct (values h); simpl in *; [lia | congruence]).
  destruct (windows_nonempty _ Hne) as [-> ->].
  destruct (values h) eqn:Ev; [congruence|].
  destruct (timestamps h) eqn:Et; [congruence|]. simpl orb.
  cbv iota.
  match goal with |- (if ?b then true else false) = _ => destruct b; reflexivity end.
Qed.

(** ** Methods that leave the registry alone *)

Lemma same_registry_refl s : same_registry s s.
Proof. repeat split. Qed.

Lemma same_registry_trans s1 s2 s3 :
  same_registry s1 s2 -> same_registry s2 s3 -> same_registry s1 s3.
Proof.
  unfold same_registry. intros (A1 & A2 & A3 & A4 & A5) (B1 & B2 & B3 & B4 & B5).
  repeat split; congruence.
Qed.

Lemma state_after_bind {A B} (m : M A) (k : A -> M B) self :
  state_after (bind m k self) =
  match m self with
  | Return a self' => state_after (k a self')
  | Raise _ self' => self'
  end.
Proof. unfold bind. destruct (m self); reflexivity. Qed.

Lemma frames_ret {A} (a : A) : frames (ret a).
Proof. intros self. apply same_registry_refl. Qed.

Lemma frames_raise {A} e : frames (@raise A e).
Proof. intros self. apply same_registry_refl. Qed.

Lemma frames_bind {A B} (m : M A) (k : A -> M B) :
  frames m -> (forall a, frames (k a)) -> frames (bind m k).
Proof.
  intros Hm Hk self. rewrite state_after_bind.
  specialize (Hm self). destruct (m self) as [a s'|e s']; simpl in Hm.
  - eapply same_registry_trans; [exact Hm | apply Hk].
  - exact Hm.
Qed.

Lemma frames_get_self : frames get_self.
Proof. intros self. apply same_registry_refl. Qed.

Lemma frames_emit sig : frames (emit sig).
Proof. intros self. repeat split. Qed.

Lemma frames_py_index {A} (l : list A) i : frames (py_index l i).
Proof.
  unfold py_index. destruct (nth_error l i); [apply frames_ret | apply frames_raise].
Qed.

Create HintDb frames.
#[local] Hint Resolve frames_ret frames_raise frames_get_self frames_emit
  frames_py_index : frames.

Ltac frames_step :=
  repeat first
    [ apply frames_bind; [| intro]
    | solve [auto with frames] ].

Lemma frames_filter_loop f1 f2 total i rest acc :
  frames (filter_loop f1 f2 total i rest acc).
Proof.
  revert i acc. induction rest as [|pvname rest IH]; intros i acc; simpl.
  - apply frames_ret.
  - apply frames_bind; [apply frames_get_self | intros self].
    repeat match goal with
           | |- frames (if ?b then _ else _) => destruct b
           end; try apply IH.
    apply frames_bind; [apply frames_emit | intros _; apply IH].
Qed.

Lemma frames_filter_pvnames all_pvnames : frames (filter_pvnames all_pvnames).
Proof.
  unfold filter_pvnames. destruct (py_not all_pvnames); [apply frames_ret|].
  apply frames_bind; [apply frames_get_self | intros self].
  apply frames_bind; [apply frames_py_index | intros f1].
  apply frames_bind; [apply frames_py_index | intros f2].
  apply frames_filter_loop.
Qed.

Lemma frames_list_pvs a b c : frames (list_pvs a b c).
Proof. unfold list_pvs. frames_step. Qed.

Lemma frames_check_pvs : frames check_pvs.
Proof.
  unfold check_pvs. apply frames_bind; [apply frames_get_self | intros self].
  destruct (classify_all self) as [[[fz dc] cf] cd].
  apply frames_bind; [apply frames_emit | intros _].
  apply frames_bind; [apply frames_emit | intros _].
  apply frames_list_pvs.
Qed.

Lemma frames_start_frozen_check : frames start_frozen_check.
Proof.
  unfold start_frozen_check.
  apply frames_bind; [apply frames_emit | intros _].
  apply frames_bind; [intros self; repeat split | intros _].
  apply frames_check_pvs.
Qed.

Lemma frames_stop : frames stop.
Proof.
  unfold stop.
  apply frames_bind; [intros self; repeat split | intros _].
  apply frames_bind; [apply frames_get_self | intros self].
  apply frames_bind; [| intros _; apply frames_emit].
  destruct (timer self); [intros s; repeat split | apply frames_ret].
Qed.

(** ** The invariant of the history store

    [Inv] holds in every state the methods can produce. *)

Section Preservation.
Variable P : MonitorThread -> Prop.
Hypothesis P_registry : registry_property P.

Lemma frames_preserves {A} (m : M A) : frames m -> preserves P m.
Proof. intros H self. apply P_registry, H. Qed.

Lemma preserves_bind {A B} (m : M A) (k : A -> M B) :
  preserves P m -> (forall a, preserves P (k a)) -> preserves P (bind m k).
Proof.
  intros Hm Hk self HI. rewrite state_after_bind.
  specialize (Hm self HI). destruct (m self) as [a s'|e s']; simpl in Hm.
  - now apply Hk.
  - exact Hm.
Qed.

Hypothesis P_start : forall pvname v now handle,
  preserves P (start_pv_monitor pvname v now handle).
Hypothesis P_callback : forall pvname v now,
  preserves P (callback pvname v now).
Hypothesis P_stop_monitor : forall pvname,
  preserves P (stop_pv_monitor pvname).

Lemma preserves_on_arrival a : preserves P (on_arrival a).
Proof.
  intros self HI. unfold on_arrival. rewrite state_after_bind. cbn [get_self].
  destruct (dict_mem (pv_monitors self) (arrival_pvname a)); [|exact HI].
  now apply P_callback.
Qed.

Lemma preserves_on_arrivals arrivals : preserves P (on_arrivals arrivals).
Proof.
  induction arrivals as [|a arrivals IH]; cbn [on_arrivals].
  - apply frames_preserves, frames_ret.
  - apply preserves_bind; [apply preserves_on_arrival | intros _; exact IH].
Qed.

Lemma preserves_start_monitors w names : preserves P (start_monitors w names).
Proof.
  induction names as [|n names IH]; cbn [start_monitors].
  - apply frames_preserves, frames_ret.
  - apply preserves_bind; [apply P_start | intros _].
    apply preserves_bind; [apply preserves_on_arrivals | intros _; exact IH].
Qed.

Lemma preserves_run w : preserves P (run w).
Proof.
  unfold run.
  apply preserves_bind;
    [apply frames_preserves; intros s; repeat split | intros _].
  apply preserves_bind; [apply frames_preserves, frames_get_self | intros self].
  destruct (negb (conn self)); [apply frames_preserves, frames_emit|].
  destruct (getAllPVs w) as [[|n names]|];
    try (apply frames_preserves, frames_emit).
  apply preserves_bind;
    [apply frames_preserves, frames_filter_pvnames | intros filtered].
  apply preserves_bind; [apply frames_preserves, frames_emit | intros _].
  apply preserves_bind; [apply frames_preserves, frames_emit | intros _].
  apply preserves_bind; [apply preserves_start_monitors | intros _].
  apply preserves_bind; [apply preserves_on_arrivals | intros _].
  apply preserves_bind;
    [apply frames_preserves; intros s; repeat split | intros _].
  apply preserves_bind;
    [apply frames_preserves, frames_start_frozen_check | intros _].
  apply preserves_bind; [apply frames_preserves, frames_emit | intros _].
  apply frames_preserves, frames_emit.
Qed.

Lemma preserves_step self ev : P self -> P (step self ev).
Proof.
  intros HI. destruct ev; simpl.
  - now apply preserves_run.
  - now apply P_start.
  - destruct (dict_mem (pv_monitors self) pvname); [|exact HI].
    now apply P_callback.
  - now apply (frames_preserves _ frames_check_pvs).
  - now apply P_stop_monitor.
  - now apply (frames_preserves _ frames_stop).
Qed.

Lemma preserves_run_events self evs : P self -> P (run_events self evs).
Proof.
  unfold run_events. revert self.
  induction evs as [|ev evs IH]; intros self HI; simpl; [exact HI|].
  apply IH, preserves_step, HI.
Qed.
End Preservation.

Lemma Inv_registry : registry_property Inv.
Proof.
  intros s s' (H1 & H2 & H3 & _) (I1 & I2 & I3). unfold Inv.
  rewrite H1, H2, H3. auto.
Qed.

Lemma Inv_init fs ci fd idl : Inv (init fs ci fd idl).
Proof.
  unfold Inv; simpl. repeat split; intros; discriminate.
Qed.

Lemma entry_or_fresh_aligned d pvname :
  (forall k h, dict_get d k = Some h -> history_ok h) ->
  List.length (values (entry_or_fresh d pvname)) =
  List.length (timestamps (entry_or_fresh d pvname)).
Proof.
  intros H. unfold entry_or_fresh.
  destruct (dict_get d pvname) as [h|] eqn:E; [apply (H _ _ E) | reflexivity].
Qed.

Lemma history_append_ok d pvname value now :
  (forall k h, dict_get d k = Some h -> history_ok h) ->
  forall k h, dict_get (history_append d pvname value now) k = Some h ->
              history_ok h.
Proof.
  intros H k h. rewrite history_append_get.
  destruct (String.eqb pvname k).
  - intros [= <-]. split; simpl.
    + intros E. apply app_eq_nil in E as [_ E]. discriminate.
    + rewrite !length_app. simpl. now rewrite (entry_or_fresh_aligned d pvname H).
  - apply H.
Qed.

Lemma history_append_mem d pvname value now k :
  dict_mem (history_append d pvname value now) k =
  String.eqb pvname k || dict_mem d k.
Proof.
  unfold dict_mem. rewrite history_append_get.
  destruct (String.eqb pvname k); reflexivity.
Qed.

Lemma Inv_callback pvname value now :
  preserves Inv (callback pvname value now).
Proof.
  intros self (I1 & I2 & I3). unfold Inv; simpl. split; [|split].
  - exact I1.
  - now apply history_append_ok.
  - intros k Hk. rewrite history_append_mem, (I3 k Hk). apply orb_true_r.
Qed.

Lemma Inv_start_pv_monitor pvname v now handle :
  preserves Inv (start_pv_monitor pvname v now handle).
Proof.
  intros self (I1 & I2 & I3). unfold Inv; simpl. split; [|split].
  - exact I1.
  - now apply history_append_ok.
  - intros k. unfold dict_mem at 1. rewrite dict_get_set, history_append_mem.
    destruct (String.eqb pvname k); [reflexivity|]. apply I3.
Qed.

Lemma Inv_stop_pv_monitor pvname :
  preserves Inv (stop_pv_monitor pvname).
Proof.
  intros self HI. unfold stop_pv_monitor. rewrite state_after_bind; simpl.
  destruct (dict_mem (pv_monitors self) pvname); simpl; [|exact HI].
  destruct HI as (I1 & I2 & I3). unfold Inv; simpl. split; [|split]; auto.
  intros k. unfold dict_mem at 1. rewrite dict_get_del.
  destruct (String.eqb pvname k); [discriminate | apply I3].
Qed.

Lemma Inv_step self ev : Inv self -> Inv (step self ev).
Proof.
  apply preserves_step.
  - exact Inv_registry.
  - exact Inv_start_pv_monitor.
  - exact Inv_callback.
  - exact Inv_stop_pv_monitor.
Qed.

Lemma Inv_run_events self evs : Inv self -> Inv (run_events self evs).
Proof.
  apply preserves_run_events.
  - exact Inv_registry.
  - exact Inv_start_pv_monitor.
  - exact Inv_callback.
  - exact Inv_stop_pv_monitor.
Qed.

(** Every state an execution reaches from a fresh thread satisfies [Inv]. *)
Lemma Inv_reachable fs ci fd idl evs :
  Inv (run_events (init fs ci fd idl) evs).
Proof. apply Inv_run_events, Inv_init. Qed.

(** ** Classification of one PV *)

Lemma reachable_history_ok fs ci fd idl evs pvname h :
  dict_get (pv_values (run_events (init fs ci fd idl) evs)) pvname = Some h ->
  history_ok h.
Proof. intros H. exact (proj1 (proj2 (Inv_reachable fs ci fd idl evs)) _ _ H). Qed.

Lemma history_ok_timestamps h : history_ok h -> timestamps h <> [].
Proof.
  intros [Hne Hlen] E. rewrite E in Hlen.
  destruct (values h); [congruence | discriminate].
Qed.

Lemma not_set_point_not_frozen_when_last_None self pvname h older :
  dict_get (pv_values self) pvname = Some h ->
  values h = older ++ [None] ->
  check_pv_connected self pvname = false.
Proof.
  intros Hget Hv. unfold check_pv_connected. rewrite Hget, Hv.
  unfold py_last. rewrite last_last. apply andb_false_r.
Qed.

(** C1. For a connected PV that is no set point, [check_pv_frozen] decides
    by the two edge windows of at most 15 samples: it holds exactly when the
    first 15 values all equal the first one, the last 15 values all equal
    their first one, and these two are equal; the check cycle reports the PV
    frozen exactly then.  Values [1,1,1,1,1] are frozen, [1,2,1,2,1] are
    not, and the 16 samples [5]*15 + [7] are not: their first window is
    all-equal, their last window is not. *)
Theorem C1_freeze_decided_by_edge_windows fs ci fd idl evs pvname h :
  let self := run_events (init fs ci fd idl) evs in
  dict_get (pv_values self) pvname = Some h ->
  check_pv_connected self pvname = true ->
  is_set_point_pv self pvname = false ->
  check_pv_frozen self pvname =
    all_equal_first (firstn 15 (values h))
    && all_equal_first (skipn (List.length (values h) - 15) (values h))
    && py_eq (hd None (firstn 15 (values h)))
             (hd None (skipn (List.length (values h) - 15) (values h)))
  /\ (In pvname (frozen_pvs_of self) <-> check_pv_frozen self pvname = true)
  /\ (values h = [Some (Num 1); Some (Num 1); Some (Num 1); Some (Num 1); Some (Num 1)] ->
      check_pv_frozen self pvname = true)
  /\ (values h = [Some (Num 1); Some (Num 2); Some (Num 1); Some (Num 2); Some (Num 1)] ->
      check_pv_frozen self pvname = false)
  /\ (values h = repeat (Some (Num 5)) 15 ++ [Some (Num 7)] ->
      check_pv_frozen self pvname = false
      /\ all_equal_first (first_values_of (values h)) = true
      /\ all_equal_first (last_values_of (values h)) = false).
Proof.
  intros self Hget Hconn Hsp.
  assert (Hts : timestamps h <> [])
    by (eapply history_ok_timestamps, reachable_history_ok; exact Hget).
  pose proof (check_pv_frozen_windows self pvname h Hget Hts Hconn Hsp) as Hw.
  rewrite first_values_of_firstn, last_values_of_skipn in Hw.
  split; [exact Hw|]. split.
  - rewrite frozen_pvs_of_spec. tauto.
  - split; [|split]; [intros Hv; rewrite Hw, Hv; reflexivity ..|].
    intros Hv. rewrite first_values_of_firstn, last_values_of_skipn, Hw, Hv.
    repeat split.
Qed.

Lemma C1_witness :
  check_pv_frozen
    (run_events init_default
       (feed "SI-01M1:PS-Temp-Mon" (repeat (Some (Num 5)) 15 ++ [Some (Num 7)])))
    "SI-01M1:PS-Temp-Mon" = false.
Proof.
  exact (proj1 (proj2 (proj2 (proj2 (proj2
    (C1_freeze_decided_by_edge_windows None 10 (2 * 60) (10 * 60)
       (feed "SI-01M1:PS-Temp-Mon" (repeat (Some (Num 5)) 15 ++ [Some (Num 7)]))
       "SI-01M1:PS-Temp-Mon"
       (mkHistory (repeat (Some (Num 5)) 15 ++ [Some (Num 7)]) (repeat 0%Z 16))
       eq_refl eq_refl eq_refl)))) eq_refl)).
Defined.

(** C2. A PV whose last recorded value is [None] is reported disconnected
    and is not reported frozen, whatever its name (set-point names
    included) and whatever the rest of its history: [check_pvs] skips the
    frozen check for it. *)
Theorem C2_disconnected_never_frozen self pvname h older :
  dict_get (pv_values self) pvname = Some h ->
  values h = older ++ [None] ->
  check_pv_connected self pvname = false
  /\ In pvname (disconnected_pvs_of self)
  /\ ~ In pvname (frozen_pvs_of self).
Proof.
  intros Hget Hv.
  pose proof (not_set_point_not_frozen_when_last_None _ _ _ _ Hget Hv) as Hc.
  split; [exact Hc|]. split.
  - apply disconnected_pvs_of_spec. split; [|exact Hc].
    unfold dict_mem. now rewrite Hget.
  - rewrite frozen_pvs_of_spec. intros [H _]. congruence.
Qed.

(** A set-point name whose constant history ends in [None]: the freeze
    windows aside, [check_pv_frozen] alone would answer [True], and the
    cycle still reports the PV disconnected only. *)
Lemma C2_witness :
  let self := run_events init_default
                (feed "SI-01M1:PS-Current-SP" [Some (Num 3); Some (Num 3); None]) in
  check_pv_connected self "SI-01M1:PS-Current-SP" = false
  /\ In "SI-01M1:PS-Current-SP" (disconnected_pvs_of self)
  /\ ~ In "SI-01M1:PS-Current-SP" (frozen_pvs_of self).
Proof.
  exact (C2_disconnected_never_frozen
           (run_events init_default
              (feed "SI-01M1:PS-Current-SP" [Some (Num 3); Some (Num 3); None]))
           "SI-01M1:PS-Current-SP"
           (mkHistory [Some (Num 3); Some (Num 3); None] [0%Z; 0%Z; 0%Z])
           [Some (Num 3); Some (Num 3)] eq_refl eq_refl).
Defined.

(** C3. In every reachable state, a connected PV whose name ends in one of
    the set-point suffixes [-SP], [-Setpoint], [-SP:RBV] is reported
    frozen, whatever values its history holds. *)
Theorem C3_set_point_always_frozen fs ci fd idl evs pvname suffix stem :
  let self := run_events (init fs ci fd idl) evs in
  check_pv_connected self pvname = true ->
  In suffix ["-SP"; "-Setpoint"; "-SP:RBV"] ->
  pvname = (stem ++ suffix)%string ->
  check_pv_frozen self pvname = true
  /\ In pvname (frozen_pvs_of self)
  /\ ~ In pvname (disconnected_pvs_of self).
Proof.
  intros self Hconn Hin Hname.
  assert (Hsp : is_set_point_pv self pvname = true).
  { unfold is_set_point_pv.
    pose proof (proj1 (Inv_reachable fs ci fd idl evs)) as Hs.
    fold self in Hs. rewrite Hs.
    apply existsb_exists. exists suffix. split; [exact Hin|].
    apply endswith_spec. now exists stem. }
  assert (Hfz : check_pv_frozen self pvname = true).
  { unfold check_pv_frozen, check_pv_connected in *.
    destruct (dict_get (pv_values self) pvname) as [h|] eqn:Hget;
      [|discriminate].
    pose proof (reachable_history_ok _ _ _ _ _ _ _ Hget) as Hok.
    pose proof (history_ok_timestamps _ Hok) as Hts. destruct Hok as [Hne _].
    destruct (values h); [congruence|].
    destruct (timestamps h); [congruence|]. simpl. now rewrite Hsp. }
  split; [exact Hfz|]. split.
  - apply frozen_pvs_of_spec. auto.
  - rewrite disconnected_pvs_of_spec. intros [_ H]. congruence.
Qed.

(** An all-distinct history under a set-point name. *)
Lemma C3_witness :
  let self := run_events init_default
                (feed "BO-Fam:PS-QF:Current-SP" [Some (Num 1); Some (Num 2); Some (Num 3)]) in
  check_pv_frozen self "BO-Fam:PS-QF:Current-SP" = true
  /\ In "BO-Fam:PS-QF:Current-SP" (frozen_pvs_of self)
  /\ ~ In "BO-Fam:PS-QF:Current-SP" (disconnected_pvs_of self).
Proof.
  exact (C3_set_point_always_frozen None 10 (2 * 60) (10 * 60)
           (feed "BO-Fam:PS-QF:Current-SP" [Some (Num 1); Some (Num 2); Some (Num 3)])
           "BO-Fam:PS-QF:Current-SP" "-SP" "BO-Fam:PS-QF:Current"
           eq_refl (or_introl eq_refl) eq_refl).
Defined.




(** C7 fails on the reading NaN: a PV whose history is the single value
    NaN is connected and is no set point, and [check_pv_frozen] answers
    [False] for it, since [v == first_values[0]] is false for NaN. *)
Lemma C7_counterexample :
  ~ single_sample_frozen thread_with_nan_sample "SI-01M1:PS-Temp-Mon".
Proof.
  intros H.
  specialize (H (mkHistory [Some NaN] [0%Z]) NaN eq_refl eq_refl eq_refl).
  discriminate H.
Qed.

(** C7, amended. With fewer than 15 values, the first and the last window
    of [check_pv_frozen] are both the whole list.  In every reachable
    state a PV that is no set point and whose history is one number is
    connected and reported frozen; one whose history is the single
    reading NaN is connected and is reported neither frozen nor
    disconnected. *)
Theorem C7_short_history_windows :
  (forall values : list PyValue,
     List.length values < 15 ->
     first_values_of values = values /\ last_values_of values = values)
  /\ (forall fs ci fd idl evs pvname h z,
        let self := run_events (init fs ci fd idl) evs in
        dict_get (pv_values self) pvname = Some h ->
        values h = [Some (Num z)] ->
        is_set_point_pv self pvname = false ->
        check_pv_connected self pvname = true
        /\ check_pv_frozen self pvname = true
        /\ In pvname (frozen_pvs_of self))
  /\ (forall fs ci fd idl evs pvname h,
        let self := run_events (init fs ci fd idl) evs in
        dict_get (pv_values self) pvname = Some h ->
        values h = [Some NaN] ->
        is_set_point_pv self pvname = false ->
        check_pv_connected self pvname = true
        /\ check_pv_frozen self pvname = false
        /\ ~ In pvname (frozen_pvs_of self)
        /\ ~ In pvname (disconnected_pvs_of self)).
Proof.
  split; [|split].
  - intros values Hlen.
    rewrite first_values_of_firstn, last_values_of_skipn.
    assert (E : List.length values - 15 = 0) by lia. rewrite E.
    split; [apply firstn_all2; lia | reflexivity].
  - intros fs ci fd idl evs pvname h z self Hget Hv Hsp.
    assert (Hconn : check_pv_connected self pvname = true)
      by (unfold check_pv_connected; rewrite Hget, Hv; reflexivity).
    assert (Hts : timestamps h <> [])
      by (eapply history_ok_timestamps, reachable_history_ok; exact Hget).
    assert (Hfz : check_pv_frozen self pvname = true).
    { rewrite (check_pv_frozen_windows self pvname h Hget Hts Hconn Hsp), Hv.
      cbn. now rewrite Z.eqb_refl. }
    split; [exact Hconn|]. split; [exact Hfz|].
    apply frozen_pvs_of_spec. auto.
  - intros fs ci fd idl evs pvname h self Hget Hv Hsp.
    assert (Hconn : check_pv_connected self pvname = true)
      by (unfold check_pv_connected; rewrite Hget, Hv; reflexivity).
    assert (Hts : timestamps h <> [])
      by (eapply history_ok_timestamps, reachable_history_ok; exact Hget).
    assert (Hfz : check_pv_frozen self pvname = false).
    { rewrite (check_pv_frozen_windows self pvname h Hget Hts Hconn Hsp), Hv.
      reflexivity. }
    split; [exact Hconn|]. split; [exact Hfz|]. split.
    + rewrite frozen_pvs_of_spec. intros [_ H]. congruence.
    + rewrite disconnected_pvs_of_spec. intros [_ H]. congruence.
Qed.

(** Three values with a [None] in between are their own windows; the
    single reading 42 is frozen; the single reading NaN is connected and
    not frozen. *)
Lemma C7_witness :
  (first_values_of [Some (Num 4); None; Some (Num 4)]
   = [Some (Num 4); None; Some (Num 4)]
   /\ last_values_of [Some (Num 4); None; Some (Num 4)]
      = [Some (Num 4); None; Some (Num 4)])
  /\ In "SI-01M1:PS-Temp-Mon"
       (frozen_pvs_of
          (run_events init_default
             (feed "SI-01M1:PS-Temp-Mon" [Some (Num 42)])))
  /\ (check_pv_connected thread_with_nan_sample "SI-01M1:PS-Temp-Mon" = true
      /\ check_pv_frozen thread_with_nan_sample "SI-01M1:PS-Temp-Mon" = false).
Proof.
  split; [|split].
  - apply (proj1 C7_short_history_windows). simpl. lia.
  - exact (proj2 (proj2 (proj1 (proj2 C7_short_history_windows)
             None 10%Z (2 * 60)%Z (10 * 60)%Z
             (feed "SI-01M1:PS-Temp-Mon" [Some (Num 42)])
             "SI-01M1:PS-Temp-Mon" (mkHistory [Some (Num 42)] [0%Z]) 42%Z
             eq_refl eq_refl eq_refl))).
  - pose proof (proj2 (proj2 C7_short_history_windows)
                  None 10%Z (2 * 60)%Z (10 * 60)%Z
                  (feed "SI-01M1:PS-Temp-Mon" [Some NaN])
                  "SI-01M1:PS-Temp-Mon" (mkHistory [Some NaN] [0%Z])
                  eq_refl eq_refl eq_refl) as (H1 & H2 & _).
    split; [exact H1 | exact H2].
Defined.

(** ** The name filter *)

Lemma with_emitted_same self : with_emitted self (emitted self) = self.
Proof. destruct self; reflexivity. Qed.

Lemma filter_loop_step f1 f2 total i pvname rest acc self :
  filter_loop f1 f2 total i (pvname :: rest) acc self =
  if keepb (ignored_pvs self) f1 f2 pvname
  then (emit (progress_update (progress_percent i total)) ;;;
        filter_loop f1 f2 total (S i) rest (acc ++ [pvname])) self
  else filter_loop f1 f2 total (S i) rest acc self.
Proof.
  cbn [filter_loop]. unfold bind at 1, get_self, keepb.
  destruct (py_in pvname (ignored_pvs self)); [reflexivity|].
  destruct (py_truthy f1 && negb (startswith_opt pvname f1)); [reflexivity|].
  destruct (py_truthy f2 && negb (endswith_opt pvname f2)); reflexivity.
Qed.

Lemma filter_loop_spec f1 f2 total rest :
  forall i acc self,
    filter_loop f1 f2 total i rest acc self =
    Return (acc ++ filter (keepb (ignored_pvs self) f1 f2) rest)
      (with_emitted self
         (emitted self ++
          map (fun j => progress_update (progress_percent j total))
            (kept_indices (keepb (ignored_pvs self) f1 f2) i rest))).
Proof.
  induction rest as [|pvname rest IH]; intros i acc self.
  - simpl. rewrite !app_nil_r, with_emitted_same. reflexivity.
  - rewrite filter_loop_step. cbn [filter kept_indices].
    destruct (keepb (ignored_pvs self) f1 f2 pvname); [|apply IH].
    unfold bind, emit, modify. rewrite IH. simpl.
    rewrite <- !app_assoc. reflexivity.
Qed.

Lemma filter_pvnames_spec self all_pvnames f1 f2 more :
  filters self = f1 :: f2 :: more ->
  filter_pvnames all_pvnames self =
  Return (filter (keepb (ignored_pvs self) f1 f2) all_pvnames)
    (with_emitted self
       (emitted self ++
        map (fun j => progress_update
                        (progress_percent j (List.length all_pvnames)))
          (kept_indices (keepb (ignored_pvs self) f1 f2) 0 all_pvnames))).
Proof.
  intros Hf. unfold filter_pvnames.
  destruct all_pvnames as [|n names].
  - simpl. unfold ret. now rewrite app_nil_r, with_emitted_same.
  - cbn [py_not]. unfold bind at 1, get_self. rewrite Hf.
    unfold py_index; cbn [nth_error]. unfold bind at 1, ret.
    unfold bind at 1. now rewrite filter_loop_spec.
Qed.

Lemma py_in_spec pvname lst : py_in pvname lst = true <-> In pvname lst.
Proof.
  unfold py_in. rewrite existsb_exists. split.
  - intros [x [Hin Heq]]. apply String.eqb_eq in Heq. now subst.
  - intros H. exists pvname. split; [exact H | apply String.eqb_refl].
Qed.

Lemma startswith_empty s : startswith s "" = true.
Proof. apply startswith_spec. now exists s. Qed.

Lemma endswith_empty s : endswith s "" = true.
Proof.
  apply endswith_spec. exists s. clear. induction s; simpl; congruence.
Qed.

(** What [keepb] decides, in words. *)
Lemma keepb_spec ignored f1 f2 pvname :
  keepb ignored f1 f2 pvname = true <->
  ~ In pvname ignored
  /\ (forall p, f1 = Some p -> exists t, pvname = (p ++ t)%string)
  /\ (forall s, f2 = Some s -> exists t, pvname = (t ++ s)%string).
Proof.
  unfold keepb. rewrite !andb_true_iff, !negb_true_iff.
  rewrite <- not_true_iff_false, py_in_spec.
  assert (H1 : py_truthy f1 && negb (startswith_opt pvname f1) = false <->
               forall p, f1 = Some p -> exists t, pvname = (p ++ t)%string).
  { destruct f1 as [p|]; simpl.
    - destruct (String.eqb_spec p "") as [->|Hp]; simpl.
      + split; [intros _ p [= <-]; now exists pvname | reflexivity].
      + rewrite negb_false_iff, startswith_spec.
        split; [intros H q [= <-]; exact H | intros H; now apply H].
    - split; [intros _ p [=] | reflexivity]. }
  assert (H2 : py_truthy f2 && negb (endswith_opt pvname f2) = false <->
               forall s, f2 = Some s -> exists t, pvname = (t ++ s)%string).
  { destruct f2 as [s|]; simpl.
    - destruct (String.eqb_spec s "") as [->|Hs]; simpl.
      + split; [|reflexivity]. intros _ s [= <-].
        apply endswith_spec, endswith_empty.
      + rewrite negb_false_iff, endswith_spec.
        split; [intros H q [= <-]; exact H | intros H; now apply H].
    - split; [intros _ s [=] | reflexivity]. }
  rewrite H1, H2. tauto.
Qed.

(** C6. With a prefix and a suffix entry configured, [filter_pvnames]
    returns the sub-list, in input order, of the names that are not in the
    ignore list, start with the prefix when one is set and end with the
    suffix when one is set; with ignore list [A], prefix [SI-01] and suffix
    [Temp-Mon] the four names of the example filter to [SI-01:Temp-Mon]. *)
Theorem C6_filter_keeps_exactly self all_pvnames filter1 filter2 more :
  filters self = filter1 :: filter2 :: more ->
  (exists self',
     filter_pvnames all_pvnames self =
     Return (filter (keepb (ignored_pvs self) filter1 filter2) all_pvnames)
            self')
  /\ (forall pvname,
        keepb (ignored_pvs self) filter1 filter2 pvname = true <->
        ~ In pvname (ignored_pvs self)
        /\ (forall p, filter1 = Some p -> exists t, pvname = (p ++ t)%string)
        /\ (forall s, filter2 = Some s -> exists t, pvname = (t ++ s)%string))
  /\ (ignored_pvs self = ["A"] ->
      filter1 = Some "SI-01" -> filter2 = Some "Temp-Mon" ->
      all_pvnames =
        ["SI-01:Temp-Mon"; "A"; "SI-02:Temp-Mon"; "SI-01:Other"] ->
      exists self', filter_pvnames all_pvnames self =
                    Return ["SI-01:Temp-Mon"] self').
Proof.
  intros Hf. split; [|split].
  - eexists. apply (filter_pvnames_spec _ _ _ _ _ Hf).
  - intros pvname. apply keepb_spec.
  - intros Hig -> -> ->. eexists.
    rewrite (filter_pvnames_spec _ _ _ _ _ Hf), Hig. reflexivity.
Qed.

Lemma C6_witness :
  exists self', filter_pvnames example_names example_filter_thread =
                Return ["SI-01:Temp-Mon"] self'.
Proof.
  exact (proj2 (proj2 (C6_filter_keeps_exactly example_filter_thread
           example_names (Some "SI-01") (Some "Temp-Mon") [] eq_refl))
           eq_refl eq_refl eq_refl eq_refl).
Defined.

(** C10. [filter_pvnames] reads [self.filters[0]] and [self.filters[1]]
    before its loop: on a thread with fewer than two filter entries (the
    constructor's default is none) it raises [IndexError] for every
    non-empty list of names, having emitted nothing, and returns the empty
    list only for the empty list of names. *)
Theorem C10_short_filters_raise :
  (forall ci fd idl, filters (init None ci fd idl) = []
                     /\ filters (init (Some []) ci fd idl) = [])
  /\ (forall self all_pvnames,
        List.length (filters self) < 2 ->
        (all_pvnames = [] ->
         filter_pvnames all_pvnames self = Return [] self)
        /\ (all_pvnames <> [] ->
            filter_pvnames all_pvnames self = Raise IndexError self)).
Proof.
  split; [intros; split; reflexivity|].
  intros self all_pvnames Hlen. split.
  - intros ->. reflexivity.
  - intros Hne. unfold filter_pvnames.
    destruct all_pvnames as [|n names]; [congruence|]. cbn [py_not].
    unfold bind at 1, get_self.
    destruct (filters self) as [|f1 [|f2 more]]; simpl in Hlen;
      [reflexivity | reflexivity | lia].
Qed.

Lemma C10_witness :
  filter_pvnames ["SI-01:Temp-Mon"] init_default =
  Raise IndexError init_default.
Proof.
  refine (proj2 (proj2 C10_short_filters_raise init_default
                   ["SI-01:Temp-Mon"] _) _).
  - simpl. lia.
  - discriminate.
Defined.

(** ** Binary64 arithmetic of the progress percentage *)

Module Binary64Facts.
Import Binary64.
Local Open Scope Z_scope.

Lemma div_cross_le a b a' b' :
  0 <= a -> 0 < b -> 0 <= a' -> 0 < b' -> a * b' <= a' * b -> a / b <= a' / b'.
Proof.
  intros Ha Hb Ha' Hb' H.
  apply Z.div_le_lower_bound; [lia|].
  pose proof (Z.mul_div_le a b Hb) as H1.
  (* b' * (a/b) <= a' : since b*(a/b) <= a, so b*b'*(a/b) <= a*b' <= a'*b *)
  assert (H2 : b * (b' * (a / b)) <= b * a') by nia.
  apply Z.mul_le_mono_pos_l in H2; lia.
Qed.

Lemma rne_bounds a b : 0 <= a -> 0 < b -> a / b <= rne a b <= a / b + 1.
Proof.
  intros Ha Hb. unfold rne.
  destruct (2 * (a mod b) ?= b); [destruct (Z.even (a / b))| |]; lia.
Qed.

Lemma rne_exact k b : 0 < b -> rne (k * b) b = k.
Proof.
  intros Hb. unfold rne. rewrite Z.div_mul, Z.mod_mul by lia.
  simpl. destruct b; try lia; reflexivity.
Qed.

Lemma rne_mono a b a' b' :
  0 <= a -> 0 < b -> 0 <= a' -> 0 < b' -> a * b' <= a' * b ->
  rne a b <= rne a' b'.
Proof.
  intros Ha Hb Ha' Hb' H.
  pose proof (div_cross_le a b a' b' Ha Hb Ha' Hb' H) as Hk.
  destruct (Z.eq_dec (a / b) (a' / b')) as [E|NE].
  - unfold rne. rewrite <- E.
    pose proof (Z.div_mod a b ltac:(lia)) as D.
    pose proof (Z.div_mod a' b' ltac:(lia)) as D'.
    pose proof (Z.mod_pos_bound a b Hb) as M.
    pose proof (Z.mod_pos_bound a' b' Hb') as M'.
    rewrite <- E in D'.
    set (k := a / b) in *. set (r := a mod b) in *. set (r' := a' mod b') in *.
    assert (Hr : r * b' <= r' * b) by nia.
    destruct (Z.compare_spec (2 * r) b) as [C|C|C];
      destruct (Z.compare_spec (2 * r') b') as [C'|C'|C'];
      try destruct (Z.even k); try lia; nia.
  - pose proof (rne_bounds a b Ha Hb). pose proof (rne_bounds a' b' Ha' Hb'). lia.
Qed.

Lemma round_units_nonneg a b : 0 <= a -> 0 < b -> 0 <= round_units a b.
Proof.
  intros Ha Hb. unfold round_units.
  set (s := Z.max (Z.log2 (a / b) - 52) 0).
  assert (0 < 2 ^ s) by (apply Z.pow_pos_nonneg; lia).
  pose proof (rne_bounds a (b * 2 ^ s) Ha ltac:(nia)).
  pose proof (Z.div_pos a (b * 2 ^ s) Ha ltac:(nia)). nia.
Qed.

Lemma round_units_mono a b a' b' :
  0 <= a -> 0 < b -> 0 <= a' -> 0 < b' -> a * b' <= a' * b ->
  round_units a b <= round_units a' b'.
Proof.
  intros Ha Hb Ha' Hb' H.
  pose proof (div_cross_le a b a' b' Ha Hb Ha' Hb' H) as HF.
  pose proof (Z.div_pos a b Ha Hb) as HF0.
  unfold round_units.
  set (F := a / b) in *. set (F' := a' / b') in *.
  pose proof (Z.log2_le_mono F F' HF) as Hlog.
  set (s := Z.max (Z.log2 F - 52) 0). set (s' := Z.max (Z.log2 F' - 52) 0).
  assert (Hs : 0 <= s <= s') by (unfold s, s'; lia).
  assert (Hp : 0 < 2 ^ s) by (apply Z.pow_pos_nonneg; lia).
  assert (Hp' : 0 < 2 ^ s') by (apply Z.pow_pos_nonneg; lia).
  destruct (Z.eq_dec s s') as [E|NE].
  - rewrite <- E. apply Z.mul_le_mono_nonneg_r; [lia|].
    apply rne_mono; try nia.
  - assert (Hlt : s + 1 <= s') by lia.
    (* upper bound of the left side *)
    assert (HFub : F < 2 ^ (s + 53)).
    { destruct (Z.eq_dec F 0) as [->|HFne].
      - apply Z.pow_pos_nonneg; lia.
      - pose proof (Z.log2_spec F ltac:(lia)) as [_ Hu].
        eapply Z.lt_le_trans; [exact Hu|].
        apply Z.pow_le_mono_r; unfold s; lia. }
    assert (HL : rne a (b * 2 ^ s) <= 2 ^ 53).
    { pose proof (rne_bounds a (b * 2 ^ s) Ha ltac:(nia)) as [_ Hu].
      rewrite <- Z.div_div in Hu by lia. fold F in Hu.
      assert (F / 2 ^ s < 2 ^ 53).
      { apply Z.div_lt_upper_bound; [lia|].
        rewrite <- Z.pow_add_r by lia. first [exact HFub | rewrite Z.add_comm; exact HFub]. }
      lia. }
    (* lower bound of the right side *)
    assert (Hs' : s' = Z.log2 F' - 52) by (unfold s' in *; lia).
    assert (HF'pos : 0 < F').
    { destruct (Z.le_gt_cases F' 0); [|lia].
      rewrite (Z.log2_nonpos F') in Hs' by lia. lia. }
    assert (HR : 2 ^ 52 <= rne a' (b' * 2 ^ s')).
    { pose proof (rne_bounds a' (b' * 2 ^ s') Ha' ltac:(nia)) as [Hl _].
      rewrite <- Z.div_div in Hl by lia. fold F' in Hl.
      pose proof (Z.log2_spec F' HF'pos) as [Hlo _].
      assert (2 ^ 52 <= F' / 2 ^ s').
      { apply Z.div_le_lower_bound; [lia|].
        rewrite <- Z.pow_add_r by lia.
        replace (s' + 52) with (Z.log2 F') by lia. exact Hlo. }
      lia. }
    apply Z.le_trans with (2 ^ 53 * 2 ^ s).
    + apply Z.mul_le_mono_nonneg_r; lia.
    + apply Z.le_trans with (2 ^ 52 * 2 ^ s').
      * rewrite <- !Z.pow_add_r by lia. apply Z.pow_le_mono_r; lia.
      * apply Z.mul_le_mono_nonneg_r; lia.
Qed.

Lemma truediv_same n : 0 < n -> truediv n n = 2 ^ unit_exp.
Proof.
  intros Hn. unfold truediv, round_units, unit_exp.
  rewrite (Z.div_mul (2 ^ 1074) n) by lia.
  replace (Z.max (Z.log2 (2 ^ 1074) - 52) 0) with 1022
    by (rewrite Z.log2_pow2; lia).
  replace (2 ^ 1074 * n) with (2 ^ 52 * (n * 2 ^ 1022)).
  - rewrite rne_exact; [|apply Z.mul_pos_pos; [lia | apply Z.pow_pos_nonneg; lia]].
    rewrite <- Z.pow_add_r by lia. reflexivity.
  - replace (2 ^ 1074) with (2 ^ 52 * 2 ^ 1022); [ring|].
    rewrite <- Z.pow_add_r by lia. reflexivity.
Qed.

Lemma hundred_percent : to_int (mul_int (2 ^ unit_exp) 100) = 100.
Proof. vm_compute. reflexivity. Qed.

End Binary64Facts.

(** The integer model of binary64 agrees with the hardware doubles on
    every index of lists of 1, 2, 3, 7, 10 and 100 names; of 100 names,
    three get a percentage one below the exact quotient. *)
Lemma progress_percent_matches_hardware :
  forallb (fun total =>
     forallb (fun i =>
        match progress_percent_hw i total with
        | Some p => Z.eqb p (progress_percent i total)
        | None => false
        end) (seq 0 total)) [1; 2; 3; 7; 10; 100] = true
  /\ filter (fun i => negb (Z.eqb (progress_percent i 100) (Z.of_nat i + 1)))
       (seq 0 100) = [28; 56; 57].
Proof. split; vm_compute; reflexivity. Qed.

Lemma progress_percent_mono i j total :
  i <= j -> 0 < total -> (progress_percent i total <= progress_percent j total)%Z.
Proof.
  intros Hij Ht. unfold progress_percent, Binary64.to_int, Binary64.mul_int.
  assert (Hu : (0 < 2 ^ Binary64.unit_exp)%Z) by (apply Z.pow_pos_nonneg; unfold Binary64.unit_exp; lia).
  apply Z.div_le_mono; [exact Hu|].
  assert (Hd : (Binary64.truediv (Z.of_nat i + 1) (Z.of_nat total)
                <= Binary64.truediv (Z.of_nat j + 1) (Z.of_nat total))%Z).
  { unfold Binary64.truediv.
    assert (A1 : (0 <= 2 ^ Binary64.unit_exp * (Z.of_nat i + 1))%Z)
      by (apply Z.mul_nonneg_nonneg; lia).
    assert (A2 : (0 <= 2 ^ Binary64.unit_exp * (Z.of_nat j + 1))%Z)
      by (apply Z.mul_nonneg_nonneg; lia).
    apply Binary64Facts.round_units_mono; [exact A1 | lia | exact A2 | lia |].
    apply Z.mul_le_mono_nonneg_r; [lia|].
    apply Z.mul_le_mono_nonneg_l; lia. }
  assert (H0 : (0 <= Binary64.truediv (Z.of_nat i + 1) (Z.of_nat total))%Z).
  { unfold Binary64.truediv. apply Binary64Facts.round_units_nonneg; [|lia].
    apply Z.mul_nonneg_nonneg; lia. }
  apply Binary64Facts.round_units_mono; lia.
Qed.

Lemma progress_percent_last total :
  0 < total -> progress_percent (total - 1) total = 100%Z.
Proof.
  intros Ht. unfold progress_percent.
  replace (Z.of_nat (total - 1) + 1)%Z with (Z.of_nat total) by lia.
  rewrite Binary64Facts.truediv_same by lia.
  apply Binary64Facts.hundred_percent.
Qed.

Lemma progress_percent_range i total :
  i < total -> (0 <= progress_percent i total <= 100)%Z.
Proof.
  intros Hi. split.
  - unfold progress_percent, Binary64.to_int, Binary64.mul_int, Binary64.truediv.
    apply Z.div_pos; [|apply Z.pow_pos_nonneg; unfold Binary64.unit_exp; lia].
    apply Binary64Facts.round_units_nonneg; [|lia].
    apply Z.mul_nonneg_nonneg; [|lia].
    apply Binary64Facts.round_units_nonneg; [|lia].
    apply Z.mul_nonneg_nonneg; [|lia].
    apply Z.pow_nonneg; lia.
  - rewrite <- (progress_percent_last total) by lia.
    apply progress_percent_mono; lia.
Qed.

(** ** Progress of the filter *)

Lemma progress_values_app l1 l2 :
  progress_values (l1 ++ l2) = progress_values l1 ++ progress_values l2.
Proof.
  induction l1 as [|sig l1 IH]; simpl; [reflexivity|].
  destruct sig; simpl; congruence.
Qed.

Lemma progress_values_map (f : nat -> Z) l :
  progress_values (map (fun j => progress_update (f j)) l) = map f l.
Proof. induction l; simpl; congruence. Qed.

Lemma kept_indices_range keep names :
  forall i, Forall (fun j => i <= j < i + List.length names)
              (kept_indices keep i names).
Proof.
  induction names as [|n names IH]; intros i; simpl; [constructor|].
  assert (H : Forall (fun j => i <= j < i + S (List.length names))
                (kept_indices keep (S i) names)).
  { eapply Forall_impl; [|apply IH]. simpl. intros j Hj. lia. }
  destruct (keep n); [constructor; [lia | exact H] | exact H].
Qed.

Lemma kept_indices_length keep names i :
  List.length (kept_indices keep i names) = List.length (filter keep names).
Proof.
  revert i. induction names as [|n names IH]; intros i; simpl; [reflexivity|].
  destruct (keep n); simpl; now rewrite IH.
Qed.

Lemma kept_progress_nondecreasing keep total names :
  0 < total ->
  forall i, nondecreasing
              (map (fun j => progress_percent j total)
                 (kept_indices keep i names)).
Proof.
  intros Ht. induction names as [|n names IH]; intros i; simpl; [exact I|].
  destruct (keep n); [|apply IH]. simpl. split; [|apply IH].
  apply Forall_map. eapply Forall_impl; [|apply kept_indices_range].
  simpl. intros j Hj. apply progress_percent_mono; lia.
Qed.

Lemma kept_indices_snoc keep names last i :
  kept_indices keep i (names ++ [last]) =
  kept_indices keep i names ++
  (if keep last then [i + List.length names] else []).
Proof.
  revert i. induction names as [|n names IH]; intros i; simpl.
  - rewrite Nat.add_0_r. destruct (keep last); reflexivity.
  - rewrite IH. replace (S i + List.length names) with (i + S (List.length names)) by lia.
    destruct (keep n); reflexivity.
Qed.

(** C5 fails on the names of the filter example: only the first of the
    four is kept, and the filter emits the single value 25. *)
Lemma C5_counterexample :
  progress_values
    (emitted (state_after (filter_pvnames example_names example_filter_thread)))
  = [25%Z]
  /\ ~ progress_after_every_candidate example_filter_thread example_names.
Proof.
  assert (E : progress_values
                (emitted (state_after
                   (filter_pvnames example_names example_filter_thread)))
              = [25%Z]) by (vm_compute; reflexivity).
  split; [exact E|].
  unfold progress_after_every_candidate. rewrite E. simpl.
  intros [H _]. discriminate.
Qed.

(** C5, amended. With a prefix and a suffix entry configured, the filter
    emits, after each candidate it keeps and for no other, the truncated
    percentage [int((i + 1) / N * 100)] of that candidate's index [i]; the
    values emitted by one call are non-decreasing and between 0 and 100,
    and the last of them is 100 when the last candidate is kept. *)
Theorem C5_progress_after_kept_candidates self all_pvnames filter1 filter2 more :
  filters self = filter1 :: filter2 :: more ->
  let N := List.length all_pvnames in
  let keep := keepb (ignored_pvs self) filter1 filter2 in
  let ps := map (fun i => progress_percent i N)
              (kept_indices keep 0 all_pvnames) in
  progress_values (emitted (state_after (filter_pvnames all_pvnames self)))
    = progress_values (emitted self) ++ ps
  /\ List.length ps = List.length (filter keep all_pvnames)
  /\ nondecreasing ps
  /\ Forall (fun p => (0 <= p <= 100)%Z) ps
  /\ (forall earlier last_name,
        all_pvnames = earlier ++ [last_name] ->
        keep last_name = true -> last ps 0%Z = 100%Z).
Proof.
  intros Hf N keep ps.
  rewrite (filter_pvnames_spec _ _ _ _ _ Hf). simpl.
  rewrite progress_values_app, progress_values_map.
  split; [reflexivity|]. split; [|split; [|split]].
  - unfold ps. rewrite length_map. apply kept_indices_length.
  - destruct all_pvnames as [|n names]; [exact I|].
    apply kept_progress_nondecreasing. unfold N. simpl. lia.
  - unfold ps. apply Forall_map.
    eapply Forall_impl; [|apply kept_indices_range].
    simpl. intros j Hj. apply progress_percent_range. unfold N. lia.
  - intros earlier last_name Hn Hk. unfold ps, N. rewrite Hn.
    rewrite kept_indices_snoc, Hk, map_app. simpl map at 2.
    rewrite last_last, length_app. simpl.
    replace (List.length earlier) with (List.length earlier + 1 - 1) at 1 by lia.
    apply progress_percent_last. lia.
Qed.

(** Three names, all kept: the values are 33, 66 and 100. *)
Lemma C5_witness :
  let ps := map (fun i => progress_percent i 3)
              (kept_indices (keepb ["A"] (Some "SI-01") (Some "Temp-Mon")) 0
                 ["SI-01-a:Temp-Mon"; "SI-01-b:Temp-Mon"; "SI-01-c:Temp-Mon"]) in
  ps = [33; 66; 100]%Z /\ nondecreasing ps /\ last ps 0%Z = 100%Z.
Proof.
  pose proof (C5_progress_after_kept_candidates example_filter_thread
                ["SI-01-a:Temp-Mon"; "SI-01-b:Temp-Mon"; "SI-01-c:Temp-Mon"]
                (Some "SI-01") (Some "Temp-Mon") [] eq_refl) as H.
  destruct H as (_ & _ & Hnd & _ & Hlast).
  split; [vm_compute; reflexivity|]. split; [exact Hnd|].
  exact (Hlast ["SI-01-a:Temp-Mon"; "SI-01-b:Temp-Mon"] "SI-01-c:Temp-Mon"
           eq_refl eq_refl).
Defined.

(** ** The history of one PV *)

Lemma first_bootstrap_app ops ops' pvname :
  first_bootstrap (ops ++ ops') pvname =
  match first_bootstrap ops pvname with
  | Some b => Some b
  | None => first_bootstrap ops' pvname
  end.
Proof.
  induction ops as [|[n v now hd|n v now] ops IH]; simpl; auto.
  destruct (String.eqb n pvname); auto.
Qed.

Lemma hd_error_app_some {A} (l l' : list A) x :
  hd_error l = Some x -> hd_error (l ++ l') = Some x.
Proof. destruct l; simpl; [discriminate | auto]. Qed.

Lemma starts_bootstrap ops d n v now handle k :
  (forall k, starts_with_bootstrap ops d k) ->
  starts_with_bootstrap (ops ++ [Bootstrap n v now handle])
    (history_append d n v now) k.
Proof.
  intros H. unfold starts_with_bootstrap in *.
  rewrite history_append_get, first_bootstrap_app. simpl.
  unfold entry_or_fresh. specialize (H k).
  destruct (String.eqb_spec n k) as [->|Hnk].
  - destruct (dict_get d k) as [h|].
    + destruct H as (v0 & t0 & H1 & H2 & H3). exists v0, t0. rewrite H1.
      simpl. auto using hd_error_app_some.
    + rewrite H. exists v, now. simpl. auto.
  - destruct (dict_get d k) as [h|].
    + destruct H as (v0 & t0 & H1 & H2 & H3). exists v0, t0. now rewrite H1.
    + now rewrite H.
Qed.

Lemma starts_delivery ops d n v now k :
  (forall k, starts_with_bootstrap ops d k) ->
  dict_mem d n = true ->
  starts_with_bootstrap (ops ++ [Delivery n v now])
    (history_append d n v now) k.
Proof.
  intros H Hmem. unfold starts_with_bootstrap, dict_mem in *.
  rewrite history_append_get, first_bootstrap_app. simpl.
  unfold entry_or_fresh. specialize (H k).
  destruct (String.eqb_spec n k) as [->|Hnk].
  - destruct (dict_get d k) as [h|]; [|discriminate].
    destruct H as (v0 & t0 & H1 & H2 & H3). exists v0, t0. rewrite H1.
    simpl. auto using hd_error_app_some.
  - destruct (dict_get d k) as [h|].
    + destruct H as (v0 & t0 & H1 & H2 & H3). exists v0, t0. now rewrite H1.
    + now rewrite H.
Qed.

Lemma starts_delivery_dropped ops d n v now k :
  starts_with_bootstrap ops d k ->
  starts_with_bootstrap (ops ++ [Delivery n v now]) d k.
Proof.
  unfold starts_with_bootstrap. rewrite first_bootstrap_app. simpl.
  destruct (dict_get d k) as [h|].
  - intros (v0 & t0 & H1 & H2 & H3). exists v0, t0. now rewrite H1.
  - now intros ->.
Qed.

Lemma run_events_snoc self evs ev :
  run_events self (evs ++ [ev]) = step (run_events self evs) ev.
Proof. unfold run_events. now rewrite fold_left_app. Qed.

Lemma history_trace fs ci fd idl ops :
  forall pvname,
    starts_with_bootstrap ops
      (pv_values (run_events (init fs ci fd idl) (map event_of ops))) pvname.
Proof.
  induction ops as [|op ops IH] using rev_ind; intros pvname.
  - reflexivity.
  - rewrite map_app. cbn [map]. rewrite run_events_snoc.
    pose proof (Inv_reachable fs ci fd idl (map event_of ops)) as (_ & _ & Hmon).
    set (self := run_events (init fs ci fd idl) (map event_of ops)) in *.
    destruct op as [n v now hd|n v now]; simpl.
    + now apply starts_bootstrap.
    + destruct (dict_mem (pv_monitors self) n) eqn:Hm; simpl.
      * apply starts_delivery; [exact IH | now apply Hmon].
      * now apply starts_delivery_dropped.
Qed.

(** C8. After any sequence of bootstraps and callback deliveries on a
    fresh thread, every history entry holds at least one sample, has as
    many timestamps as values, and starts with the value and the clock of
    the first bootstrap read of its PV; and every PV with an open monitor
    already has its entry, so no callback ever creates one. *)
Theorem C8_history_starts_with_bootstrap fs ci fd idl ops :
  let self := run_events (init fs ci fd idl) (map event_of ops) in
  (forall pvname h,
     dict_get (pv_values self) pvname = Some h ->
     values h <> []
     /\ List.length (values h) = List.length (timestamps h)
     /\ exists v now,
          first_bootstrap ops pvname = Some (v, now)
          /\ hd_error (values h) = Some v
          /\ hd_error (timestamps h) = Some now)
  /\ (forall pvname,
        dict_mem (pv_monitors self) pvname = true ->
        dict_mem (pv_values self) pvname = true).
Proof.
  intros self.
  pose proof (Inv_reachable fs ci fd idl (map event_of ops)) as (_ & Hok & Hmon).
  fold self in Hok, Hmon. split; [|exact Hmon].
  intros pvname h Hget. destruct (Hok _ _ Hget) as [Hne Hlen].
  split; [exact Hne|]. split; [exact Hlen|].
  pose proof (history_trace fs ci fd idl ops pvname) as Ht.
  unfold starts_with_bootstrap in Ht. fold self in Ht. now rewrite Hget in Ht.
Qed.

Lemma C8_witness :
  let h := mkHistory [None; Some (Num 3); Some (Num 4)] [10%Z; 11%Z; 13%Z] in
  values h <> []
  /\ List.length (values h) = List.length (timestamps h)
  /\ exists v now,
       first_bootstrap example_ops "SI-01M1:PS-Temp-Mon" = Some (v, now)
       /\ hd_error (values h) = Some v
       /\ hd_error (timestamps h) = Some now.
Proof.
  exact (proj1 (C8_history_starts_with_bootstrap None 10%Z (2 * 60)%Z
                  (10 * 60)%Z example_ops)
           "SI-01M1:PS-Temp-Mon"
           (mkHistory [None; Some (Num 3); Some (Num 4)] [10%Z; 11%Z; 13%Z])
           eq_refl).
Defined.

(** ** Life cycle of the registry *)

(** C9 fails: [stop] leaves the history and the handle of the monitored PV
    in place, and [stop_pv_monitor] removes the handle while the history
    stays. *)
Lemma C9_counterexample :
  ~ stop_clears_registry one_monitor_thread
  /\ ~ no_partial_eviction one_monitor_thread
         (EvStopMonitor "SI-01M1:PS-Temp-Mon") "SI-01M1:PS-Temp-Mon".
Proof.
  split.
  - intros [H _]. discriminate H.
  - intros H. specialize (H eq_refl eq_refl). discriminate H.
Qed.

Lemma has_entry_registry k :
  registry_property (fun s => dict_mem (pv_values s) k = true).
Proof. intros s s' (H1 & _) H. now rewrite H1. Qed.

Lemma start_pv_monitor_state pvname v now handle self :
  start_pv_monitor pvname v now handle self =
  Return tt
    (with_pv_monitors
       (with_pv_values self (history_append (pv_values self) pvname v now))
       (dict_set (pv_monitors self) pvname handle)).
Proof. reflexivity. Qed.

Lemma run_events_app self evs evs' :
  run_events self (evs ++ evs') = run_events (run_events self evs) evs'.
Proof. unfold run_events. apply fold_left_app. Qed.

Lemma on_arrival_state a self :
  on_arrival a self = Return tt (step self (event_of (delivery_of a))).
Proof.
  unfold on_arrival, bind, get_self. cbn [delivery_of event_of step].
  destruct (dict_mem (pv_monitors self) (arrival_pvname a)); reflexivity.
Qed.

Lemma on_arrivals_state arrivals :
  forall self,
    on_arrivals arrivals self =
    Return tt (run_events self (map event_of (map delivery_of arrivals))).
Proof.
  unfold run_events.
  induction arrivals as [|a arrivals IH]; intros self;
    cbn [on_arrivals map fold_left]; [reflexivity|].
  unfold bind at 1. rewrite on_arrival_state. apply IH.
Qed.

(** The loop of [run] over the kept names, as operations on the store. *)
Lemma start_monitors_state w names :
  forall self,
    start_monitors w names self =
    Return tt (run_events self (map event_of (flat_map (monitor_ops w) names))).
Proof.
  induction names as [|n names IH]; intros self;
    cbn [start_monitors flat_map]; [reflexivity|].
  unfold bind at 1. rewrite start_pv_monitor_state. cbv beta iota.
  unfold bind at 1. rewrite on_arrivals_state. cbv beta iota.
  rewrite IH, map_app, run_events_app. reflexivity.
Qed.

(** The store and the handles after operations on the store: nothing is
    lost, and every bootstrap leaves a history and a handle. *)
Lemma history_ops_handles ops :
  forall s k,
    dict_mem (pv_monitors (run_events s (map event_of ops))) k
    = dict_mem (pv_monitors s) k || has_bootstrap ops k.
Proof.
  unfold run_events, has_bootstrap.
  induction ops as [|op ops IH]; intros s k; cbn [map fold_left].
  - cbn [first_bootstrap]. now rewrite orb_false_r.
  - rewrite IH. destruct op as [n v now handle | n v now];
      cbn [event_of step first_bootstrap].
    + rewrite start_pv_monitor_state. cbn [state_after pv_monitors with_pv_monitors].
      unfold dict_mem at 1. rewrite dict_get_set.
      fold (dict_mem (pv_monitors s) k).
      destruct (String.eqb n k); [now rewrite orb_true_r | reflexivity].
    + destruct (dict_mem (pv_monitors s) n); reflexivity.
Qed.

Lemma history_ops_entries_kept ops :
  forall s k,
    dict_mem (pv_values s) k || has_bootstrap ops k = true ->
    dict_mem (pv_values (run_events s (map event_of ops))) k = true.
Proof.
  unfold run_events, has_bootstrap.
  induction ops as [|op ops IH]; intros s k; cbn [map fold_left].
  - cbn [first_bootstrap]. now rewrite orb_false_r.
  - intros H. apply IH. destruct op as [n v now handle | n v now];
      cbn [event_of step first_bootstrap] in *.
    + rewrite start_pv_monitor_state.
      cbn [state_after pv_values with_pv_values with_pv_monitors].
      rewrite history_append_mem.
      destruct (String.eqb n k); [reflexivity | exact H].
    + destruct (dict_mem (pv_monitors s) n); [|exact H].
      cbn [callback modify state_after pv_values with_pv_values].
      rewrite history_append_mem.
      destruct (String.eqb n k); [reflexivity | exact H].
Qed.

Lemma first_bootstrap_deliveries arrivals k :
  first_bootstrap (map delivery_of arrivals) k = None.
Proof. induction arrivals as [|a arrivals IH]; [reflexivity | exact IH]. Qed.

Lemma has_bootstrap_app ops ops' k :
  has_bootstrap (ops ++ ops') k = has_bootstrap ops k || has_bootstrap ops' k.
Proof.
  unfold has_bootstrap.
  induction ops as [|op ops IH]; [reflexivity|].
  destruct op as [n v now handle | n v now]; cbn [app first_bootstrap];
    [|exact IH].
  destruct (String.eqb n k); [reflexivity | exact IH].
Qed.

Lemma has_bootstrap_deliveries arrivals k :
  has_bootstrap (map delivery_of arrivals) k = false.
Proof. unfold has_bootstrap. now rewrite first_bootstrap_deliveries. Qed.

(** The bootstraps inside a [run] are those of the names it keeps. *)
Lemma has_bootstrap_run w names k :
  has_bootstrap (history_ops_of_run w names) k = py_in k names.
Proof.
  unfold history_ops_of_run.
  rewrite has_bootstrap_app, has_bootstrap_deliveries, orb_false_r.
  induction names as [|n names IH]; [reflexivity|].
  cbn [flat_map]. rewrite has_bootstrap_app, IH.
  unfold monitor_ops, has_bootstrap at 1. cbn [first_bootstrap].
  rewrite first_bootstrap_deliveries. cbn [py_in existsb].
  rewrite (String.eqb_sym k n). destruct (String.eqb n k); reflexivity.
Qed.

Lemma frames_after_start_monitors w :
  frames (modify (fun self => with_start_time self (Some (clock_start w))) ;;;
          start_frozen_check ;;;
          emit (progress_update 100) ;;;
          emit (update_status "Processamento Concluído.")).
Proof.
  apply frames_bind; [intros s; repeat split | intros _].
  apply frames_bind; [apply frames_start_frozen_check | intros _].
  apply frames_bind; [apply frames_emit | intros _]. apply frames_emit.
Qed.

(** [run] starts a monitor for every name the filter keeps. *)
Lemma run_registers w self names f1 f2 more pvname :
  archiver_connects w = true ->
  getAllPVs w = Some names ->
  filters self = f1 :: f2 :: more ->
  In pvname (filter (keepb (ignored_pvs self) f1 f2) names) ->
  dict_mem (pv_values (state_after (run w self))) pvname = true
  /\ dict_mem (pv_monitors (state_after (run w self))) pvname = true.
Proof.
  intros Hc Hall Hf Hin. unfold run.
  rewrite state_after_bind. cbn [modify]. rewrite state_after_bind.
  cbn [get_self conn with_conn]. rewrite Hc, Hall. cbn [negb].
  destruct names as [|n names]; [destruct Hin|].
  rewrite state_after_bind.
  rewrite (filter_pvnames_spec (with_conn self true) (n :: names) f1 f2 more Hf).
  cbn [ignored_pvs with_conn].
  set (filtered := filter (keepb (ignored_pvs self) f1 f2) (n :: names)) in *.
  rewrite state_after_bind. cbn [emit modify].
  rewrite state_after_bind. cbn [emit modify].
  rewrite state_after_bind, start_monitors_state.
  rewrite state_after_bind, on_arrivals_state.
  rewrite <- run_events_app, <- map_app.
  fold (history_ops_of_run w filtered).
  match goal with
  | |- context [run_events ?s (map event_of (history_ops_of_run w filtered))] =>
      set (s1 := s)
  end.
  set (s2 := run_events s1 (map event_of (history_ops_of_run w filtered))).
  destruct (frames_after_start_monitors w s2) as (E1 & E2 & _).
  rewrite E1, E2.
  assert (Hb : has_bootstrap (history_ops_of_run w filtered) pvname = true)
    by (rewrite has_bootstrap_run; now apply py_in_spec).
  split.
  - apply history_ops_entries_kept. rewrite Hb. apply orb_true_r.
  - unfold s2. rewrite history_ops_handles, Hb. apply orb_true_r.
Qed.

Lemma stop_state self :
  stop self =
  Return tt
    (with_emitted
       (with_timer (with_running self false)
          (match timer self with
           | Some t => Some (mkQTimer (interval t) false)
           | None => None
           end))
       (emitted self ++ [update_status "Monitoramento interrompido."])).
Proof.
  unfold stop, bind, modify, get_self, emit. cbn [timer with_running].
  destruct self as [ig sp c f pv pm ci fd idl st [t|] r e]; reflexivity.
Qed.

Lemma grown_registry h pvname : registry_property (grown h pvname).
Proof. intros s s' (H1 & _). unfold grown. now rewrite H1. Qed.

Lemma grown_history_append h pvname n v now s s' :
  pv_values s' = history_append (pv_values s) n v now ->
  grown h pvname s -> grown h pvname s'.
Proof.
  intros E (h' & mv & mt & Hget & Hv & Ht). unfold grown.
  rewrite E, history_append_get. unfold entry_or_fresh.
  destruct (String.eqb_spec n pvname) as [->|Hn].
  - rewrite Hget. eexists _, (mv ++ [v]), (mt ++ [now]).
    split; [reflexivity|]. simpl. rewrite Hv, Ht, <- !app_assoc. auto.
  - exists h', mv, mt. auto.
Qed.

Lemma grown_step h pvname self ev :
  grown h pvname self -> grown h pvname (step self ev).
Proof.
  apply preserves_step.
  - apply grown_registry.
  - intros n v now hd s. now apply grown_history_append with n v now.
  - intros n v now s. now apply grown_history_append with n v now.
  - intros n s Hs. unfold stop_pv_monitor. rewrite state_after_bind.
    cbn [get_self]. destruct (dict_mem (pv_monitors s) n); exact Hs.
Qed.

(** C9, amended. An entry (history and handle) is created when the
    monitor of a PV is started, which [run] does for every name the filter
    keeps.  No method removes or shortens a history.  [stop] clears the
    [running] flag, stops the timer if there is one and emits its final
    status, and leaves both dicts as they are.  [stop_pv_monitor] removes
    the handle of its PV and leaves the store of histories as it is. *)
Theorem C9_registry_life_cycle :
  (forall self pvname v now handle,
     let self' := state_after (start_pv_monitor pvname v now handle self) in
     dict_mem (pv_values self') pvname = true
     /\ dict_get (pv_monitors self') pvname = Some handle)
  /\ (forall w self names filter1 filter2 more pvname,
        archiver_connects w = true ->
        getAllPVs w = Some names ->
        filters self = filter1 :: filter2 :: more ->
        In pvname (filter (keepb (ignored_pvs self) filter1 filter2) names) ->
        dict_mem (pv_values (state_after (run w self))) pvname = true
        /\ dict_mem (pv_monitors (state_after (run w self))) pvname = true)
  /\ (forall self ev pvname h,
        dict_get (pv_values self) pvname = Some h ->
        exists h' more_values more_timestamps,
          dict_get (pv_values (step self ev)) pvname = Some h'
          /\ values h' = values h ++ more_values
          /\ timestamps h' = timestamps h ++ more_timestamps)
  /\ (forall self,
        exists self',
          stop self = Return tt self'
          /\ pv_values self' = pv_values self
          /\ pv_monitors self' = pv_monitors self
          /\ running self' = false
          /\ timer self' = option_map (fun t => mkQTimer (interval t) false)
                             (timer self)
          /\ emitted self' =
             emitted self ++ [update_status "Monitoramento interrompido."])
  /\ (forall self pvname,
        let self' := state_after (stop_pv_monitor pvname self) in
        pv_values self' = pv_values self
        /\ dict_mem (pv_monitors self') pvname = false).
Proof.
  split; [|split; [|split; [|split]]].
  - intros self pvname v now handle self'. unfold self'.
    rewrite start_pv_monitor_state. cbn [state_after]. simpl. split.
    + rewrite history_append_mem, String.eqb_refl. reflexivity.
    + now rewrite dict_get_set, String.eqb_refl.
  - intros. eapply run_registers; eassumption.
  - intros self ev pvname h Hget. apply (grown_step h pvname self ev).
    exists h, [], []. rewrite !app_nil_r. auto.
  - intros self. eexists. split; [apply stop_state|].
    simpl. destruct (timer self); repeat split.
  - intros self pvname self'. unfold self', stop_pv_monitor.
    rewrite state_after_bind. cbn [get_self].
    destruct (dict_mem (pv_monitors self) pvname) eqn:Hm; simpl.
    + split; [reflexivity|]. unfold dict_mem.
      now rewrite dict_get_del, String.eqb_refl.
    + split; [reflexivity | exact Hm].
Qed.

(** On the thread with one monitored PV: a callback extends the history,
    and after [stop] the history and the handle are still there. *)
Lemma C9_witness :
  (exists h' more_values more_timestamps,
     dict_get (pv_values (step one_monitor_thread
                            (EvCallback "SI-01M1:PS-Temp-Mon" (Some (Num 2)) 11%Z)))
       "SI-01M1:PS-Temp-Mon" = Some h'
     /\ values h' = [Some (Num 1)] ++ more_values
     /\ timestamps h' = [10%Z] ++ more_timestamps)
  /\ exists self',
       stop one_monitor_thread = Return tt self'
       /\ pv_values self' = pv_values one_monitor_thread
       /\ pv_monitors self' = pv_monitors one_monitor_thread
       /\ running self' = false
       /\ timer self' = None
       /\ emitted self' = [update_status "Monitoramento interrompido."].
Proof.
  split.
  - exact (proj1 (proj2 (proj2 C9_registry_life_cycle)) one_monitor_thread
             (EvCallback "SI-01M1:PS-Temp-Mon" (Some (Num 2)) 11%Z)
             "SI-01M1:PS-Temp-Mon" (mkHistory [Some (Num 1)] [10%Z]) eq_refl).
  - exact (proj1 (proj2 (proj2 (proj2 C9_registry_life_cycle)))
             one_monitor_thread).
Defined.

(** * Further properties *)

(** ** The check cycle, exactly *)

Lemma check_loop_exact self keys :
  forall fz dc cf cd,
    check_loop self keys fz dc cf cd =
    (fz ++ filter (reported_frozen self) keys,
     dc ++ filter (reported_disconnected self) keys,
     (cf + Z.of_nat (List.length (filter (reported_frozen self) keys)))%Z,
     (cd + Z.of_nat (List.length (filter (reported_disconnected self) keys)))%Z).
Proof.
  induction keys as [|k keys IH]; intros fz dc cf cd.
  - simpl. now rewrite !app_nil_r, !Z.add_0_r.
  - cbn [check_loop filter].
    change (reported_frozen self k)
      with (check_pv_connected self k && check_pv_frozen self k).
    change (reported_disconnected self k)
      with (negb (check_pv_connected self k)).
    destruct (check_pv_connected self k); cbn [negb andb].
    + destruct (check_pv_frozen self k); rewrite IH.
      * rewrite <- app_assoc. cbn [List.length app].
        rewrite Nat2Z.inj_succ, <- Z.add_assoc, Z.add_1_l. reflexivity.
      * reflexivity.
    + rewrite IH, <- app_assoc. cbn [List.length app].
      rewrite Nat2Z.inj_succ, <- Z.add_assoc, Z.add_1_l. reflexivity.
Qed.

Lemma classify_all_exact self :
  classify_all self =
  (filter (reported_frozen self) (dict_keys (pv_values self)),
   filter (reported_disconnected self) (dict_keys (pv_values self)),
   Z.of_nat (List.length (frozen_pvs_of self)),
   Z.of_nat (List.length (disconnected_pvs_of self))).
Proof.
  unfold frozen_pvs_of, disconnected_pvs_of, classify_all.
  rewrite check_loop_exact. reflexivity.
Qed.

(** X1. The frozen list of a cycle is the keys of the store, in store
    order, that are connected and pass [check_pv_frozen]; the disconnected
    list is the keys that are not connected; the two counters are the
    lengths of the two lists. *)
Theorem X1_check_cycle_lists self :
  classify_all self =
  (filter (reported_frozen self) (dict_keys (pv_values self)),
   filter (reported_disconnected self) (dict_keys (pv_values self)),
   Z.of_nat (List.length (frozen_pvs_of self)),
   Z.of_nat (List.length (disconnected_pvs_of self))).
Proof. exact (classify_all_exact self). Qed.

Lemma filter_lengths_le {A} (f g : A -> bool) l :
  (forall x, f x = true -> g x = true -> False) ->
  List.length (filter f l) + List.length (filter g l) <= List.length l.
Proof.
  intros H. induction l as [|x l IH]; simpl; [lia|].
  destruct (f x) eqn:Ef, (g x) eqn:Eg; simpl; try lia.
  exfalso. eauto.
Qed.

Lemma length_dict_keys {V} (d : dict V) :
  List.length (dict_keys d) = List.length d.
Proof. apply length_map. Qed.

Lemma check_pvs_state self :
  check_pvs self =
  Return tt
    (with_emitted self
       (emitted self ++
        cycle_report (frozen_pvs_of self) (disconnected_pvs_of self)
          (List.length (pv_values self)))).
Proof.
  unfold check_pvs, bind at 1, get_self.
  pose proof (classify_all_exact self) as E.
  unfold frozen_pvs_of, disconnected_pvs_of in *.
  destruct (classify_all self) as [[[fz dc] cf] cd]. simpl in E.
  injection E as E1 E2 E3 E4. simpl fst; simpl snd.
  assert (Hf : (if py_not fz then [] else fz) = fz) by (destruct fz; reflexivity).
  assert (Hd : (if py_not dc then [] else dc) = dc) by (destruct dc; reflexivity).
  rewrite Hf, Hd, E3, E4.
  unfold list_pvs, bind, emit, modify, cycle_report. simpl.
  rewrite <- !app_assoc. reflexivity.
Qed.

(** X2. A check cycle returns normally and only appends to the signal
    log: the frozen list, the disconnected list, the number of PVs in the
    store, the lengths of the two lists and the closing status, in this
    order; the two counts together never exceed the number of PVs. *)
Theorem X2_check_cycle_report self :
  check_pvs self =
  Return tt
    (with_emitted self
       (emitted self ++
        cycle_report (frozen_pvs_of self) (disconnected_pvs_of self)
          (List.length (pv_values self))))
  /\ List.length (frozen_pvs_of self)
     + List.length (disconnected_pvs_of self)
     <= List.length (pv_values self).
Proof.
  split; [apply check_pvs_state|].
  pose proof (classify_all_exact self) as E.
  unfold frozen_pvs_of, disconnected_pvs_of. rewrite E. simpl.
  rewrite <- (length_dict_keys (pv_values self)).
  apply filter_lengths_le.
  unfold reported_frozen, reported_disconnected. intros k H1 H2.
  destruct (check_pv_connected self k); discriminate.
Qed.

(** ** Keys of the store *)

Lemma dict_keys_set {V} (d : dict V) k v :
  dict_keys (dict_set d k v) =
  if dict_mem d k then dict_keys d else dict_keys d ++ [k].
Proof.
  unfold dict_mem, dict_keys.
  induction d as [|[k0 v0] d IH]; simpl; [reflexivity|].
  destruct (String.eqb_spec k0 k) as [->|Hk0]; simpl; [reflexivity|].
  rewrite IH. destruct (dict_get d k); reflexivity.
Qed.

Lemma dict_mem_set {V} (d : dict V) k v k' :
  dict_mem (dict_set d k v) k' = String.eqb k k' || dict_mem d k'.
Proof.
  unfold dict_mem. rewrite dict_get_set.
  destruct (String.eqb k k'); reflexivity.
Qed.

Lemma history_append_keys d pvname value now :
  dict_keys (history_append d pvname value now) =
  if dict_mem d pvname then dict_keys d else dict_keys d ++ [pvname].
Proof.
  unfold history_append.
  destruct (dict_mem d pvname) eqn:Hm; simpl.
  - unfold dict_mem in Hm.
    destruct (dict_get d pvname) as [h|] eqn:Hg; [|discriminate].
    rewrite dict_get_set, String.eqb_refl.
    rewrite !dict_keys_set, dict_mem_set, String.eqb_refl. simpl.
    unfold dict_mem. now rewrite Hg.
  - rewrite dict_get_set, String.eqb_refl.
    rewrite dict_get_set, String.eqb_refl.
    rewrite !dict_keys_set, !dict_mem_set, String.eqb_refl, Hm. reflexivity.
Qed.

Lemma history_append_nodup d pvname value now :
  NoDup (dict_keys d) -> NoDup (dict_keys (history_append d pvname value now)).
Proof.
  intros H. rewrite history_append_keys.
  destruct (dict_mem d pvname) eqn:Hm; [exact H|].
  apply NoDup_app; [exact H | repeat constructor; intros [] |].
  intros x Hx [<-|[]].
  apply dict_mem_keys in Hx. congruence.
Qed.

Lemma nodup_keys_registry :
  registry_property (fun s => NoDup (dict_keys (pv_values s))).
Proof. intros s s' (H1 & _) H. now rewrite H1. Qed.

Lemma nodup_keys_reachable fs ci fd idl evs :
  NoDup (dict_keys (pv_values (run_events (init fs ci fd idl) evs))).
Proof.
  apply (preserves_run_events (fun s => NoDup (dict_keys (pv_values s)))).
  - exact nodup_keys_registry.
  - intros n v now hd s Hs. simpl. now apply history_append_nodup.
  - intros n v now s Hs. simpl. now apply history_append_nodup.
  - intros n s Hs. unfold stop_pv_monitor. rewrite state_after_bind.
    cbn [get_self]. destruct (dict_mem (pv_monitors s) n); exact Hs.
  - constructor.
Qed.

(** X3. In every state reachable from the constructor a check cycle names
    each PV at most once: neither list has a duplicate, and no PV is in
    both. *)
Theorem X3_cycle_lists_disjoint_nodup fs ci fd idl evs :
  let self := run_events (init fs ci fd idl) evs in
  NoDup (frozen_pvs_of self)
  /\ NoDup (disconnected_pvs_of self)
  /\ (forall pvname,
        In pvname (frozen_pvs_of self) ->
        ~ In pvname (disconnected_pvs_of self)).
Proof.
  intros self.
  pose proof (nodup_keys_reachable fs ci fd idl evs) as Hnd. fold self in Hnd.
  pose proof (classify_all_exact self) as E.
  unfold frozen_pvs_of, disconnected_pvs_of. rewrite E. simpl.
  split; [now apply NoDup_filter|]. split; [now apply NoDup_filter|].
  intros k H1 H2. apply filter_In in H1 as [_ H1], H2 as [_ H2].
  unfold reported_frozen, reported_disconnected in *.
  destruct (check_pv_connected self k); discriminate.
Qed.

Lemma classification_same_registry s s' pvname :
  same_registry s s' ->
  check_pv_connected s' pvname = check_pv_connected s pvname
  /\ check_pv_frozen s' pvname = check_pv_frozen s pvname.
Proof.
  intros (H1 & _ & H3 & _).
  unfold check_pv_connected, check_pv_frozen, is_set_point_pv.
  now rewrite H1, H3.
Qed.

Lemma classify_all_same_registry s s' :
  same_registry s s' -> classify_all s' = classify_all s.
Proof.
  intros H. unfold classify_all. rewrite !check_loop_exact.
  destruct H as (H1 & H2). rewrite H1.
  assert (Hf : forall l, filter (reported_frozen s') l
                         = filter (reported_frozen s) l).
  { intros l. apply filter_ext. intros k. unfold reported_frozen.
    destruct (classification_same_registry s s' k) as [-> ->];
      [repeat split; tauto || apply H2 | reflexivity]. }
  assert (Hd : forall l, filter (reported_disconnected s') l
                         = filter (reported_disconnected s) l).
  { intros l. apply filter_ext. intros k. unfold reported_disconnected.
    destruct (classification_same_registry s s' k) as [-> _];
      [repeat split; tauto || apply H2 | reflexivity]. }
  now rewrite Hf, Hd.
Qed.

(** X4. What a cycle reports depends on the registry alone: a check cycle
    or a [stop] in between changes neither list of the next cycle. *)
Theorem X4_check_and_stop_keep_classification self :
  classify_all (state_after (check_pvs self)) = classify_all self
  /\ classify_all (state_after (stop self)) = classify_all self
  /\ classify_all (state_after (check_pvs (state_after (stop self))))
     = classify_all self.
Proof.
  assert (H1 := frames_check_pvs self). assert (H2 := frames_stop self).
  assert (H3 := frames_check_pvs (state_after (stop self))).
  split; [now apply classify_all_same_registry|].
  split; [now apply classify_all_same_registry|].
  apply classify_all_same_registry. eapply same_registry_trans; eassumption.
Qed.

(** X5. A delivery to the callback appends one value and one timestamp at
    the end of the history of its PV, creating the entry with that single
    sample when there is none; every other history, the order of the keys
    already present and the handles stay as they were.  The bootstrap of
    [start_pv_monitor] does the same and then stores the handle. *)
Theorem X5_append_one_sample self pvname value now handle :
  let after_callback := state_after (callback pvname value now self) in
  let after_start :=
    state_after (start_pv_monitor pvname value now handle self) in
  let before := entry_or_fresh (pv_values self) pvname in
  dict_get (pv_values after_callback) pvname
    = Some (mkHistory (values before ++ [value]) (timestamps before ++ [now]))
  /\ (forall other, other <> pvname ->
        dict_get (pv_values after_callback) other
        = dict_get (pv_values self) other)
  /\ dict_keys (pv_values after_callback)
     = (if dict_mem (pv_values self) pvname
        then dict_keys (pv_values self)
        else dict_keys (pv_values self) ++ [pvname])
  /\ pv_monitors after_callback = pv_monitors self
  /\ pv_values after_start = pv_values after_callback
  /\ dict_get (pv_monitors after_start) pvname = Some handle
  /\ (forall other, other <> pvname ->
        dict_get (pv_monitors after_start) other
        = dict_get (pv_monitors self) other).
Proof.
  simpl. repeat split.
  - now rewrite history_append_get, String.eqb_refl.
  - intros other Hne. rewrite history_append_get.
    destruct (String.eqb_spec pvname other); [congruence | reflexivity].
  - apply history_append_keys.
  - now rewrite dict_get_set, String.eqb_refl.
  - intros other Hne. rewrite dict_get_set.
    destruct (String.eqb_spec pvname other); [congruence | reflexivity].
Qed.

(** ** The freeze windows, further *)

Lemma py_eq_eq a b : py_eq a b = true -> a = b.
Proof.
  destruct a as [[x|]|], b as [[y|]|]; simpl; try discriminate;
    [|reflexivity].
  intros H. apply Z.eqb_eq in H. now subst.
Qed.

Lemma py_eq_num z : py_eq (Some (Num z)) (Some (Num z)) = true.
Proof. apply Z.eqb_refl. Qed.

(** [v == v] holds for [None] and for numbers, and fails for NaN. *)
Lemma py_eq_same_inv a :
  py_eq a a = true -> a = None \/ exists z, a = Some (Num z).
Proof. destruct a as [[z|]|]; simpl; [eauto | discriminate | auto]. Qed.

Lemma all_equal_first_eq window :
  all_equal_first window = true ->
  forall v, In v window -> v = py_first window.
Proof.
  unfold all_equal_first. rewrite forallb_forall.
  intros H v Hv. apply py_eq_eq. auto.
Qed.

Lemma all_equal_first_num window z :
  (forall v, In v window -> v = Some (Num z)) ->
  all_equal_first window = true.
Proof.
  intros H. unfold all_equal_first. apply forallb_forall. intros v Hv.
  rewrite (H v Hv). destruct window as [|v0 rest]; [destruct Hv|].
  cbn [py_first hd]. rewrite (H v0 (or_introl eq_refl)). apply py_eq_num.
Qed.

(** The verdict of [check_pv_frozen] for a PV that is no set point and has
    a timestamp on record, from its values alone. *)
Lemma check_pv_frozen_not_set_point self pvname h :
  dict_get (pv_values self) pvname = Some h ->
  timestamps h <> [] ->
  is_set_point_pv self pvname = false ->
  check_pv_frozen self pvname =
    negb (py_not (values h))
    && negb (is_None (py_last (values h)))
    && (all_equal_first (firstn 15 (values h))
        && all_equal_first (skipn (List.length (values h) - 15) (values h))
        && py_eq (py_first (firstn 15 (values h)))
             (py_first (skipn (List.length (values h) - 15) (values h)))).
Proof.
  intros Hget Hts Hsp. unfold check_pv_frozen. rewrite Hget, Hsp.
  rewrite first_values_of_firstn, last_values_of_skipn.
  destruct (values h) as [|v vs] eqn:Ev; [reflexivity|].
  destruct (timestamps h); [congruence|]. cbn [py_not orb negb andb].
  destruct (is_None (py_last (v :: vs))); [reflexivity|]. cbn [negb andb].
  destruct (windows_nonempty (v :: vs) ltac:(discriminate)) as [H1 H2].
  rewrite first_values_of_firstn in H1. rewrite last_values_of_skipn in H2.
  rewrite H1, H2. cbn [orb].
  match goal with |- (if ?b then true else false) = _ => destruct b; reflexivity end.
Qed.

Lemma last_app_nonempty {A} (l l' : list A) d :
  l' <> [] -> last (l ++ l') d = last l' d.
Proof.
  intros Hne. induction l as [|x l IH]; simpl; [reflexivity|].
  rewrite IH. destruct (l ++ l') eqn:E; [|reflexivity].
  apply app_eq_nil in E as [_ E]. congruence.
Qed.

Lemma reachable_set_point_suffixes fs ci fd idl evs :
  set_point_suffixes (run_events (init fs ci fd idl) evs)
  = default_set_point_suffixes.
Proof. exact (proj1 (Inv_reachable fs ci fd idl evs)). Qed.

(** X6. Only the first 15 and the last 15 values count: for a PV that is
    no set point, in a reachable state, with a history [a ++ middle ++ b]
    where [a] and [b] have 15 values each, [check_pv_frozen] is decided by
    [a] and [b]; the values in between are never looked at. *)
Theorem X6_middle_values_ignored fs ci fd idl evs pvname h a middle b :
  let self := run_events (init fs ci fd idl) evs in
  dict_get (pv_values self) pvname = Some h ->
  is_set_point_pv self pvname = false ->
  values h = a ++ middle ++ b ->
  List.length a = 15 -> List.length b = 15 ->
  check_pv_frozen self pvname =
    negb (is_None (last b None))
    && (all_equal_first a && all_equal_first b
        && py_eq (hd None a) (hd None b)).
Proof.
  intros self Hget Hsp Hv Ha Hb.
  assert (Hts : timestamps h <> [])
    by (eapply history_ok_timestamps, reachable_history_ok; exact Hget).
  rewrite (check_pv_frozen_not_set_point self pvname h Hget Hts Hsp), Hv.
  assert (E1 : firstn 15 (a ++ middle ++ b) = a).
  { rewrite <- Ha, firstn_app, Nat.sub_diag, firstn_all. simpl.
    apply app_nil_r. }
  assert (E2 : skipn (List.length (a ++ middle ++ b) - 15) (a ++ middle ++ b) = b).
  { rewrite app_assoc, length_app, Hb, Nat.add_sub.
    rewrite skipn_app, Nat.sub_diag, skipn_all. reflexivity. }
  rewrite E1, E2.
  assert (E3 : py_last (a ++ middle ++ b) = last b None).
  { unfold py_last. rewrite app_assoc. destruct b as [|x b]; [discriminate|].
    apply last_app_nonempty. discriminate. }
  rewrite E3. destruct a; [discriminate|]. reflexivity.
Qed.

(** A reading that leaves 5 and comes back between two windows of fives is
    reported frozen. *)
Lemma X6_witness :
  check_pv_frozen
    (run_events init_default
       (feed "SI-01M1:PS-Temp-Mon"
          (repeat (Some (Num 5)) 15 ++ [Some (Num 9)] ++ repeat (Some (Num 5)) 15)))
    "SI-01M1:PS-Temp-Mon" = true.
Proof.
  exact (X6_middle_values_ignored None 10%Z (2 * 60)%Z (10 * 60)%Z
           (feed "SI-01M1:PS-Temp-Mon"
              (repeat (Some (Num 5)) 15 ++ [Some (Num 9)] ++ repeat (Some (Num 5)) 15))
           "SI-01M1:PS-Temp-Mon"
           (mkHistory (repeat (Some (Num 5)) 15 ++ [Some (Num 9)] ++ repeat (Some (Num 5)) 15)
              (repeat 0%Z 31))
           (repeat (Some (Num 5)) 15) [Some (Num 9)] (repeat (Some (Num 5)) 15)
           eq_refl eq_refl eq_refl eq_refl eq_refl).
Defined.

Lemma last_In {A} (l : list A) d : l <> [] -> In (last l d) l.
Proof.
  induction l as [|x l IH]; [congruence|]. intros _.
  destruct l as [|y l]; [left; reflexivity|].
  right. apply IH. discriminate.
Qed.

Lemma last_skipn {A} (l : list A) k d :
  k < List.length l -> last (skipn k l) d = last l d.
Proof.
  intros Hk. rewrite <- (firstn_skipn k l) at 2.
  symmetry. apply last_app_nonempty.
  intros E. apply (f_equal (@List.length A)) in E.
  rewrite length_skipn in E. cbn [List.length] in E. lia.
Qed.

Lemma In_skipn_in {A} (l : list A) k x : In x (skipn k l) -> In x l.
Proof.
  intros H. rewrite <- (firstn_skipn k l). apply in_or_app. now right.
Qed.

Lemma In_firstn_in {A} (l : list A) k x : In x (firstn k l) -> In x l.
Proof.
  intros H. rewrite <- (firstn_skipn k l). apply in_or_app. now left.
Qed.

Lemma In_skipn_le {A} (l : list A) j k x :
  j <= k -> In x (skipn k l) -> In x (skipn j l).
Proof.
  intros Hjk Hx. replace k with ((k - j) + j) in Hx by lia.
  rewrite <- skipn_skipn in Hx. eapply In_skipn_in; exact Hx.
Qed.

Lemma In_firstn_or_skipn {A} (l : list A) k x :
  In x l -> In x (firstn k l) \/ In x (skipn k l).
Proof. rewrite <- (firstn_skipn k l) at 1. apply in_app_or. Qed.

(** When the three window conditions hold, every value of both windows is
    the first value of the history, and that value equals itself. *)
Lemma windows_equal_first values :
  values <> [] ->
  all_equal_first (firstn 15 values)
  && all_equal_first (skipn (List.length values - 15) values)
  && py_eq (py_first (firstn 15 values))
       (py_first (skipn (List.length values - 15) values)) = true ->
  (forall x, In x (firstn 15 values) -> x = py_first values)
  /\ (forall x, In x (skipn (List.length values - 15) values) ->
                x = py_first values)
  /\ py_eq (py_first values) (py_first values) = true.
Proof.
  intros Hne H.
  assert (H1 : py_first (firstn 15 values) = py_first values)
    by (destruct values; [congruence | reflexivity]).
  apply andb_true_iff in H as [H Hc]. apply andb_true_iff in H as [Ha Hb].
  rewrite H1 in Hc. pose proof (py_eq_eq _ _ Hc) as Ec.
  split; [|split].
  - intros x Hx. rewrite <- H1. now apply all_equal_first_eq.
  - intros x Hx. rewrite Ec. now apply all_equal_first_eq.
  - destruct values as [|v vs]; [congruence|].
    unfold all_equal_first in Ha. cbn [firstn forallb py_first hd] in Ha.
    apply andb_true_iff in Ha as [Ha _]. exact Ha.
Qed.

(** The three window conditions hold when every value is one number. *)
Lemma windows_equal_first_num values z :
  values <> [] ->
  (forall x, In x values -> x = Some (Num z)) ->
  all_equal_first (firstn 15 values)
  && all_equal_first (skipn (List.length values - 15) values)
  && py_eq (py_first (firstn 15 values))
       (py_first (skipn (List.length values - 15) values)) = true.
Proof.
  intros Hne H.
  assert (Hf : forall l, l <> [] -> (forall x, In x l -> In x values) ->
                         py_first l = Some (Num z)).
  { intros l Hl Hin. destruct l as [|x l]; [congruence|].
    apply H, Hin. now left. }
  assert (Hs : skipn (List.length values - 15) values <> []).
  { intros E. apply (f_equal (@List.length PyValue)) in E.
    rewrite length_skipn in E. destruct values; [congruence|].
    cbn [List.length] in E. lia. }
  assert (H1 : firstn 15 values <> [])
    by (destruct values; [congruence | discriminate]).
  rewrite !andb_true_iff. split; [split|].
  - apply all_equal_first_num with z. intros v Hv.
    apply H. eapply In_firstn_in; exact Hv.
  - apply all_equal_first_num with z. intros v Hv.
    apply H. eapply In_skipn_in; exact Hv.
  - rewrite (Hf _ H1), (Hf _ Hs); [apply py_eq_num | |].
    + intros x Hx. eapply In_skipn_in; exact Hx.
    + intros x Hx. eapply In_firstn_in; exact Hx.
Qed.

(** X7. With at most 30 values the two windows cover the whole history:
    in a reachable state a PV that is no set point passes
    [check_pv_frozen] exactly when all its values are one and the same
    number.  A history that holds [None] or NaN anywhere, or two different
    numbers, is not frozen. *)
Theorem X7_frozen_iff_constant_up_to_30 fs ci fd idl evs pvname h :
  let self := run_events (init fs ci fd idl) evs in
  dict_get (pv_values self) pvname = Some h ->
  is_set_point_pv self pvname = false ->
  List.length (values h) <= 30 ->
  (check_pv_frozen self pvname = true <->
   exists z, forall x, In x (values h) -> x = Some (Num z)).
Proof.
  intros self Hget Hsp Hlen.
  pose proof (reachable_history_ok _ _ _ _ _ _ _ Hget) as Hok.
  pose proof (history_ok_timestamps _ Hok) as Hts. destruct Hok as [Hne _].
  rewrite (check_pv_frozen_not_set_point self pvname h Hget Hts Hsp).
  split.
  - intros H. apply andb_true_iff in H as [H0 Hw].
    apply andb_true_iff in H0 as [_ Hlast]. apply negb_true_iff in Hlast.
    destruct (windows_equal_first _ Hne Hw) as (Ha & Hb & Hrefl).
    assert (Hall : forall x, In x (values h) -> x = py_first (values h)).
    { intros x Hx. destruct (In_firstn_or_skipn _ 15 _ Hx) as [H|H].
      - now apply Ha.
      - apply Hb. apply In_skipn_le with 15; [lia | exact H]. }
    pose proof (Hall _ (last_In (values h) None Hne)) as E.
    fold (py_last (values h)) in E.
    destruct (py_eq_same_inv _ Hrefl) as [En | [z Ez]].
    + rewrite En in E. rewrite E in Hlast. discriminate Hlast.
    + exists z. intros x Hx. rewrite <- Ez. now apply Hall.
  - intros [z Hz]. apply andb_true_iff. split; [apply andb_true_iff; split|].
    + destruct (values h); [congruence | reflexivity].
    + unfold py_last. now rewrite (Hz _ (last_In (values h) None Hne)).
    + now apply windows_equal_first_num with z.
Qed.

Lemma X7_witness :
  check_pv_frozen
    (run_events init_default
       (feed "SI-01M1:PS-Temp-Mon" (repeat (Some (Num 7)) 20)))
    "SI-01M1:PS-Temp-Mon" = true.
Proof.
  apply (proj2 (X7_frozen_iff_constant_up_to_30 None 10%Z (2 * 60)%Z
                  (10 * 60)%Z
                  (feed "SI-01M1:PS-Temp-Mon" (repeat (Some (Num 7)) 20))
                  "SI-01M1:PS-Temp-Mon"
                  (mkHistory (repeat (Some (Num 7)) 20) (repeat 0%Z 20))
                  eq_refl eq_refl ltac:(simpl; lia))).
  exists 7%Z. intros x Hx. now apply repeat_spec in Hx.
Defined.

Lemma grown_run_events h pvname self evs :
  grown h pvname self -> grown h pvname (run_events self evs).
Proof.
  unfold run_events. revert self.
  induction evs as [|ev evs IH]; intros self H; simpl; [exact H|].
  apply IH, grown_step, H.
Qed.

(** X8. The first window never changes once it is full: in a reachable
    state, if a PV that is no set point has at least 15 values and the
    first 15 are not all equal, then whatever happens afterwards the PV
    fails [check_pv_frozen] and is never reported frozen again. *)
Theorem X8_unequal_first_window_is_final fs ci fd idl evs later pvname h :
  let self := run_events (init fs ci fd idl) evs in
  dict_get (pv_values self) pvname = Some h ->
  is_set_point_pv self pvname = false ->
  15 <= List.length (values h) ->
  all_equal_first (firstn 15 (values h)) = false ->
  check_pv_frozen (run_events self later) pvname = false
  /\ ~ In pvname (frozen_pvs_of (run_events self later)).
Proof.
  intros self Hget Hsp Hlen Hfirst.
  assert (Hf : check_pv_frozen (run_events self later) pvname = false).
  { assert (Hg : grown h pvname (run_events self later)).
    { apply grown_run_events. exists h, [], [].
      rewrite !app_nil_r. auto. }
    destruct Hg as (h' & more & more_t & Hget' & Hv' & _).
    unfold self in Hget' |- *. rewrite <- run_events_app in Hget' |- *.
    pose proof (reachable_history_ok _ _ _ _ _ _ _ Hget') as Hok.
    pose proof (history_ok_timestamps _ Hok) as Hts.
    assert (Hsp' : is_set_point_pv
                     (run_events (init fs ci fd idl) (evs ++ later)) pvname
                   = false).
    { unfold is_set_point_pv in *.
      rewrite reachable_set_point_suffixes.
      unfold self in Hsp. now rewrite reachable_set_point_suffixes in Hsp. }
    rewrite (check_pv_frozen_not_set_point _ pvname h' Hget' Hts Hsp'), Hv'.
    rewrite firstn_app.
    replace (15 - List.length (values h)) with 0 by lia.
    simpl firstn at 2. rewrite app_nil_r, Hfirst.
    now rewrite andb_false_r. }
  split; [exact Hf|].
  rewrite frozen_pvs_of_spec. intros [_ H]. congruence.
Qed.

(** Fifteen readings that alternate, then a long run of one value. *)
Lemma X8_witness :
  check_pv_frozen
    (run_events
       (run_events init_default
          (feed "SI-01M1:PS-Temp-Mon"
             ([Some (Num 1); Some (Num 2)] ++ repeat (Some (Num 2)) 13)))
       (map (fun v => EvCallback "SI-01M1:PS-Temp-Mon" v 0%Z)
          (repeat (Some (Num 2)) 40)))
    "SI-01M1:PS-Temp-Mon" = false.
Proof.
  exact (proj1 (X8_unequal_first_window_is_final None 10%Z (2 * 60)%Z
                  (10 * 60)%Z
                  (feed "SI-01M1:PS-Temp-Mon"
                     ([Some (Num 1); Some (Num 2)] ++ repeat (Some (Num 2)) 13))
                  (map (fun v => EvCallback "SI-01M1:PS-Temp-Mon" v 0%Z)
                     (repeat (Some (Num 2)) 40))
                  "SI-01M1:PS-Temp-Mon"
                  (mkHistory ([Some (Num 1); Some (Num 2)] ++ repeat (Some (Num 2)) 13)
                     (repeat 0%Z 15))
                  eq_refl eq_refl (le_n 15) eq_refl)).
Defined.

(** X9. A PV that is no set point is reported frozen only at the value of
    its bootstrap read: after any bootstraps and deliveries, if the cycle
    reports it frozen then its first bootstrap read a value other than
    [None], and its latest value and every value of both windows equal
    that reading. *)
Theorem X9_frozen_only_at_bootstrap_value fs ci fd idl ops pvname :
  let self := run_events (init fs ci fd idl) (map event_of ops) in
  is_set_point_pv self pvname = false ->
  In pvname (frozen_pvs_of self) ->
  exists v now h,
    first_bootstrap ops pvname = Some (Some v, now)
    /\ dict_get (pv_values self) pvname = Some h
    /\ last (values h) None = Some v
    /\ (forall x, In x (firstn 15 (values h)) -> x = Some v)
    /\ (forall x, In x (skipn (List.length (values h) - 15) (values h)) ->
                  x = Some v).
Proof.
  intros self Hsp Hin.
  apply frozen_pvs_of_spec in Hin as [Hconn Hfz].
  pose proof (history_trace fs ci fd idl ops pvname) as Ht.
  unfold starts_with_bootstrap in Ht. fold self in Ht.
  destruct (dict_get (pv_values self) pvname) as [h|] eqn:Hget;
    [|unfold check_pv_connected in Hconn; rewrite Hget in Hconn; discriminate].
  destruct Ht as (v0 & now & Hfb & Hhd & _).
  pose proof (reachable_history_ok _ _ _ _ _ _ _ Hget) as Hok.
  pose proof (history_ok_timestamps _ Hok) as Hts. destruct Hok as [Hne _].
  rewrite (check_pv_frozen_not_set_point self pvname h Hget Hts Hsp) in Hfz.
  apply andb_true_iff in Hfz as [Hfz Hw].
  apply andb_true_iff in Hfz as [_ Hlast]. apply negb_true_iff in Hlast.
  destruct (windows_equal_first _ Hne Hw) as (Ha & Hb & _).
  assert (Hf : py_first (values h) = v0)
    by (destruct (values h); simpl in *; congruence).
  rewrite Hf in Ha, Hb.
  assert (Hl : py_last (values h) = v0).
  { unfold py_last.
    rewrite <- (last_skipn (values h) (List.length (values h) - 15) None).
    - apply Hb, last_In. intros E. apply (f_equal (@List.length PyValue)) in E.
      rewrite length_skipn in E. destruct (values h); [congruence|].
      cbn [List.length] in E. lia.
    - destruct (values h); [congruence | cbn [List.length]; lia]. }
  rewrite Hl in Hlast. destruct v0 as [v|]; [|discriminate].
  exists v, now, h. auto.
Qed.

Lemma X9_witness :
  exists v now h,
    first_bootstrap
      [Bootstrap "SI-01M1:PS-Temp-Mon" (Some (Num 3)) 10%Z 1%Z;
       Delivery "SI-01M1:PS-Temp-Mon" (Some (Num 3)) 11%Z]
      "SI-01M1:PS-Temp-Mon" = Some (Some v, now)
    /\ dict_get
         (pv_values
            (run_events init_default
               (map event_of
                  [Bootstrap "SI-01M1:PS-Temp-Mon" (Some (Num 3)) 10%Z 1%Z;
                   Delivery "SI-01M1:PS-Temp-Mon" (Some (Num 3)) 11%Z])))
         "SI-01M1:PS-Temp-Mon" = Some h
    /\ last (values h) None = Some v
    /\ (forall x, In x (firstn 15 (values h)) -> x = Some v)
    /\ (forall x, In x (skipn (List.length (values h) - 15) (values h)) ->
                  x = Some v).
Proof.
  apply (X9_frozen_only_at_bootstrap_value None 10%Z (2 * 60)%Z (10 * 60)%Z
           [Bootstrap "SI-01M1:PS-Temp-Mon" (Some (Num 3)) 10%Z 1%Z;
            Delivery "SI-01M1:PS-Temp-Mon" (Some (Num 3)) 11%Z]
           "SI-01M1:PS-Temp-Mon" eq_refl).
  simpl. auto.
Defined.

(** ** The run of the thread, case by case *)

Lemma history_op_registry s s' op :
  same_registry s s' ->
  same_registry (step s (event_of op)) (step s' (event_of op)).
Proof.
  intros (H1 & H2 & H3 & H4 & H5).
  destruct op as [n v now handle | n v now]; cbn [event_of step].
  - rewrite !start_pv_monitor_state. unfold same_registry; simpl.
    rewrite H1, H2. auto.
  - rewrite H2. destruct (dict_mem (pv_monitors s) n).
    + unfold same_registry; simpl. rewrite H1. auto.
    + unfold same_registry. auto.
Qed.

Lemma history_ops_registry ops :
  forall s s', same_registry s s' ->
               same_registry (run_events s (map event_of ops))
                             (run_events s' (map event_of ops)).
Proof.
  unfold run_events.
  induction ops as [|op ops IH]; intros s s' H; cbn [map fold_left];
    [exact H|].
  apply IH, history_op_registry, H.
Qed.

Lemma history_ops_fields ops :
  forall s,
    let s' := run_events s (map event_of ops) in
    emitted s' = emitted s /\ conn s' = conn s /\ timer s' = timer s
    /\ start_time s' = start_time s /\ running s' = running s
    /\ check_interval s' = check_interval s
    /\ frozen_check_duration s' = frozen_check_duration s
    /\ initial_check_delay s' = initial_check_delay s.
Proof.
  unfold run_events.
  induction ops as [|op ops IH]; intros s; cbn [map fold_left];
    [repeat split|].
  pose proof (IH (step s (event_of op))) as H. cbv zeta in H |- *.
  destruct H as (E1 & E2 & E3 & E4 & E5 & E6 & E7 & E8).
  rewrite E1, E2, E3, E4, E5, E6, E7, E8.
  destruct op as [n v now handle | n v now]; cbn [event_of step].
  - rewrite start_pv_monitor_state. repeat split.
  - destruct (dict_mem (pv_monitors s) n); repeat split.
Qed.

Lemma handles_have_histories_step s op :
  handles_have_histories s -> handles_have_histories (step s (event_of op)).
Proof.
  intros H k. destruct op as [n v now handle | n v now]; cbn [event_of step].
  - rewrite start_pv_monitor_state.
    cbn [state_after pv_monitors pv_values with_pv_monitors with_pv_values].
    unfold dict_mem at 1. rewrite dict_get_set, history_append_mem.
    destruct (String.eqb n k); [intros _; reflexivity | apply H].
  - destruct (dict_mem (pv_monitors s) n); [|apply H].
    cbn [callback modify state_after pv_monitors pv_values with_pv_values].
    rewrite history_append_mem. intros Hk. rewrite (H k Hk).
    apply orb_true_r.
Qed.

(** In a state where every handle has a history, the histories after
    operations on the store are those before and those of the
    bootstraps: a delivery creates none. *)
Lemma history_ops_entries ops :
  forall s k,
    handles_have_histories s ->
    dict_mem (pv_values (run_events s (map event_of ops))) k
    = dict_mem (pv_values s) k || has_bootstrap ops k.
Proof.
  unfold run_events, has_bootstrap.
  induction ops as [|op ops IH]; intros s k H; cbn [map fold_left].
  - cbn [first_bootstrap]. now rewrite orb_false_r.
  - rewrite IH by now apply handles_have_histories_step.
    destruct op as [n v now handle | n v now];
      cbn [event_of step first_bootstrap].
    + rewrite start_pv_monitor_state.
      cbn [state_after pv_values with_pv_values with_pv_monitors].
      rewrite history_append_mem.
      destruct (String.eqb n k); [now rewrite orb_true_r | reflexivity].
    + destruct (dict_mem (pv_monitors s) n) eqn:Hn; [|reflexivity].
      cbn [callback modify state_after pv_values with_pv_values].
      rewrite history_append_mem.
      destruct (String.eqb_spec n k) as [->|Hne]; [|reflexivity].
      now rewrite (H k Hn).
Qed.

Lemma bind_return {A B} (m : M A) (k : A -> M B) self a s' :
  m self = Return a s' -> bind m k self = k a s'.
Proof. unfold bind. now intros ->. Qed.

Lemma bind_raise {A B} (m : M A) (k : A -> M B) self e s' :
  m self = Raise e s' -> bind m k self = Raise e s'.
Proof. unfold bind. now intros ->. Qed.

Lemma run_ok w self n names f1 f2 more :
  archiver_connects w = true ->
  getAllPVs w = Some (n :: names) ->
  filters self = f1 :: f2 :: more ->
  let keep := keepb (ignored_pvs self) f1 f2 in
  let filtered := filter keep (n :: names) in
  let before_check := monitored w filtered self in
  exists self',
    run w self = Return tt self'
    /\ same_registry before_check self'
    /\ conn self' = true
    /\ timer self' = Some (mkQTimer (check_interval self * 1000) true)
    /\ start_time self' = Some (clock_start w)
    /\ running self' = running self
    /\ emitted self' =
       emitted self
       ++ map (fun i => progress_update
                          (progress_percent i (List.length (n :: names))))
            (kept_indices keep 0 (n :: names))
       ++ [ updt_pv_log filtered;
            update_status "Listagem e filtragem concluídas.";
            update_status "Iniciando monitoramento..." ]
       ++ cycle_report (frozen_pvs_of before_check)
            (disconnected_pvs_of before_check)
            (List.length (pv_values before_check))
       ++ [ progress_update 100;
            update_status "Processamento Concluído." ].
Proof.
  intros Hc Hall Hf keep filtered before_check. unfold run.
  erewrite bind_return by reflexivity.
  erewrite bind_return by reflexivity.
  cbn [conn with_conn]. rewrite Hc, Hall. cbn [negb].
  erewrite bind_return
    by (apply (filter_pvnames_spec (with_conn self true) _ f1 f2 more Hf)).
  erewrite bind_return by reflexivity.
  erewrite bind_return by reflexivity.
  erewrite bind_return by apply start_monitors_state.
  erewrite bind_return by apply on_arrivals_state.
  erewrite bind_return by reflexivity.
  unfold start_frozen_check.
  erewrite bind_return.
  2:{ erewrite bind_return by reflexivity.
      erewrite bind_return by reflexivity.
      apply check_pvs_state. }
  erewrite bind_return by reflexivity.
  unfold emit, modify.
  rewrite <- !run_events_app, <- !map_app.
  cbn [ignored_pvs emitted with_conn with_emitted]. fold keep. fold filtered.
  fold (history_ops_of_run w filtered).
  match goal with
  | |- context [run_events ?s (map event_of (history_ops_of_run w filtered))] =>
      set (listed := s)
  end.
  set (monitored' :=
         run_events listed (map event_of (history_ops_of_run w filtered))).
  assert (Hreg : same_registry before_check monitored').
  { apply history_ops_registry. repeat split. }
  pose proof (history_ops_fields (history_ops_of_run w filtered) listed) as Hfld.
  fold monitored' in Hfld. cbv zeta in Hfld.
  destruct Hfld as (He & Hcn & Htm & Hst & Hrn & Hci & _).
  eexists. split; [reflexivity|].
  cbn [conn timer start_time running emitted check_interval
       with_emitted with_timer with_start_time].
  split; [|split; [|split; [|split; [|split]]]].
  - destruct Hreg as (R1 & R2 & R3 & R4 & R5).
    unfold same_registry; simpl. auto.
  - rewrite Hcn. reflexivity.
  - rewrite Hci. reflexivity.
  - reflexivity.
  - rewrite Hrn. reflexivity.
  - match goal with
    | |- context [cycle_report (frozen_pvs_of ?s) _ _] => set (checked := s)
    end.
    assert (Hreg' : same_registry before_check checked).
    { destruct Hreg as (R1 & R2 & R3 & R4 & R5).
      unfold same_registry, checked; simpl. auto. }
    pose proof (classify_all_same_registry _ _ Hreg') as Hcl.
    unfold frozen_pvs_of, disconnected_pvs_of. rewrite Hcl.
    destruct Hreg' as (R1 & _). unfold checked at 1.
    cbn [pv_values with_emitted with_timer with_start_time].
    destruct Hreg as (R1' & _). rewrite R1'.
    rewrite He. unfold listed. cbn [emitted with_emitted].
    rewrite <- !app_assoc. reflexivity.
Qed.

Lemma run_no_connection w self :
  archiver_connects w = false ->
  run w self =
  Return tt
    (with_emitted (with_conn self false)
       (emitted self
        ++ [update_status "Não foi possível conectar ao banco de dados."])).
Proof.
  intros Hc. unfold run.
  erewrite bind_return by reflexivity.
  erewrite bind_return by reflexivity.
  cbn [conn with_conn]. rewrite Hc. reflexivity.
Qed.

Lemma run_no_names w self :
  archiver_connects w = true ->
  getAllPVs w = None \/ getAllPVs w = Some [] ->
  run w self =
  Return tt
    (with_emitted (with_conn self true)
       (emitted self ++ [update_status "Nenhuma PV encontrada."])).
Proof.
  intros Hc Hall. unfold run.
  erewrite bind_return by reflexivity.
  erewrite bind_return by reflexivity.
  cbn [conn with_conn]. rewrite Hc. cbn [negb].
  destruct Hall as [-> | ->]; reflexivity.
Qed.

Lemma run_short_filters w self n names :
  archiver_connects w = true ->
  getAllPVs w = Some (n :: names) ->
  List.length (filters self) < 2 ->
  run w self = Raise IndexError (with_conn self true).
Proof.
  intros Hc Hall Hlen. unfold run.
  erewrite bind_return by reflexivity.
  erewrite bind_return by reflexivity.
  cbn [conn with_conn]. rewrite Hc, Hall. cbn [negb].
  apply bind_raise. unfold filter_pvnames. cbn [py_not].
  erewrite bind_return by reflexivity. cbn [filters with_conn].
  destruct (filters self) as [|f1 [|f2 more]]; simpl in Hlen;
    [reflexivity | reflexivity | lia].
Qed.

(** X10. [run] gives up with one status message, and starts no monitor
    and no timer, when the archiver does not connect or lists no name;
    when names are listed and the thread has fewer than two filter entries
    it raises [IndexError], having emitted nothing and started nothing. *)
Theorem X10_run_gives_up w self :
  (archiver_connects w = false ->
   run w self =
   Return tt
     (with_emitted (with_conn self false)
        (emitted self
         ++ [update_status "Não foi possível conectar ao banco de dados."])))
  /\ (archiver_connects w = true ->
      getAllPVs w = None \/ getAllPVs w = Some [] ->
      run w self =
      Return tt
        (with_emitted (with_conn self true)
           (emitted self ++ [update_status "Nenhuma PV encontrada."])))
  /\ (forall n names,
        archiver_connects w = true ->
        getAllPVs w = Some (n :: names) ->
        List.length (filters self) < 2 ->
        run w self = Raise IndexError (with_conn self true)).
Proof.
  split; [apply run_no_connection|].
  split; [apply run_no_names|].
  intros n names. apply run_short_filters.
Qed.

Lemma progress_values_cycle_report fz dc total :
  progress_values (cycle_report fz dc total) = [].
Proof. reflexivity. Qed.

(** X11. A [run] that connects and lists at least one name, on a thread
    with its two filter entries, returns normally.  Its store and handles
    are those the thread has after, for each kept name in order, the
    bootstrap and the callbacks that arrived before the next name, and
    then the callbacks that arrived during the sleep.  The timer runs with
    a period of [check_interval * 1000] ms, the start time is the clock
    after the sleep, and the log has grown by the progress of the filter,
    the kept names, the statuses and the report of one check cycle on
    that store; the last progress value emitted is 100 however few names
    were kept. *)
Theorem X11_run_success w self n names filter1 filter2 more :
  archiver_connects w = true ->
  getAllPVs w = Some (n :: names) ->
  filters self = filter1 :: filter2 :: more ->
  let keep := keepb (ignored_pvs self) filter1 filter2 in
  let filtered := filter keep (n :: names) in
  let before_check :=
    run_events self (map event_of (history_ops_of_run w filtered)) in
  exists self',
    run w self = Return tt self'
    /\ pv_values self' = pv_values before_check
    /\ pv_monitors self' = pv_monitors before_check
    /\ conn self' = true
    /\ timer self' = Some (mkQTimer (check_interval self * 1000) true)
    /\ start_time self' = Some (clock_start w)
    /\ running self' = running self
    /\ emitted self' =
       emitted self
       ++ map (fun i => progress_update
                          (progress_percent i (List.length (n :: names))))
            (kept_indices keep 0 (n :: names))
       ++ [ updt_pv_log filtered;
            update_status "Listagem e filtragem concluídas.";
            update_status "Iniciando monitoramento..." ]
       ++ cycle_report (frozen_pvs_of before_check)
            (disconnected_pvs_of before_check)
            (List.length (pv_values before_check))
       ++ [ progress_update 100;
            update_status "Processamento Concluído." ]
    /\ last (progress_values (emitted self')) 0%Z = 100%Z.
Proof.
  intros Hc Hall Hf keep filtered before_check.
  destruct (run_ok w self n names filter1 filter2 more Hc Hall Hf)
    as (self' & Hrun & (R1 & R2 & _) & H1 & H2 & H3 & H4 & H5).
  exists self'. repeat (split; [assumption|]).
  rewrite H5. rewrite !progress_values_app, progress_values_cycle_report.
  cbn [progress_values app]. rewrite !app_assoc. apply last_last.
Qed.

Lemma X10_witness :
  run example_world init_default
  = Raise IndexError (with_conn init_default true).
Proof.
  refine (proj2 (proj2 (X10_run_gives_up example_world init_default))
            "SI-01:Temp-Mon" ["A"; "SI-02:Temp-Mon"; "SI-01:Other"]
            eq_refl eq_refl _).
  simpl. lia.
Defined.

(** In the example the kept PV reads 21 at its bootstrap and 22 during
    the sleep: the first cycle of [run] sees both values and reports
    nothing frozen. *)
Lemma X11_witness :
  exists self',
    run example_world example_filter_thread = Return tt self'
    /\ dict_get (pv_values self') "SI-01:Temp-Mon"
       = Some (mkHistory [Some (Num 21); Some (Num 22)] [100%Z; 101%Z])
    /\ timer self' = Some (mkQTimer 1000 true)
    /\ In (frozen_pvs_signal []) (emitted self')
    /\ last (progress_values (emitted self')) 0%Z = 100%Z.
Proof.
  destruct (X11_run_success example_world example_filter_thread
              "SI-01:Temp-Mon" ["A"; "SI-02:Temp-Mon"; "SI-01:Other"]
              (Some "SI-01") (Some "Temp-Mon") [] eq_refl eq_refl eq_refl)
    as (self' & Hrun & Hv & _ & _ & Ht & _ & _ & He & Hl).
  exists self'. split; [exact Hrun|]. split; [now rewrite Hv|].
  split; [exact Ht|]. split; [|exact Hl].
  rewrite He. apply in_or_app. right. apply in_or_app. right.
  apply in_or_app. right. apply in_or_app. left. left. reflexivity.
Defined.

(** The other half of X12 needs its hypothesis: a handle without a
    history, which no execution from the constructor produces, gets a
    history from a callback that arrives during [run]. *)
Lemma stray_handle_gets_history :
  let w :=
    {| archiver_connects := true;
       getAllPVs := Some example_names;
       caget := fun _ => Some (Num 21);
       clock_at := fun _ => 100%Z;
       camonitor := fun _ => 1%Z;
       arrivals_after := fun _ => [];
       arrivals_during_sleep := [mkArrival "LI-01:Stray" None 101%Z];
       clock_start := 102%Z |} in
  let self := with_pv_monitors example_filter_thread [("LI-01:Stray", 7%Z)] in
  dict_mem (pv_values self) "LI-01:Stray" = false
  /\ dict_mem (pv_values (state_after (run w self))) "LI-01:Stray" = true.
Proof.
  intros w self. split; [reflexivity|].
  destruct (run_ok w self "SI-01:Temp-Mon"
              ["A"; "SI-02:Temp-Mon"; "SI-01:Other"]
              (Some "SI-01") (Some "Temp-Mon") [] eq_refl eq_refl eq_refl)
    as (self' & Hrun & (R1 & _) & _).
  rewrite Hrun. cbn [state_after]. rewrite R1. reflexivity.
Qed.

(** X12. [run] starts a monitor for the names the filter keeps and for no
    other: after a [run] that connects, on a thread with its two filter
    entries, a PV has a handle exactly when it had one before or is a
    listed name that passes the filter; such a PV has a history; and when
    every handle the thread held before had its history, no other PV has
    one, whatever callbacks arrived during the run. *)
Theorem X12_run_monitors_exactly_kept w self names filter1 filter2 more pvname :
  archiver_connects w = true ->
  getAllPVs w = Some names ->
  filters self = filter1 :: filter2 :: more ->
  let self' := state_after (run w self) in
  let kept := In pvname names
              /\ keepb (ignored_pvs self) filter1 filter2 pvname = true in
  (dict_mem (pv_values self) pvname = true \/ kept ->
   dict_mem (pv_values self') pvname = true)
  /\ (handles_have_histories self ->
      dict_mem (pv_values self') pvname = true ->
      dict_mem (pv_values self) pvname = true \/ kept)
  /\ (dict_mem (pv_monitors self') pvname = true <->
      dict_mem (pv_monitors self) pvname = true \/ kept).
Proof.
  intros Hc Hall Hf self' kept.
  assert (Hk : forall l, py_in pvname
                  (filter (keepb (ignored_pvs self) filter1 filter2) l) = true
                <-> In pvname l
                    /\ keepb (ignored_pvs self) filter1 filter2 pvname = true).
  { intros l. rewrite py_in_spec. apply filter_In. }
  destruct names as [|n names].
  - unfold self'. rewrite (run_no_names w self Hc (or_intror Hall)). simpl.
    unfold kept. simpl. tauto.
  - destruct (run_ok w self n names filter1 filter2 more Hc Hall Hf)
      as (s' & Hrun & (R1 & R2 & _) & _).
    unfold self'. rewrite Hrun. cbn [state_after]. rewrite R1, R2.
    unfold monitored. split; [|split].
    + intros H. apply history_ops_entries_kept.
      rewrite has_bootstrap_run. apply orb_true_iff.
      rewrite Hk. exact H.
    + intros Hh H.
      rewrite (history_ops_entries _ _ _ Hh), has_bootstrap_run in H.
      apply orb_true_iff in H. rewrite Hk in H. exact H.
    + rewrite history_ops_handles, has_bootstrap_run, orb_true_iff, Hk.
      reflexivity.
Qed.

(** The name [SI-02:Temp-Mon] fails the prefix; it gets no history. *)
Lemma X12_witness :
  dict_mem (pv_values (state_after (run example_world example_filter_thread)))
    "SI-01:Temp-Mon" = true
  /\ dict_mem (pv_values (state_after (run example_world example_filter_thread)))
       "SI-02:Temp-Mon" = false.
Proof.
  pose proof (X12_run_monitors_exactly_kept example_world
                example_filter_thread example_names
                (Some "SI-01") (Some "Temp-Mon") [] "SI-01:Temp-Mon"
                eq_refl eq_refl eq_refl) as [H1 _].
  pose proof (X12_run_monitors_exactly_kept example_world
                example_filter_thread example_names
                (Some "SI-01") (Some "Temp-Mon") [] "SI-02:Temp-Mon"
                eq_refl eq_refl eq_refl) as [_ [H2 _]].
  split.
  - apply H1. right. split; [left; reflexivity | reflexivity].
  - apply not_true_is_false. intros H. apply H2 in H.
    + destruct H as [H|[_ H]]; discriminate H.
    + intros k Hk. discriminate Hk.
Defined.

(** ** What no method does to the configuration and the log *)

Lemma quiet_ret Q {A} (a : A) : quiet Q (ret a).
Proof.
  intros self. split; [reflexivity|]. exists []. now rewrite app_nil_r.
Qed.

Lemma quiet_raise Q {A} e : quiet Q (@raise A e).
Proof.
  intros self. split; [reflexivity|]. exists []. now rewrite app_nil_r.
Qed.

Lemma quiet_get_self Q : quiet Q get_self.
Proof.
  intros self. split; [reflexivity|]. exists []. now rewrite app_nil_r.
Qed.

Lemma quiet_emit (Q : Signal -> Prop) sig : Q sig -> quiet Q (emit sig).
Proof.
  intros H self. split; [reflexivity|]. exists [sig]. split; [reflexivity|].
  now constructor.
Qed.

Lemma quiet_modify Q (f : MonitorThread -> MonitorThread) :
  (forall s, config (f s) = config s /\ emitted (f s) = emitted s) ->
  quiet Q (modify f).
Proof.
  intros H self. destruct (H self) as [H1 H2]. split; [exact H1|].
  exists []. simpl. now rewrite app_nil_r.
Qed.

Lemma quiet_bind Q {A B} (m : M A) (k : A -> M B) :
  quiet Q m -> (forall a, quiet Q (k a)) -> quiet Q (bind m k).
Proof.
  intros Hm Hk self. rewrite state_after_bind.
  destruct (Hm self) as [Hc (added & He & HQ)].
  destruct (m self) as [a s'|e s']; simpl in *.
  - destruct (Hk a s') as [Hc' (added' & He' & HQ')]. split; [congruence|].
    exists (added ++ added'). rewrite He', He, app_assoc. split; [reflexivity|].
    apply Forall_app. auto.
  - split; [exact Hc|]. exists added. auto.
Qed.

Lemma quiet_py_index Q {A} (l : list A) i : quiet Q (py_index l i).
Proof.
  unfold py_index. destruct (nth_error l i); [apply quiet_ret | apply quiet_raise].
Qed.

Section Quiet.
Variable Q : Signal -> Prop.
Hypothesis Q_progress : forall p, Q (progress_update p).
Hypothesis Q_status : forall text, Q (update_status text).
Hypothesis Q_log : forall pvs, Q (updt_pv_log pvs).
Hypothesis Q_frozen : forall pvs, Q (frozen_pvs_signal pvs).
Hypothesis Q_not_stored : forall pvs, Q (not_stored_pvs_signal pvs).

Lemma quiet_filter_loop f1 f2 total i rest acc :
  quiet Q (filter_loop f1 f2 total i rest acc).
Proof.
  revert i acc. induction rest as [|pvname rest IH]; intros i acc; simpl.
  - apply quiet_ret.
  - apply quiet_bind; [apply quiet_get_self | intros self].
    repeat match goal with
           | |- quiet _ (if ?b then _ else _) => destruct b
           end; try apply IH.
    apply quiet_bind; [apply quiet_emit, Q_progress | intros _; apply IH].
Qed.

Lemma quiet_filter_pvnames all_pvnames : quiet Q (filter_pvnames all_pvnames).
Proof.
  unfold filter_pvnames. destruct (py_not all_pvnames); [apply quiet_ret|].
  apply quiet_bind; [apply quiet_get_self | intros self].
  apply quiet_bind; [apply quiet_py_index | intros f1].
  apply quiet_bind; [apply quiet_py_index | intros f2].
  apply quiet_filter_loop.
Qed.

Lemma quiet_check_pvs : quiet Q check_pvs.
Proof.
  unfold check_pvs. apply quiet_bind; [apply quiet_get_self | intros self].
  destruct (classify_all self) as [[[fz dc] cf] cd].
  apply quiet_bind; [apply quiet_emit, Q_frozen | intros _].
  apply quiet_bind; [apply quiet_emit, Q_not_stored | intros _].
  unfold list_pvs.
  repeat (apply quiet_bind; [apply quiet_emit, Q_status | intros _]).
  apply quiet_emit, Q_status.
Qed.

Lemma quiet_start_pv_monitor pvname v now handle :
  quiet Q (start_pv_monitor pvname v now handle).
Proof.
  unfold start_pv_monitor.
  apply quiet_bind; [|intros _]; apply quiet_modify; intros s; split; reflexivity.
Qed.

Lemma quiet_on_arrival a : quiet Q (on_arrival a).
Proof.
  unfold on_arrival. apply quiet_bind; [apply quiet_get_self | intros self].
  destruct (dict_mem (pv_monitors self) (arrival_pvname a));
    [|apply quiet_ret].
  apply quiet_modify; intros s; split; reflexivity.
Qed.

Lemma quiet_on_arrivals arrivals : quiet Q (on_arrivals arrivals).
Proof.
  induction arrivals as [|a arrivals IH]; cbn [on_arrivals];
    [apply quiet_ret|].
  apply quiet_bind; [apply quiet_on_arrival | intros _; exact IH].
Qed.

Lemma quiet_start_monitors w names : quiet Q (start_monitors w names).
Proof.
  induction names as [|n names IH]; cbn [start_monitors]; [apply quiet_ret|].
  apply quiet_bind; [apply quiet_start_pv_monitor | intros _].
  apply quiet_bind; [apply quiet_on_arrivals | intros _; exact IH].
Qed.

Lemma quiet_run w : quiet Q (run w).
Proof.
  unfold run.
  apply quiet_bind; [apply quiet_modify; intros s; split; reflexivity | intros _].
  apply quiet_bind; [apply quiet_get_self | intros self].
  destruct (negb (conn self)); [apply quiet_emit, Q_status|].
  destruct (getAllPVs w) as [[|n names]|]; try apply quiet_emit, Q_status.
  apply quiet_bind; [apply quiet_filter_pvnames | intros filtered].
  apply quiet_bind; [apply quiet_emit, Q_log | intros _].
  apply quiet_bind; [apply quiet_emit, Q_status | intros _].
  apply quiet_bind; [apply quiet_start_monitors | intros _].
  apply quiet_bind; [apply quiet_on_arrivals | intros _].
  apply quiet_bind; [apply quiet_modify; intros s; split; reflexivity | intros _].
  apply quiet_bind.
  { unfold start_frozen_check.
    apply quiet_bind; [apply quiet_emit, Q_status | intros _].
    apply quiet_bind; [apply quiet_modify; intros s; split; reflexivity | intros _].
    apply quiet_check_pvs. }
  intros _. apply quiet_bind; [apply quiet_emit, Q_progress | intros _].
  apply quiet_emit, Q_status.
Qed.

Lemma quiet_stop : quiet Q stop.
Proof.
  unfold stop.
  apply quiet_bind; [apply quiet_modify; intros s; split; reflexivity | intros _].
  apply quiet_bind; [apply quiet_get_self | intros self].
  apply quiet_bind; [|intros _; apply quiet_emit, Q_status].
  destruct (timer self); [|apply quiet_ret].
  apply quiet_modify; intros s; split; reflexivity.
Qed.

Lemma quiet_stop_pv_monitor pvname : quiet Q (stop_pv_monitor pvname).
Proof.
  unfold stop_pv_monitor.
  apply quiet_bind; [apply quiet_get_self | intros self].
  destruct (dict_mem (pv_monitors self) pvname); [|apply quiet_ret].
  apply quiet_modify; intros s; split; reflexivity.
Qed.

Lemma quiet_step self ev :
  config (step self ev) = config self
  /\ exists added,
       emitted (step self ev) = emitted self ++ added /\ Forall Q added.
Proof.
  destruct ev; simpl.
  - apply quiet_run.
  - apply quiet_start_pv_monitor.
  - destruct (dict_mem (pv_monitors self) pvname).
    + split; [reflexivity|]. exists []. simpl. now rewrite app_nil_r.
    + split; [reflexivity|]. exists []. now rewrite app_nil_r.
  - apply quiet_check_pvs.
  - apply quiet_stop_pv_monitor.
  - apply quiet_stop.
Qed.

Lemma quiet_run_events evs :
  forall self,
    config (run_events self evs) = config self
    /\ exists added,
         emitted (run_events self evs) = emitted self ++ added
         /\ Forall Q added.
Proof.
  unfold run_events.
  induction evs as [|ev evs IH]; intros self; simpl.
  - split; [reflexivity|]. exists []. now rewrite app_nil_r.
  - destruct (quiet_step self ev) as [Hc (a1 & He1 & HQ1)].
    destruct (IH (step self ev)) as [Hc' (a2 & He2 & HQ2)].
    split; [congruence|]. exists (a1 ++ a2).
    rewrite He2, He1, app_assoc. split; [reflexivity|].
    apply Forall_app. auto.
Qed.
End Quiet.

(** X13. No method changes the configuration, rewrites the signal log or
    emits [frozen_check_duration_signal]: in every state reachable from
    the constructor the filters, the three numbers and the two class lists
    are those of the construction, and the log of any longer execution
    extends the log so far by signals of the other five kinds. *)
Theorem X13_configuration_and_log fs ci fd idl evs later :
  let self := run_events (init fs ci fd idl) evs in
  config self = config (init fs ci fd idl)
  /\ Forall not_duration_signal (emitted self)
  /\ exists added,
       emitted (run_events self later) = emitted self ++ added
       /\ Forall not_duration_signal added.
Proof.
  intros self.
  assert (HQ : forall evs0 s,
             config (run_events s evs0) = config s
             /\ exists added,
                  emitted (run_events s evs0) = emitted s ++ added
                  /\ Forall not_duration_signal added).
  { intros evs0 s. apply quiet_run_events; intros; exact I. }
  destruct (HQ evs (init fs ci fd idl)) as [Hc (added & He & Hall)].
  split; [exact Hc|]. split.
  - unfold self. rewrite He. exact Hall.
  - apply HQ.
Qed.

(** ** The thread the window builds *)

Lemma filter_pvnames_returns self all_pvnames f1 f2 more :
  filters self = f1 :: f2 :: more ->
  exists self',
    filter_pvnames all_pvnames self =
    Return (filter (keepb (ignored_pvs self) f1 f2) all_pvnames) self'.
Proof. intros Hf. eexists. apply (filter_pvnames_spec _ _ _ _ _ Hf). Qed.

Lemma config_reachable fs ci fd idl evs :
  config (run_events (init fs ci fd idl) evs) = config (init fs ci fd idl).
Proof.
  apply (quiet_run_events (fun _ => True)); intros; exact I.
Qed.

(** X14. A thread built by the window always has its two filter entries,
    so in every state it reaches [filter_pvnames] returns normally; with
    both boxes empty it keeps exactly the names that are not in the ignore
    list of the class. *)
Theorem X14_window_thread_filters t1 t2 iv fv evs all_pvnames :
  let self := run_events (thread_of_window t1 t2 iv fv) evs in
  (exists self',
     filter_pvnames all_pvnames self =
     Return
       (filter
          (keepb default_ignored_pvs (Some t1)
             (if String.eqb t2 "" then None else Some t2))
          all_pvnames) self')
  /\ (t1 = "" -> t2 = "" ->
      exists self',
        filter_pvnames all_pvnames self =
        Return
          (filter (fun pvname => negb (py_in pvname default_ignored_pvs))
             all_pvnames) self').
Proof.
  intros self.
  pose proof (config_reachable
                (Some [Some t1; if String.eqb t2 "" then None else Some t2])
                iv (fv * 60)%Z (10 * 60)%Z evs) as Hc.
  fold (thread_of_window t1 t2 iv fv) in Hc. fold self in Hc.
  unfold config in Hc. simpl in Hc.
  injection Hc as Hf _ _ _ Hig _.
  destruct (filter_pvnames_returns self all_pvnames _ _ _ Hf) as [s' Hs'].
  rewrite Hig in Hs'. split; [now exists s'|].
  intros -> ->. exists s'. rewrite Hs'. f_equal.
  apply filter_ext. intros pvname. unfold keepb. simpl.
  now rewrite !andb_true_r.
Qed.

Lemma filter_idem {A} (f : A -> bool) l : filter f (filter f l) = filter f l.
Proof.
  induction l as [|x l IH]; simpl; [reflexivity|].
  destruct (f x) eqn:E; simpl; [rewrite E|]; now rewrite IH.
Qed.

(** X15. The filter is a projection: on a thread with its two filter
    entries the result holds no ignored name and is no longer than the
    input, and filtering the result again, in the state the first pass
    left, returns it unchanged. *)
Theorem X15_filter_is_projection self all_pvnames filter1 filter2 more :
  filters self = filter1 :: filter2 :: more ->
  exists kept self1 self2,
    filter_pvnames all_pvnames self = Return kept self1
    /\ filter_pvnames kept self1 = Return kept self2
    /\ List.length kept <= List.length all_pvnames
    /\ (forall pvname, In pvname kept ->
          In pvname all_pvnames /\ ~ In pvname (ignored_pvs self)).
Proof.
  intros Hf.
  destruct (filter_pvnames_returns self all_pvnames _ _ _ Hf) as [s1 H1].
  assert (Hreg : same_registry self s1).
  { pose proof (frames_filter_pvnames all_pvnames self) as H.
    now rewrite H1 in H. }
  destruct Hreg as (_ & _ & _ & Hig & Hf1). rewrite Hf in Hf1.
  destruct (filter_pvnames_returns s1
              (filter (keepb (ignored_pvs self) filter1 filter2) all_pvnames)
              _ _ _ Hf1) as [s2 H2].
  rewrite Hig, filter_idem in H2.
  eexists _, s1, s2. split; [exact H1|]. split; [exact H2|].
  split; [apply filter_length_le|].
  intros pvname Hin. apply filter_In in Hin as [Hin Hk].
  split; [exact Hin|]. now apply keepb_spec in Hk.
Qed.

Lemma X15_witness :
  exists kept self1 self2,
    filter_pvnames example_names example_filter_thread = Return kept self1
    /\ filter_pvnames kept self1 = Return kept self2
    /\ List.length kept <= List.length example_names
    /\ (forall pvname, In pvname kept ->
          In pvname example_names
          /\ ~ In pvname (ignored_pvs example_filter_thread)).
Proof.
  exact (X15_filter_is_projection example_filter_thread example_names
           (Some "SI-01") (Some "Temp-Mon") [] eq_refl).
Defined.

(** ** What the unread attributes cannot change *)

Lemma registry_same s s' : registry s = registry s' <-> same_registry s s'.
Proof.
  unfold registry, same_registry. split.
  - intros [= H1 H2 H3 H4 H5]. auto.
  - intros (H1 & H2 & H3 & H4 & H5). congruence.
Qed.

Lemma frames_registry {A} (m : M A) self :
  frames m -> registry (state_after (m self)) = registry self.
Proof. intros H. symmetry. apply registry_same, H. Qed.

Lemma classify_all_registry s s' :
  registry s = registry s' -> classify_all s = classify_all s'.
Proof.
  intros H. symmetry. now apply classify_all_same_registry, registry_same.
Qed.

Lemma step_check self :
  step self EvCheck =
  with_emitted self
    (emitted self ++
     cycle_report (frozen_pvs_of self) (disconnected_pvs_of self)
       (List.length (pv_values self))).
Proof. simpl. now rewrite check_pvs_state. Qed.

Lemma step_stop self :
  step self EvStop =
  with_emitted
    (with_timer (with_running self false)
       (match timer self with
        | Some t => Some (mkQTimer (interval t) false)
        | None => None
        end))
    (emitted self ++ [update_status "Monitoramento interrompido."]).
Proof. simpl. now rewrite stop_state. Qed.

Lemma step_stop_monitor self pvname :
  step self (EvStopMonitor pvname) =
  if dict_mem (pv_monitors self) pvname
  then with_pv_monitors self (dict_del (pv_monitors self) pvname)
  else self.
Proof.
  simpl. unfold stop_pv_monitor. rewrite state_after_bind. cbn [get_self].
  destruct (dict_mem (pv_monitors self) pvname); reflexivity.
Qed.

Lemma config_step self ev : config (step self ev) = config self.
Proof. apply (quiet_step (fun _ => True)); intros; exact I. Qed.

(** The observable part of the thread after [run], from the observable
    part before. *)
Lemma observable_run w s s' :
  observable s = observable s' ->
  observable (state_after (run w s)) = observable (state_after (run w s')).
Proof.
  intros H. pose proof H as H0. unfold observable, registry in H0.
  injection H0 as Epv Epm Esp Eig Ef Eem Etm Ecn Eci.
  destruct (archiver_connects w) eqn:Hc.
  2:{ rewrite !run_no_connection by exact Hc. unfold observable, registry.
      simpl. congruence. }
  destruct (getAllPVs w) as [[|n names]|] eqn:Hall.
  1,3: rewrite !run_no_names by auto; unfold observable, registry; simpl;
       congruence.
  destruct (Nat.lt_ge_cases (List.length (filters s)) 2) as [Hlen|Hlen].
  - rewrite (run_short_filters w s n names Hc Hall Hlen).
    rewrite Ef in Hlen.
    rewrite (run_short_filters w s' n names Hc Hall Hlen).
    unfold observable, registry. simpl. congruence.
  - destruct (filters s) as [|f1 [|f2 more]] eqn:Hf; simpl in Hlen; try lia.
    destruct (run_ok w s n names f1 f2 more Hc Hall Hf)
      as (r & Hr & (R1 & R2 & R3 & R4 & R5) & C1 & C2 & _ & _ & C5).
    symmetry in Ef.
    destruct (run_ok w s' n names f1 f2 more Hc Hall Ef)
      as (r' & Hr' & (R1' & R2' & R3' & R4' & R5') & C1' & C2' & _ & _ & C5').
    rewrite Hr, Hr'. cbn [state_after].
    pose proof (config_step s (EvRun w)) as K. simpl in K. rewrite Hr in K.
    pose proof (config_step s' (EvRun w)) as K'. simpl in K'. rewrite Hr' in K'.
    unfold config in K, K'. cbn [state_after] in K, K'.
    injection K as _ Kci _ _ _ _. injection K' as _ Kci' _ _ _ _.
    assert (Hm : registry (monitored w
                             (filter (keepb (ignored_pvs s) f1 f2) (n :: names)) s)
                 = registry (monitored w
                               (filter (keepb (ignored_pvs s') f1 f2) (n :: names)) s')).
    { rewrite <- Eig. apply registry_same. unfold monitored.
      apply history_ops_registry. repeat split; congruence. }
    pose proof (classify_all_registry _ _ Hm) as Hcl.
    assert (Hr0 : registry r = registry r').
    { unfold registry. rewrite R1, R2, R3, R4, R5, R1', R2', R3', R4', R5'.
      exact Hm. }
    unfold observable. rewrite Hr0, C1, C1', C2, C2', C5, C5', Kci, Kci'.
    unfold frozen_pvs_of, disconnected_pvs_of. rewrite Hcl.
    assert (Hm1 := f_equal (fun x => fst (fst (fst (fst x)))) Hm).
    cbn beta in Hm1. unfold registry in Hm1. cbn [fst] in Hm1.
    rewrite Hm1, Eem, Eig, Eci. reflexivity.
Qed.

Ltac project_fields :=
  cbn [pv_values pv_monitors set_point_suffixes ignored_pvs filters emitted
       timer conn check_interval with_pv_values with_pv_monitors
       with_emitted with_timer with_running state_after].

Lemma observable_step s s' ev :
  observable s = observable s' ->
  observable (step s ev) = observable (step s' ev).
Proof.
  intros H. destruct ev.
  - simpl. now apply observable_run.
  - cbn [step]. rewrite !start_pv_monitor_state.
    unfold observable, registry in *.
    injection H as Epv Epm Esp Eig Ef Eem Etm Ecn Eci.
    project_fields. congruence.
  - cbn [step]. unfold callback, modify.
    unfold observable, registry in *.
    injection H as Epv Epm Esp Eig Ef Eem Etm Ecn Eci.
    rewrite Epm. destruct (dict_mem (pv_monitors s') pvname);
      project_fields; congruence.
  - rewrite !step_check.
    assert (Hreg : registry s = registry s') by (unfold observable in H; congruence).
    pose proof (classify_all_registry _ _ Hreg) as Hcl.
    unfold observable, registry in *. unfold frozen_pvs_of, disconnected_pvs_of.
    rewrite Hcl.
    injection H as Epv Epm Esp Eig Ef Eem Etm Ecn Eci.
    project_fields. congruence.
  - rewrite !step_stop_monitor. unfold observable, registry in *.
    injection H as Epv Epm Esp Eig Ef Eem Etm Ecn Eci.
    rewrite Epm. destruct (dict_mem (pv_monitors s') pvname);
      project_fields; congruence.
  - rewrite !step_stop. unfold observable, registry in *.
    injection H as Epv Epm Esp Eig Ef Eem Etm Ecn Eci.
    project_fields.
    rewrite Epv, Epm, Esp, Eig, Ef, Eem, Etm, Ecn, Eci. reflexivity.
Qed.

Lemma observable_run_events evs :
  forall s s', observable s = observable s' ->
               observable (run_events s evs) = observable (run_events s' evs).
Proof.
  unfold run_events. induction evs as [|ev evs IH]; intros s s' H; simpl.
  - exact H.
  - apply IH, observable_step, H.
Qed.

(** X16. [frozen_check_duration], [initial_check_delay], [start_time]
    and [running] are written or stored and never read: two threads that
    agree on everything else go, under the same events, through the same
    histories, handles, signals, timer and connection.  In particular the
    two constructor arguments [frozen_check_duration] and
    [initial_check_delay] change nothing the thread does. *)
Theorem X16_unread_attributes s s' evs :
  observable s = observable s' ->
  observable (run_events s evs) = observable (run_events s' evs).
Proof. apply observable_run_events. Qed.

Lemma X16_witness :
  observable
    (run_events (init None 10 (2 * 60) (10 * 60))
       [EvStop; EvStartMonitor "SI-01M1:PS-Temp-Mon" (Some (Num 1)) 10%Z 1%Z;
        EvCheck])
  = observable
      (run_events (init None 10 (5 * 60) 0)
         [EvStop; EvStartMonitor "SI-01M1:PS-Temp-Mon" (Some (Num 1)) 10%Z 1%Z;
          EvCheck]).
Proof.
  exact (X16_unread_attributes (init None 10 (2 * 60) (10 * 60))
           (init None 10 (5 * 60) 0)
           [EvStop; EvStartMonitor "SI-01M1:PS-Temp-Mon" (Some (Num 1)) 10%Z 1%Z;
            EvCheck] eq_refl).
Defined.

(** ** What [stop] and the check cycle leave running *)

Lemma registry_run w s s' :
  registry s = registry s' ->
  registry (state_after (run w s)) = registry (state_after (run w s')).
Proof.
  intros H. pose proof H as H0. unfold registry in H0.
  injection H0 as Epv Epm Esp Eig Ef.
  destruct (archiver_connects w) eqn:Hc.
  2:{ rewrite !run_no_connection by exact Hc. exact H. }
  destruct (getAllPVs w) as [[|n names]|] eqn:Hall.
  1,3: rewrite !run_no_names by auto; exact H.
  destruct (Nat.lt_ge_cases (List.length (filters s)) 2) as [Hlen|Hlen].
  - rewrite (run_short_filters w s n names Hc Hall Hlen).
    rewrite Ef in Hlen.
    rewrite (run_short_filters w s' n names Hc Hall Hlen). exact H.
  - destruct (filters s) as [|f1 [|f2 more]] eqn:Hf; simpl in Hlen; try lia.
    destruct (run_ok w s n names f1 f2 more Hc Hall Hf)
      as (r & Hr & (R1 & R2 & R3 & R4 & R5) & _).
    symmetry in Ef.
    destruct (run_ok w s' n names f1 f2 more Hc Hall Ef)
      as (r' & Hr' & (R1' & R2' & R3' & R4' & R5') & _).
    rewrite Hr, Hr'. cbn [state_after].
    unfold registry at 1 2.
    rewrite R1, R2, R3, R4, R5, R1', R2', R3', R4', R5', <- Eig.
    apply registry_same. unfold monitored.
    apply history_ops_registry, registry_same, H.
Qed.

Lemma registry_step s s' ev :
  registry s = registry s' -> registry (step s ev) = registry (step s' ev).
Proof.
  intros H. destruct ev.
  - simpl. now apply registry_run.
  - cbn [step]. rewrite !start_pv_monitor_state. unfold registry in *.
    injection H as Epv Epm Esp Eig Ef. project_fields. congruence.
  - cbn [step]. unfold callback, modify. unfold registry in *.
    injection H as Epv Epm Esp Eig Ef.
    rewrite Epm. destruct (dict_mem (pv_monitors s') pvname);
      project_fields; congruence.
  - cbn [step]. now rewrite !(frames_registry _ _ frames_check_pvs).
  - rewrite !step_stop_monitor. unfold registry in *.
    injection H as Epv Epm Esp Eig Ef.
    rewrite Epm. destruct (dict_mem (pv_monitors s') pvname);
      project_fields; congruence.
  - cbn [step]. now rewrite !(frames_registry _ _ frames_stop).
Qed.

Lemma registry_erase evs :
  forall s s',
    registry s = registry s' ->
    registry (run_events s evs)
    = registry (run_events s' (filter (fun ev => negb (is_check_or_stop ev)) evs)).
Proof.
  unfold run_events.
  induction evs as [|ev evs IH]; intros s s' H; [exact H|].
  cbn [filter fold_left].
  destruct (is_check_or_stop ev) eqn:E; cbn [negb fold_left].
  - apply IH. rewrite <- H.
    destruct ev; try discriminate E; cbn [step].
    + apply (frames_registry _ _ frames_check_pvs).
    + apply (frames_registry _ _ frames_stop).
  - apply IH, registry_step, H.
Qed.

(** X17. [stop] does not end the recording, and a check cycle does not
    touch it: after any events the histories and the handles are those of
    the same events with every [stop] and every check cycle left out, so a
    value delivered after [stop] is appended like any other. *)
Theorem X17_stop_and_check_leave_recording_on self evs :
  registry (run_events self evs)
  = registry
      (run_events self (filter (fun ev => negb (is_check_or_stop ev)) evs)).
Proof. now apply registry_erase. Qed.

(** ** Stopping one monitor *)

Lemma classify_all_values s s' :
  pv_values s' = pv_values s ->
  set_point_suffixes s' = set_point_suffixes s ->
  classify_all s' = classify_all s.
Proof.
  intros Hv Hs. unfold classify_all. rewrite !check_loop_exact, Hv.
  assert (Hc : forall k, check_pv_connected s' k = check_pv_connected s k)
    by (intros k; unfold check_pv_connected; now rewrite Hv).
  assert (Hz : forall k, check_pv_frozen s' k = check_pv_frozen s k)
    by (intros k; unfold check_pv_frozen, is_set_point_pv; now rewrite Hv, Hs).
  assert (Hf : forall l, filter (reported_frozen s') l
                         = filter (reported_frozen s) l).
  { intros l. apply filter_ext. intros k. unfold reported_frozen.
    now rewrite Hc, Hz. }
  assert (Hd : forall l, filter (reported_disconnected s') l
                         = filter (reported_disconnected s) l).
  { intros l. apply filter_ext. intros k. unfold reported_disconnected.
    now rewrite Hc. }
  now rewrite Hf, Hd.
Qed.

Lemma stop_pv_monitor_state pvname self :
  stop_pv_monitor pvname self =
  Return tt
    (if dict_mem (pv_monitors self) pvname
     then with_pv_monitors self (dict_del (pv_monitors self) pvname)
     else self).
Proof.
  unfold stop_pv_monitor, bind, get_self.
  destruct (dict_mem (pv_monitors self) pvname); reflexivity.
Qed.

Lemma dict_mem_del {V} (d : dict V) k : dict_mem (dict_del d k) k = false.
Proof.
  unfold dict_mem. now rewrite dict_get_del, String.eqb_refl.
Qed.

(** X21. [stop_pv_monitor] never raises, also for a name that has no
    monitor, and a second call for the same name changes nothing.  It
    takes the handle of its PV away and leaves the handles of the others,
    the histories and the log alone: the next check cycles classify the
    PV exactly as before, from the history it had. *)
Theorem X21_stop_pv_monitor_keeps_reports self pvname :
  exists self',
    stop_pv_monitor pvname self = Return tt self'
    /\ stop_pv_monitor pvname self' = Return tt self'
    /\ dict_mem (pv_monitors self') pvname = false
    /\ (forall other, other <> pvname ->
          dict_get (pv_monitors self') other
          = dict_get (pv_monitors self) other)
    /\ emitted self' = emitted self
    /\ classify_all self' = classify_all self
    /\ check_pvs self' =
       Return tt
         (with_emitted self'
            (emitted self ++
             cycle_report (frozen_pvs_of self) (disconnected_pvs_of self)
               (List.length (pv_values self)))).
Proof.
  eexists. split; [apply stop_pv_monitor_state|].
  assert (Hm : dict_mem
                 (pv_monitors
                    (if dict_mem (pv_monitors self) pvname
                     then with_pv_monitors self
                            (dict_del (pv_monitors self) pvname)
                     else self)) pvname = false).
  { destruct (dict_mem (pv_monitors self) pvname) eqn:E; [|exact E].
    apply dict_mem_del. }
  assert (Hc : classify_all
                 (if dict_mem (pv_monitors self) pvname
                  then with_pv_monitors self
                         (dict_del (pv_monitors self) pvname)
                  else self) = classify_all self)
    by (destruct (dict_mem (pv_monitors self) pvname);
        [apply classify_all_values|]; reflexivity).
  split; [|split; [exact Hm|split; [|split; [|split; [exact Hc|]]]]].
  - rewrite stop_pv_monitor_state, Hm. reflexivity.
  - intros other Hne.
    destruct (dict_mem (pv_monitors self) pvname); [|reflexivity].
    cbn [pv_monitors with_pv_monitors]. rewrite dict_get_del.
    destruct (String.eqb_spec pvname other); [congruence | reflexivity].
  - destruct (dict_mem (pv_monitors self) pvname); reflexivity.
  - rewrite check_pvs_state. unfold frozen_pvs_of, disconnected_pvs_of.
    rewrite Hc.
    destruct (dict_mem (pv_monitors self) pvname); reflexivity.
Qed.

(** ** The window *)

Lemma emitted_not_duration fs ci fd idl evs sig :
  In sig (emitted (run_events (init fs ci fd idl) evs)) ->
  not_duration_signal sig.
Proof.
  intros Hin.
  destruct (quiet_run_events not_duration_signal
              ltac:(intros; exact I) ltac:(intros; exact I)
              ltac:(intros; exact I) ltac:(intros; exact I)
              ltac:(intros; exact I) evs (init fs ci fd idl))
    as [_ (added & He & Hall)].
  rewrite He in Hin. simpl in Hin.
  rewrite Forall_forall in Hall. now apply Hall.
Qed.

Lemma link_spans_no_time_apply urlencode get_time_string win op :
  match op with
  | MainWindow.Deliver sig => not_duration_signal sig
  | _ => True
  end ->
  link_spans_no_time urlencode get_time_string win ->
  link_spans_no_time urlencode get_time_string
    (MainWindow.apply urlencode get_time_string win op).
Proof.
  intros Hop [H0 Hurl]. unfold link_spans_no_time.
  destruct op as [sig| | |running|]; simpl; auto.
  - destruct sig; simpl in *; auto; try contradiction.
    unfold MainWindow.update_frozen_pv_output.
    destruct pvs as [|p pvs]; simpl; [auto|].
    split; [exact H0|]. right. exists (p :: pvs). split; [discriminate|].
    rewrite H0. reflexivity.
  - destruct running; simpl; auto.
Qed.

(** X18. The thread never emits [frozen_check_duration_signal], so the
    window's [frozen_check_duration] stays 0: whatever buttons are clicked
    and whatever signals of thread executions are delivered, every link
    the window generates has the same clock offset, 0 minutes, at both
    ends of its time range. *)
Theorem X18_link_spans_no_time urlencode get_time_string t1 t2 ops :
  (forall sig, In (MainWindow.Deliver sig) ops ->
     exists fs ci fd idl evs,
       In sig (emitted (run_events (init fs ci fd idl) evs))) ->
  let win :=
    MainWindow.run_ops urlencode get_time_string (MainWindow.init t1 t2) ops in
  MainWindow.frozen_check_duration win = 0%Z
  /\ (MainWindow.generated_url win = None
      \/ exists frozen_pvs,
           frozen_pvs <> []
           /\ MainWindow.generated_url win =
              Some (MainWindow.base_url ++ "?"
                    ++ urlencode frozen_pvs (get_time_string 0%Z)
                         (get_time_string 0%Z))%string).
Proof.
  intros Hops. cbv zeta.
  fold (link_spans_no_time urlencode get_time_string
          (MainWindow.run_ops urlencode get_time_string
             (MainWindow.init t1 t2) ops)).
  assert (H0 : link_spans_no_time urlencode get_time_string
                 (MainWindow.init t1 t2))
    by (split; [reflexivity | left; reflexivity]).
  revert H0 Hops. generalize (MainWindow.init t1 t2) as win.
  unfold MainWindow.run_ops.
  induction ops as [|op ops IH]; intros win H0 Hops; simpl; [exact H0|].
  apply IH.
  - apply link_spans_no_time_apply; [|exact H0].
    destruct op as [sig| | | |]; try exact I.
    destruct (Hops sig (or_introl eq_refl)) as (fs & ci & fd & idl & evs & Hin).
    eapply emitted_not_duration; exact Hin.
  - intros sig Hin. apply Hops. now right.
Qed.

Lemma X18_witness :
  MainWindow.generated_url
    (MainWindow.run_ops example_urlencode example_get_time_string
       (MainWindow.init "SI-01" "")
       [MainWindow.ClickListPVs false;
        MainWindow.Deliver (frozen_pvs_signal ["SI-01:Current-SP"])])
  = Some "http://archiver-viewer.lnls.br/?pv=SI-01:Current-SP&from=0&to=0".
Proof.
  assert (H := X18_link_spans_no_time example_urlencode
                 example_get_time_string "SI-01" ""
                 [MainWindow.ClickListPVs false;
                  MainWindow.Deliver (frozen_pvs_signal ["SI-01:Current-SP"])]).
  cbv zeta in H.
  destruct H as [_ [H | (frozen_pvs & _ & H)]].
  - intros sig [Hin | [Hin | []]]; [discriminate Hin|].
    injection Hin as <-.
    exists None, 1%Z, 300%Z, 600%Z,
      [EvStartMonitor "SI-01:Current-SP" (Some (Num 1)) 0%Z 1%Z; EvCheck].
    vm_compute. left. reflexivity.
  - discriminate H.
  - reflexivity.
Defined.

(** X19. Nothing hides the link again: once the button is visible and a
    link is held, no signal and no click, [Clear Log] and an empty frozen
    list included, hides the button or drops the link. *)
Theorem X19_link_button_never_hidden urlencode get_time_string win ops :
  MainWindow.open_link_button_visible win = true ->
  MainWindow.generated_url win <> None ->
  MainWindow.open_link_button_visible
    (MainWindow.run_ops urlencode get_time_string win ops) = true
  /\ MainWindow.generated_url
       (MainWindow.run_ops urlencode get_time_string win ops) <> None.
Proof.
  unfold MainWindow.run_ops. revert win.
  induction ops as [|op ops IH]; intros win Hv Hu; simpl; [auto|].
  apply IH.
  - destruct op as [sig| | |running|]; simpl; auto.
    + destruct sig; simpl; auto.
      unfold MainWindow.update_frozen_pv_output.
      destruct (py_not pvs); simpl; auto.
    + destruct running; simpl; auto.
  - destruct op as [sig| | |running|]; simpl; auto.
    + destruct sig; simpl; auto.
      unfold MainWindow.update_frozen_pv_output.
      destruct (py_not pvs); simpl; [auto | discriminate].
    + destruct running; simpl; auto.
Qed.

Lemma X19_witness :
  MainWindow.open_link_button_visible
    (MainWindow.run_ops example_urlencode example_get_time_string
       example_window_with_link
       [MainWindow.ClickClear; MainWindow.Deliver (frozen_pvs_signal []);
        MainWindow.ClickStop]) = true
  /\ MainWindow.generated_url
       (MainWindow.run_ops example_urlencode example_get_time_string
          example_window_with_link
          [MainWindow.ClickClear; MainWindow.Deliver (frozen_pvs_signal []);
           MainWindow.ClickStop]) <> None.
Proof.
  apply (X19_link_button_never_hidden example_urlencode
           example_get_time_string example_window_with_link).
  - reflexivity.
  - discriminate.
Defined.

Lemma field_deliver_all urlencode get_time_string {X}
    (proj : MainWindow.t -> X) (upd : Signal -> X -> X) :
  (forall sig win,
     proj (MainWindow.deliver urlencode get_time_string sig win)
     = upd sig (proj win)) ->
  forall log win,
    proj (MainWindow.deliver_all urlencode get_time_string win log)
    = fold_left (fun acc sig => upd sig acc) log (proj win).
Proof.
  intros H. unfold MainWindow.deliver_all.
  induction log as [|sig log IH]; intros win; simpl; [reflexivity|].
  now rewrite IH, H.
Qed.

Lemma progress_bar_deliver urlencode get_time_string sig win :
  MainWindow.progress_bar (MainWindow.deliver urlencode get_time_string sig win)
  = match sig with
    | progress_update p => MainWindow.setValue p (MainWindow.progress_bar win)
    | _ => MainWindow.progress_bar win
    end.
Proof.
  destruct sig; try reflexivity. simpl.
  unfold MainWindow.update_frozen_pv_output. destruct (py_not pvs); reflexivity.
Qed.

Lemma pv_output_deliver urlencode get_time_string sig win :
  MainWindow.pv_output (MainWindow.deliver urlencode get_time_string sig win)
  = match sig with
    | updt_pv_log pvs =>
        if py_not pvs then ["Nenhuma PV foi listada."] else pvs
    | _ => MainWindow.pv_output win
    end.
Proof.
  destruct sig; try reflexivity. simpl.
  unfold MainWindow.update_frozen_pv_output. destruct (py_not pvs); reflexivity.
Qed.

Lemma disconnected_deliver urlencode get_time_string sig win :
  MainWindow.disconnected_pv_output
    (MainWindow.deliver urlencode get_time_string sig win)
  = match sig with
    | not_stored_pvs_signal pvs =>
        if py_not pvs then ["Nenhuma PV desconectada detectada."]
        else "PVs desconectadas:" :: pvs
    | _ => MainWindow.disconnected_pv_output win
    end.
Proof.
  destruct sig; try reflexivity. simpl.
  unfold MainWindow.update_frozen_pv_output. destruct (py_not pvs); reflexivity.
Qed.

Lemma fold_progress_only {X} (upd : Signal -> X -> X) (f : nat -> Z) l :
  (forall p x, upd (progress_update p) x = x) ->
  forall x,
    fold_left (fun acc sig => upd sig acc)
      (map (fun i => progress_update (f i)) l) x = x.
Proof.
  intros H. induction l as [|i l IH]; intros x; simpl; [reflexivity|].
  now rewrite H, IH.
Qed.

(** X20. The window after a successful [run]: when the signals that [run]
    has emitted are delivered in order, the progress bar stands at 100,
    the names pane lists the kept names (or says that none was listed),
    and the disconnected pane lists, in store order, the PVs that are not
    connected in the store the first check cycle reads, that is the store
    after the bootstraps and the callbacks that arrived up to the end of
    the sleep (or says that there is none). *)
Theorem X20_window_after_run urlencode get_time_string w self n names
    filter1 filter2 more :
  archiver_connects w = true ->
  getAllPVs w = Some (n :: names) ->
  filters self = filter1 :: filter2 :: more ->
  let filtered :=
    filter (keepb (ignored_pvs self) filter1 filter2) (n :: names) in
  let before_check :=
    run_events self (map event_of (history_ops_of_run w filtered)) in
  let disconnected_pvs :=
    filter (fun pvname => negb (check_pv_connected before_check pvname))
      (dict_keys (pv_values before_check)) in
  exists added,
    emitted (state_after (run w self)) = emitted self ++ added
    /\ forall win,
         MainWindow.progress_bar
           (MainWindow.deliver_all urlencode get_time_string win added)
         = 100%Z
         /\ MainWindow.pv_output
              (MainWindow.deliver_all urlencode get_time_string win added)
            = (if py_not filtered then ["Nenhuma PV foi listada."]
               else filtered)
         /\ MainWindow.disconnected_pv_output
              (MainWindow.deliver_all urlencode get_time_string win added)
            = (if py_not disconnected_pvs
               then ["Nenhuma PV desconectada detectada."]
               else "PVs desconectadas:" :: disconnected_pvs).
Proof.
  intros Hc Hall Hf filtered before_check disconnected_pvs.
  destruct (run_ok w self n names filter1 filter2 more Hc Hall Hf)
    as (self' & Hrun & _ & _ & _ & _ & _ & He).
  assert (Ed : disconnected_pvs = disconnected_pvs_of before_check).
  { unfold disconnected_pvs_of. rewrite classify_all_exact. reflexivity. }
  rewrite Hrun. cbn [state_after]. eexists. split; [exact He|].
  intros win. rewrite Ed.
  split; [|split].
  - rewrite (field_deliver_all urlencode get_time_string
               MainWindow.progress_bar
               (fun sig acc => match sig with
                               | progress_update p => MainWindow.setValue p acc
                               | _ => acc
                               end)
               (progress_bar_deliver urlencode get_time_string)).
    rewrite !fold_left_app. reflexivity.
  - rewrite (field_deliver_all urlencode get_time_string
               MainWindow.pv_output
               (fun sig acc =>
                  match sig with
                  | updt_pv_log pvs =>
                      if py_not pvs then ["Nenhuma PV foi listada."] else pvs
                  | _ => acc
                  end)
               (pv_output_deliver urlencode get_time_string)).
    rewrite !fold_left_app.
    rewrite fold_progress_only by reflexivity. reflexivity.
  - rewrite (field_deliver_all urlencode get_time_string
               MainWindow.disconnected_pv_output
               (fun sig acc =>
                  match sig with
                  | not_stored_pvs_signal pvs =>
                      if py_not pvs then ["Nenhuma PV desconectada detectada."]
                      else "PVs desconectadas:" :: pvs
                  | _ => acc
                  end)
               (disconnected_deliver urlencode get_time_string)).
    rewrite !fold_left_app.
    rewrite fold_progress_only by reflexivity. reflexivity.
Qed.

Lemma X20_witness :
  exists added,
    emitted (state_after (run example_world example_filter_thread)) = added
    /\ MainWindow.progress_bar
         (MainWindow.deliver_all example_urlencode example_get_time_string
            (MainWindow.init "SI-01" "Temp-Mon") added) = 100%Z
    /\ MainWindow.pv_output
         (MainWindow.deliver_all example_urlencode example_get_time_string
            (MainWindow.init "SI-01" "Temp-Mon") added) = ["SI-01:Temp-Mon"].
Proof.
  destruct (X20_window_after_run example_urlencode example_get_time_string
              example_world example_filter_thread
              "SI-01:Temp-Mon" ["A"; "SI-02:Temp-Mon"; "SI-01:Other"]
              (Some "SI-01") (Some "Temp-Mon") [] eq_refl eq_refl eq_refl)
    as (added & He & Hw).
  exists added. split; [exact He|].
  destruct (Hw (MainWindow.init "SI-01" "Temp-Mon")) as (Hp & Ho & _).
  split; [exact Hp | exact Ho].
Defined.
